(** * estimate_data_volume: a shallow embedding of [src/estimate_data_volume.cc]

    The program opens a batch of HDF5 files one after the other, visits the
    objects of each, and after every file writes one CSV row with the
    allocator statistics of the HDF5 library and the accumulated file size.

    The HDF5 library is an external collaborator: it is an interface (a type
    class over an abstract library state) whose operations return what the C
    functions return and write.  The program itself is a computation in a
    small state-and-exit monad over the process state: the library state, the
    two standard streams, the output file stream and the trace of the calls
    made so far.  A computation returns, ends the process with [exit], or is
    lost: it writes past the end of an array, or it is caught in a loop that
    never ends. *)

From Stdlib Require Import ZArith NArith List String Ascii Bool Lia.
From Stdlib Require Import DecimalString DecimalN.
From Stdlib Require Import PrimFloat.
From Stdlib Require Import OrderedTypeEx Sorted.
Import ListNotations.

Local Open Scope Z_scope.
Local Open Scope string_scope.

(** ** C types *)

Definition hid_t := Z.      (* int64_t *)
Definition herr_t := Z.     (* int *)
Definition int := Z.
Definition hsize_t := N.    (* unsigned 64-bit *)
Definition size_t := N.     (* unsigned 64-bit *)
Definition double := float. (* IEEE 754 binary64 *)

Bind Scope N_scope with hsize_t size_t.
Bind Scope Z_scope with hid_t herr_t int.
Bind Scope float_scope with double.

Definition two64 : N := 2 ^ 64.

(** [unsigned long long] / [size_t] arithmetic wraps. *)
Definition wrap64 (n : N) : N := (n mod two64)%N.

Definition two32 : N := 2 ^ 32.

(** [unsigned] arithmetic wraps at 32 bits. *)
Definition wrap32 (n : N) : N := (n mod two32)%N.

(** The part of [H5_alloc_stats_t] the program reads. *)
Record H5_alloc_stats_t := mk_alloc_stats {
  total_alloc_bytes : N;
  curr_alloc_bytes : N;
  peak_alloc_bytes : N
}.

Inductive H5O_type_t :=
| H5O_TYPE_UNKNOWN
| H5O_TYPE_GROUP
| H5O_TYPE_DATASET
| H5O_TYPE_NAMED_DATATYPE.

(** The part of [H5O_info_t] the program reads. *)
Record H5O_info_t := mk_info { type : H5O_type_t }.

Definition H5O_type_eqb (a b : H5O_type_t) : bool :=
  match a, b with
  | H5O_TYPE_UNKNOWN, H5O_TYPE_UNKNOWN
  | H5O_TYPE_GROUP, H5O_TYPE_GROUP
  | H5O_TYPE_DATASET, H5O_TYPE_DATASET
  | H5O_TYPE_NAMED_DATATYPE, H5O_TYPE_NAMED_DATATYPE => true
  | _, _ => false
  end.

Inductive H5_index_t := H5_INDEX_NAME | H5_INDEX_CRT_ORDER.
Inductive H5_iter_order_t := H5_ITER_INC | H5_ITER_DEC | H5_ITER_NATIVE.

Definition H5P_DEFAULT : hid_t := 0.
Definition H5F_ACC_RDONLY : N := 0.

(** The values [H5Pget_cache] writes through its four pointers. *)
Record cache_params := mk_cache {
  out_mdc_nelmts : int;
  out_rdcc_nslots : size_t;
  out_rdcc_nbytes : size_t;
  out_w0 : double
}.

(** One object handed to the visitor by [H5Ovisit]: the location id, the
    object's name relative to it, and its info record. *)
Record visited := mk_visited {
  v_obj : hid_t;
  v_name : string;
  v_info : H5O_info_t
}.

(** ** The HDF5 library, as the program uses it

    Each operation takes the library state and returns the C return value,
    the values written through the out-pointers, and the next library state.
    An out-value given as [option] is [None] when the library leaves the
    pointee untouched (as the C functions do when they fail). *)

Class HDF5 (L : Type) := {
  (* the property-list class id the macro H5P_FILE_ACCESS expands to *)
  H5P_FILE_ACCESS : hid_t;
  lib_H5Pcreate : hid_t -> L -> hid_t * L;
  lib_H5Pset_fapl_core : hid_t -> size_t -> bool -> L -> herr_t * L;
  (* the status, and the four values written (read only on success) *)
  lib_H5Pget_cache : hid_t -> L -> (herr_t * cache_params) * L;
  lib_H5Pset_cache : hid_t -> int -> size_t -> size_t -> double -> L -> herr_t * L;
  lib_H5Pset_all_coll_metadata_ops : hid_t -> bool -> L -> herr_t * L;
  lib_H5get_alloc_stats : L -> H5_alloc_stats_t * L;
  lib_H5Fopen : string -> N -> hid_t -> L -> hid_t * L;
  lib_H5Fget_filesize : hid_t -> L -> (herr_t * option hsize_t) * L;
  (* the objects H5Ovisit is about to hand to the callback, and the status
     it returns when every callback returns 0 *)
  lib_H5Ovisit : hid_t -> H5_index_t -> H5_iter_order_t -> L -> (herr_t * list visited) * L;
  lib_H5Dopen : hid_t -> string -> hid_t -> L -> hid_t * L;
  lib_H5Dget_space : hid_t -> L -> hid_t * L;
  (* the rank returned and the dimension sizes written, first one first *)
  lib_H5Sget_simple_extent_dims : hid_t -> L -> (int * list hsize_t) * L;
  lib_H5Sclose : hid_t -> L -> herr_t * L;
  lib_H5Dclose : hid_t -> L -> herr_t * L;
  lib_H5Fclose : hid_t -> L -> herr_t * L;
  (* what an uninitialised hsize_t on the stack happens to hold *)
  indeterminate_hsize : L -> hsize_t
}.

(** ** Trace of the calls a run makes

    Every library call is recorded with its arguments and what it returned;
    [EvRow] records a row handed to [report]. *)

Inductive event :=
| EvH5Pcreate (cls ret : hid_t)
| EvH5Pset_fapl_core (fapl : hid_t) (increment : size_t) (backing_store : bool) (ret : herr_t)
| EvH5Pget_cache (fapl : hid_t) (ret : herr_t) (out : cache_params)
| EvH5Pset_cache (fapl : hid_t) (nelmts : int) (nslots nbytes : size_t) (w0 : double) (ret : herr_t)
| EvH5Pset_all_coll_metadata_ops (fapl : hid_t) (is_collective : bool) (ret : herr_t)
| EvH5get_alloc_stats (out : H5_alloc_stats_t)
| EvH5Fopen (path : string) (flags : N) (fapl : hid_t) (ret : hid_t)
| EvH5Fget_filesize (file : hid_t) (ret : herr_t) (out : option hsize_t)
| EvH5Ovisit (file : hid_t) (ret : herr_t) (objs : list visited)
| EvH5Dopen (loc : hid_t) (name : string) (dapl : hid_t) (ret : hid_t)
| EvH5Dget_space (dset : hid_t) (ret : hid_t)
| EvH5Sget_simple_extent_dims (space : hid_t) (ret : int) (dims : list hsize_t)
| EvH5Sclose (space : hid_t) (ret : herr_t)
| EvH5Dclose (dset : hid_t) (ret : herr_t)
| EvH5Fclose (file : hid_t) (ret : herr_t)
| EvRow (alloc : H5_alloc_stats_t) (acc_file_size : hsize_t).

(** ** Streams *)

Definition nl : string := String "010"%char EmptyString.

(** A [std::ofstream]: when the file could not be opened the stream is not
    good and every insertion is dropped.  [written] is what has been
    inserted so far; when it reaches the disk (buffering, flushing) is not
    modelled. *)
Record ofstream := mk_ofstream {
  is_open : bool;
  written : string
}.

Definition put (s : string) (f : ofstream) : ofstream :=
  if is_open f then mk_ofstream true (written f ++ s) else f.

(** [operator<<] on an unsigned integer with the default flags: its decimal
    digits. *)
Definition dec (n : N) : string := NilZero.string_of_uint (N.to_uint n).

(** ** Process state and the monad *)

Section Program.

Context {L : Type} `{HDF5 L}.

(** What a run can change: the library, standard output and standard error,
    the output file stream of [main], and the trace. *)
Record process := mk_process {
  lib : L;
  trace : list event;
  cout : string;
  cerr : string;
  outfile : ofstream
}.

(** Where the program leaves what the language defines or what ever ends:
    a write past the end of an array, whose effect is undefined, and a loop
    whose index wraps around before it reaches its bound. *)
Inductive anomaly :=
| array_overrun
| endless_loop.

(** A computation returns normally, ends the process with [exit], or is
    lost.  The process state that comes with [Lost] is the state at the
    point where the computation is lost; nothing is said about what follows
    it. *)
Inductive outcome (A : Type) :=
| Ret (a : A)
| Exit (status : Z)
| Lost (why : anomaly).
Arguments Ret {A} a.
Arguments Exit {A} status.
Arguments Lost {A} why.

Definition M (A : Type) : Type := process -> outcome A * process.

Definition ret {A} (a : A) : M A := fun p => (Ret a, p).

Definition bind {A B} (m : M A) (k : A -> M B) : M B :=
  fun p => match m p with
           | (Ret a, p') => k a p'
           | (Exit s, p') => (Exit s, p')
           | (Lost why, p') => (Lost why, p')
           end.

Definition exit {A} (status : Z) : M A := fun p => (Exit status, p).

Definition lost {A} (why : anomaly) : M A := fun p => (Lost why, p).

Definition print_cout (s : string) : M unit :=
  fun p => (Ret tt, mk_process (lib p) (trace p) (cout p ++ s) (cerr p) (outfile p)).

Definition log (e : event) : M unit :=
  fun p => (Ret tt, mk_process (lib p) (trace p ++ [e]) (cout p) (cerr p) (outfile p)).

Definition on_outfile (f : ofstream -> ofstream) : M unit :=
  fun p => (Ret tt, mk_process (lib p) (trace p) (cout p) (cerr p) (f (outfile p))).

(** A library call: run it on the library state and record it. *)
Definition call {R} (f : L -> R * L) (ev : R -> event) : M R :=
  fun p => let (r, l') := f (lib p) in
           (Ret r, mk_process l' (trace p ++ [ev r]) (cout p) (cerr p) (outfile p)).

Definition read_lib {R} (f : L -> R) : M R := fun p => (Ret (f (lib p)), p).

End Program.

Arguments Ret {A} a.
Arguments Exit {A} status.
Arguments Lost {A} why.
Arguments process L : clear implicits.
Arguments M L A : clear implicits.

Notation "x <- m ;; k" := (bind m (fun x => k))
  (at level 61, m at next level, right associativity).
Notation "' pat <- m ;; k" := (bind m (fun x => match x with pat => k end))
  (at level 61, pat pattern, m at next level, right associativity).
Notation "m ;;; k" := (bind m (fun _ => k))
  (at level 61, right associativity).

(** ** Pure parts of the C++ library the program uses *)

(** [for (std::string line; getline(infile, line); )]: the lines of the
    stream, without their line ends.  [getline] at the end of the stream with
    nothing extracted fails, so a final line end opens no further line. *)
Fixpoint getlines (line : string) (s : string) : list string :=
  match s with
  | EmptyString => if (line =? "")%string then [] else [line]
  | String c rest =>
      if (c =? "010")%char then line :: getlines "" rest
      else getlines (line ++ String c "") rest
  end.

(** [s.c_str()] read as a C string: up to the first NUL. *)
Fixpoint c_str (s : string) : string :=
  match s with
  | EmptyString => EmptyString
  | String c rest => if (c =? "000")%char then EmptyString else String c (c_str rest)
  end.

(** [std::map<std::string, hid_t>]: the entries in increasing key order. *)
Definition file_map := list (string * hid_t).

(** [m[k] = v] *)
Fixpoint map_assign (k : string) (v : hid_t) (m : file_map) : file_map :=
  match m with
  | [] => [(k, v)]
  | (k', v') :: m' =>
      match String.compare k k' with
      | Lt => (k, v) :: m
      | Eq => (k', v) :: m'
      | Gt => (k', v') :: map_assign k v m'
      end
  end.

Fixpoint map_find (k : string) (m : file_map) : option hid_t :=
  match m with
  | [] => None
  | (k', v') :: m' => if (k =? k')%string then Some v' else map_find k m'
  end.

(** A file system as [main] sees it: the content of a file opened for
    reading ([None] when it cannot be opened), and whether a file can be
    opened for writing.  The list file and the output file are taken to be
    different files. *)
Record filesystem := mk_fs {
  open_read : string -> option string;
  open_write : string -> bool
}.

(** ** The program *)

Section Source.

Context {L : Type} `{HDF5 L}.

(** *** Library calls, recorded *)

Definition H5Pcreate (cls : hid_t) : M L hid_t :=
  call (lib_H5Pcreate cls) (EvH5Pcreate cls).

Definition H5Pset_fapl_core (fapl : hid_t) (increment : size_t) (backing : bool) : M L herr_t :=
  call (lib_H5Pset_fapl_core fapl increment backing) (EvH5Pset_fapl_core fapl increment backing).

Definition H5Pget_cache (fapl : hid_t) : M L (herr_t * cache_params) :=
  call (lib_H5Pget_cache fapl) (fun r => EvH5Pget_cache fapl (fst r) (snd r)).

Definition H5Pset_cache (fapl : hid_t) (nelmts : int) (nslots nbytes : size_t) (w0 : double)
  : M L herr_t :=
  call (lib_H5Pset_cache fapl nelmts nslots nbytes w0)
       (EvH5Pset_cache fapl nelmts nslots nbytes w0).

Definition H5Pset_all_coll_metadata_ops (fapl : hid_t) (is_collective : bool) : M L herr_t :=
  call (lib_H5Pset_all_coll_metadata_ops fapl is_collective)
       (EvH5Pset_all_coll_metadata_ops fapl is_collective).

Definition H5get_alloc_stats : M L H5_alloc_stats_t :=
  call lib_H5get_alloc_stats EvH5get_alloc_stats.

Definition H5Fopen (path : string) (flags : N) (fapl : hid_t) : M L hid_t :=
  call (lib_H5Fopen path flags fapl) (EvH5Fopen path flags fapl).

Definition H5Fget_filesize (file : hid_t) : M L (herr_t * option hsize_t) :=
  call (lib_H5Fget_filesize file) (fun r => EvH5Fget_filesize file (fst r) (snd r)).

Definition H5Dopen (loc : hid_t) (name : string) (dapl : hid_t) : M L hid_t :=
  call (lib_H5Dopen loc name dapl) (EvH5Dopen loc name dapl).

Definition H5Dget_space (dset : hid_t) : M L hid_t :=
  call (lib_H5Dget_space dset) (EvH5Dget_space dset).

Definition H5Sget_simple_extent_dims (space : hid_t) : M L (int * list hsize_t) :=
  call (lib_H5Sget_simple_extent_dims space)
       (fun r => EvH5Sget_simple_extent_dims space (fst r) (snd r)).

Definition H5Sclose (space : hid_t) : M L herr_t :=
  call (lib_H5Sclose space) (EvH5Sclose space).

Definition H5Dclose (dset : hid_t) : M L herr_t :=
  call (lib_H5Dclose dset) (EvH5Dclose dset).

Definition H5Fclose (file : hid_t) : M L herr_t :=
  call (lib_H5Fclose file) (EvH5Fclose file).

(** [H5Ovisit] hands the objects to the callback one after the other and
    stops at the first callback that returns non-zero, whose value it then
    returns.  The callback's context pointer is the value [d] threaded
    through. *)
Fixpoint visit_each {D} (op : hid_t -> string -> H5O_info_t -> D -> M L (herr_t * D))
         (objs : list visited) (d : D) : M L (herr_t * D) :=
  match objs with
  | [] => ret (0, d)
  | o :: rest =>
      '(r, d') <- op (v_obj o) (v_name o) (v_info o) d ;;
      if (r =? 0)%Z then visit_each op rest d' else ret (r, d')
  end.

Definition H5Ovisit {D} (file : hid_t) (idx : H5_index_t) (ord : H5_iter_order_t)
           (op : hid_t -> string -> H5O_info_t -> D -> M L (herr_t * D)) (d : D)
  : M L (herr_t * D) :=
  '(st, objs) <- call (lib_H5Ovisit file idx ord) (fun r => EvH5Ovisit file (fst r) (snd r)) ;;
  '(r, d') <- visit_each op objs d ;;
  ret (if (r =? 0)%Z then st else r, d').

(** *** _HANDLE_ERROR (lines 11-15) *)

Definition _HANDLE_ERROR {A} (fun_ : string) : M L A :=
  print_cout ("Error: " ++ fun_ ++ nl) ;;; exit 1.

(** *** report and header (lines 18-29) *)

Definition report (file : ofstream) (alloc : H5_alloc_stats_t) (acc_file_size : hsize_t)
  : ofstream :=
  let file := put "," (put (dec (total_alloc_bytes alloc)) file) in
  let file := put "," (put (dec (curr_alloc_bytes alloc)) file) in
  let file := put "," (put (dec (peak_alloc_bytes alloc)) file) in
  put nl (put (dec acc_file_size) file).

Definition header (file : ofstream) : ofstream :=
  put nl (put "total_alloc_bytes,curr_alloc_bytes,peak_alloc_bytes,acc_file_size" file).

(** *** set_rawdata_cache (lines 38-62)

    The parameters [rdcc_nslots], [rdcc_nbytes] and [w0] are passed by
    value; their addresses, with that of the local [mdc_nelmts], are then
    handed to [H5Pget_cache], which writes the current values of the
    property list through them. *)

Definition set_rawdata_cache (fapl_id : hid_t) (rdcc_nslots rdcc_nbytes : size_t) (w0 : double)
  : M L int :=
  let err_exit := 0 in
  '(err, out) <- H5Pget_cache fapl_id ;;
  (* written through &mdc_nelmts, &rdcc_nslots, &rdcc_nbytes, &w0 *)
  let mdc_nelmts := out_mdc_nelmts out in
  let rdcc_nslots := out_rdcc_nslots out in
  let rdcc_nbytes := out_rdcc_nbytes out in
  let w0 := out_w0 out in
  if (err <? 0)%Z then _HANDLE_ERROR "H5Pget_cache" else
  err <- H5Pset_cache fapl_id mdc_nelmts rdcc_nslots rdcc_nbytes w0 ;;
  if (err <? 0)%Z then _HANDLE_ERROR "H5Pset_cache" else
  ret err_exit.

(** *** op_data_t and op_func (lines 64-87) *)

Record op_data_t := mk_op_data { dset_ids : list hid_t }.

(** [H5Sget_simple_extent_dims] writes the size of every dimension of the
    dataspace through its second argument, here the array [dset_dims] of
    two elements.  With more than two sizes the library writes past the end
    of the array and what the callback does from there on is undefined:
    [Lost array_overrun].  [dset_dims[0]] keeps what it held when nothing is
    written (a failed call, a dataspace without dimensions). *)
Definition op_func (obj : hid_t) (name : string) (info : H5O_info_t) (op_data : op_data_t)
  : M L (herr_t * op_data_t) :=
  (if H5O_type_eqb (type info) H5O_TYPE_DATASET then
     dset_id <- H5Dopen obj name H5P_DEFAULT ;;
     space_id <- H5Dget_space dset_id ;;
     (* hsize_t dset_dims[2], not initialised *)
     garbage <- read_lib indeterminate_hsize ;;
     '(ndims, dims) <- H5Sget_simple_extent_dims space_id ;;
     (* the library has written one size per dimension into dset_dims:
        more than two of them do not fit *)
     if (2 <? List.length dims)%nat then lost array_overrun else
     let dset_dims0 := nth 0 dims garbage in
     err <- H5Sclose space_id ;;
     if (dset_dims0 <=? 0)%N then
       err <- H5Dclose dset_id ;; ret tt
     else ret tt
   else ret tt) ;;;
  ret (0, op_data).

(** *** main (lines 90-167) *)

(** Lines 117-140: the file access property list, by the three flags. *)
Definition configure (posix_open in_memory_io chunk_caching : bool)
           (raw_chunk_cache_size : size_t) : M L hid_t :=
  if posix_open then
    if in_memory_io then
      fapl_id <- H5Pcreate H5P_FILE_ACCESS ;;
      err <- H5Pset_fapl_core fapl_id 0%N false ;;
      if (err <? 0)%Z then _HANDLE_ERROR "H5Pset_fapl_core" else
      (if chunk_caching then
         err <- set_rawdata_cache fapl_id 521%N raw_chunk_cache_size 1.0%float ;;
         if (err <? 0)%Z then _HANDLE_ERROR "set_rawdata_cache" else ret tt
       else ret tt) ;;;
      ret fapl_id
    else ret H5P_DEFAULT
  else
    fapl_id <- H5Pcreate H5P_FILE_ACCESS ;;
    if (fapl_id <? 0)%Z then _HANDLE_ERROR "H5Pcreate" else
    err <- H5Pset_all_coll_metadata_ops fapl_id false ;;
    if (err <? 0)%Z then _HANDLE_ERROR "H5Pset_all_coll_metadata_ops" else
    ret fapl_id.

(** A call of [report] on the output file of [main]. *)
Definition emit (alloc : H5_alloc_stats_t) (acc_file_size : hsize_t) : M L unit :=
  log (EvRow alloc acc_file_size) ;;;
  on_outfile (fun file => report file alloc acc_file_size).

(** The locals the scan loop updates. *)
Record locals := mk_locals {
  curr_file_size : hsize_t;
  acc_file_size : hsize_t;
  op_data : op_data_t;
  file_ids : file_map
}.

(** Lines 147-158: the iterations from index [i] on, [hdf5_files] being the
    elements from [hdf5_files[i]] to the last.  The index is an [unsigned]
    of 32 bits, compared with the [size_t] that [size()] returns.  When
    [i++] wraps around to 0, after the element of index 2^32 - 1, the index
    is below the size again and the loop starts over from the first
    element: with 2^32 elements or more it never ends.
    [curr_file_size] keeps its value when the size query writes nothing. *)
Fixpoint scan_files (i : N) (hdf5_files : list string) (fapl_id : hid_t) (st : locals)
  : M L locals :=
  match hdf5_files with
  | [] => ret st
  | path :: rest =>
      file_id <- H5Fopen (c_str path) H5F_ACC_RDONLY fapl_id ;;
      '(_, size_out) <- H5Fget_filesize file_id ;;
      let curr_file_size' :=
        match size_out with Some sz => sz | None => curr_file_size st end in
      let acc_file_size' := wrap64 (acc_file_size st + curr_file_size') in
      '(err, op_data') <- H5Ovisit file_id H5_INDEX_NAME H5_ITER_NATIVE op_func (op_data st) ;;
      curr_alloc <- H5get_alloc_stats ;;
      emit curr_alloc acc_file_size' ;;;
      let st' :=
        mk_locals curr_file_size' acc_file_size' op_data'
                  (map_assign path file_id (file_ids st)) in
      (* i++ *)
      let i' := wrap32 (i + 1) in
      if (i' =? 0)%N then lost endless_loop else
      scan_files i' rest fapl_id st'
  end.

(** Lines 160-163. *)
Fixpoint close_files (ids : file_map) : M L unit :=
  match ids with
  | [] => ret tt
  | (_, fid) :: rest =>
      err <- H5Fclose fid ;;
      if (err <? 0)%Z then _HANDLE_ERROR "H5Fclose" else close_files rest
  end.

Definition usage : string :=
  "Usage: estimate_data_volume /path/to/file_list.txt /path/to/output.csv".

Definition raw_chunk_cache_size : size_t := wrap64 (64 * 1024 * 1024)%N.

Definition main (fs : filesystem) (argv : list string) : M L int :=
  if negb (List.length argv =? 3)%nat then
    print_cout (usage ++ nl) ;;; exit 1
  else
  let infile := open_read fs (nth 1 argv "") in
  on_outfile (fun _ => mk_ofstream (open_write fs (nth 2 argv "")) "") ;;;
  on_outfile header ;;;
  let hdf5_files := match infile with Some s => getlines "" s | None => [] end in
  let curr_file_size := 0%N in
  let acc_file_size := 0%N in
  let posix_open := true in
  let in_memory_io := true in
  let chunk_caching := true in
  fapl_id <- configure posix_open in_memory_io chunk_caching raw_chunk_cache_size ;;
  curr_alloc <- H5get_alloc_stats ;;
  emit curr_alloc acc_file_size ;;;
  st <- scan_files 0%N hdf5_files fapl_id
          (mk_locals curr_file_size acc_file_size (mk_op_data []) []) ;;
  close_files (file_ids st) ;;;
  ret 0.

(** The exit status of the process, when it ends. *)
Definition exit_status (o : outcome int) : option Z :=
  match o with
  | Ret v => Some v
  | Exit s => Some s
  | Lost _ => None
  end.

(** A process at its start: nothing printed, no call made. *)
Definition start (l : L) : process L := mk_process l [] "" "" (mk_ofstream false "").

Definition run (l : L) (fs : filesystem) (argv : list string) : outcome int * process L :=
  main fs argv (start l).

End Source.

(** ** A small library instance to run the program on

    Files on disk have a byte size and a list of objects; handles are
    numbered from 100 upwards.  Opening a file adds its size to the allocator
    counters, as the core (in-memory) driver does.  The cache parameters a
    fresh property list reports are those of HDF5: 521 slots, 1 MiB, 0.75. *)

Module Toy.

Record object := mk_object {
  o_name : string;
  o_type : H5O_type_t;
  o_dims : list hsize_t
}.

Record file := mk_file {
  f_size : hsize_t;
  f_objects : list object
}.

Inductive resource :=
| RPlist
| RFile (f : file)
| RDataset (dims : list hsize_t)
| RSpace (dims : list hsize_t).

Record state := mk_state {
  disk : list (string * file);
  handles : list (hid_t * resource);
  next_id : hid_t;
  stats : H5_alloc_stats_t;
  core_driver_ok : bool;
  submitted_cache : option cache_params;
  garbage : hsize_t
}.

Definition default_cache : cache_params := mk_cache 0 521 1048576 0.75%float.

Fixpoint lookup {A} (k : hid_t) (m : list (hid_t * A)) : option A :=
  match m with
  | [] => None
  | (k', a) :: m' => if (k =? k')%Z then Some a else lookup k m'
  end.

Fixpoint remove {A} (k : hid_t) (m : list (hid_t * A)) : list (hid_t * A) :=
  match m with
  | [] => []
  | (k', a) :: m' => if (k =? k')%Z then m' else (k', a) :: remove k m'
  end.

Fixpoint on_disk (path : string) (d : list (string * file)) : option file :=
  match d with
  | [] => None
  | (p, f) :: d' => if (path =? p)%string then Some f else on_disk path d'
  end.

Definition alloc (r : resource) (s : state) : hid_t * state :=
  (next_id s,
   mk_state (disk s) ((next_id s, r) :: handles s) (next_id s + 1) (stats s)
            (core_driver_ok s) (submitted_cache s) (garbage s)).

Definition release (id : hid_t) (s : state) : state :=
  mk_state (disk s) (remove id (handles s)) (next_id s) (stats s)
           (core_driver_ok s) (submitted_cache s) (garbage s).

Definition grow (n : N) (s : state) : state :=
  let a := stats s in
  let curr := (curr_alloc_bytes a + n)%N in
  mk_state (disk s) (handles s) (next_id s)
           (mk_alloc_stats (total_alloc_bytes a + n) curr (N.max (peak_alloc_bytes a) curr))
           (core_driver_ok s) (submitted_cache s) (garbage s).

Definition submit (c : cache_params) (s : state) : state :=
  mk_state (disk s) (handles s) (next_id s) (stats s) (core_driver_ok s) (Some c) (garbage s).

Definition is_plist (id : hid_t) (s : state) : bool :=
  match lookup id (handles s) with Some RPlist => true | _ => false end.

Definition close_as (want : resource -> bool) (id : hid_t) (s : state) : herr_t * state :=
  match lookup id (handles s) with
  | Some r => if want r then (0, release id s) else (-1, s)
  | None => (-1, s)
  end.

Definition to_visited (root : hid_t) (o : object) : visited :=
  mk_visited root (o_name o) (mk_info (o_type o)).

Fixpoint find_object (name : string) (os : list object) : option object :=
  match os with
  | [] => None
  | o :: os' => if (name =? o_name o)%string then Some o else find_object name os'
  end.

#[global] Instance toy_hdf5 : HDF5 state := {
  H5P_FILE_ACCESS := 7;
  lib_H5Pcreate := fun _ s => alloc RPlist s;
  lib_H5Pset_fapl_core := fun id _ _ s =>
    (if is_plist id s && core_driver_ok s then 0 else -1, s);
  lib_H5Pget_cache := fun id s =>
    (if is_plist id s then 0 else -1, default_cache, s);
  lib_H5Pset_cache := fun id n ns nb w s =>
    if is_plist id s then (0, submit (mk_cache n ns nb w) s) else (-1, s);
  lib_H5Pset_all_coll_metadata_ops := fun id _ s =>
    (if is_plist id s then 0 else -1, s);
  lib_H5get_alloc_stats := fun s => (stats s, s);
  lib_H5Fopen := fun path _ _ s =>
    match on_disk path (disk s) with
    | Some f => alloc (RFile f) (grow (f_size f) s)
    | None => (-1, s)
    end;
  lib_H5Fget_filesize := fun id s =>
    match lookup id (handles s) with
    | Some (RFile f) => (0, Some (f_size f), s)
    | _ => (-1, None, s)
    end;
  lib_H5Ovisit := fun id _ _ s =>
    match lookup id (handles s) with
    | Some (RFile f) => (0, map (to_visited id) (f_objects f), s)
    | _ => (-1, [], s)
    end;
  lib_H5Dopen := fun loc name _ s =>
    match lookup loc (handles s) with
    | Some (RFile f) =>
        match find_object name (f_objects f) with
        | Some o => alloc (RDataset (o_dims o)) s
        | None => (-1, s)
        end
    | _ => (-1, s)
    end;
  lib_H5Dget_space := fun id s =>
    match lookup id (handles s) with
    | Some (RDataset dims) => alloc (RSpace dims) s
    | _ => (-1, s)
    end;
  lib_H5Sget_simple_extent_dims := fun id s =>
    match lookup id (handles s) with
    | Some (RSpace dims) => (Z.of_nat (List.length dims), dims, s)
    | _ => (-1, [], s)
    end;
  lib_H5Sclose := close_as (fun r => match r with RSpace _ => true | _ => false end);
  lib_H5Dclose := close_as (fun r => match r with RDataset _ => true | _ => false end);
  lib_H5Fclose := close_as (fun r => match r with RFile _ => true | _ => false end);
  indeterminate_hsize := garbage
}.

Definition boot (d : list (string * file)) (core_ok : bool) : state :=
  mk_state d [] 100 (mk_alloc_stats 0 0 0) core_ok None 7.

(** Two files: [a.h5] of 1000 bytes with a group, an empty dataset and a
    dataset of 5 rows; [b.h5] of 2500 bytes with one dataset. *)
Definition a_h5 : file :=
  mk_file 1000 [mk_object "/" H5O_TYPE_GROUP [];
                mk_object "empty" H5O_TYPE_DATASET [0; 3]%N;
                mk_object "rows" H5O_TYPE_DATASET [5; 3]%N].

Definition b_h5 : file :=
  mk_file 2500 [mk_object "evt" H5O_TYPE_DATASET [2]%N].

Definition two_files : list (string * file) := [("a.h5", a_h5); ("b.h5", b_h5)].

(** A third file: [c.h5] of 4000 bytes with a dataset of three dimensions,
    the first of size 0. *)
Definition c_h5 : file :=
  mk_file 4000 [mk_object "cube" H5O_TYPE_DATASET [0; 2; 2]%N].

Definition three_files : list (string * file) := two_files ++ [("c.h5", c_h5)].

(** A file system holding one list file and accepting the output file. *)
Definition list_file (content : string) : filesystem :=
  mk_fs (fun path => if (path =? "list.txt")%string then Some content else None)
        (fun path => (path =? "out.csv")%string).

Definition argv : list string := ["estimate_data_volume"; "list.txt"; "out.csv"].

End Toy.

(** * Vocabulary of the properties *)

(** ** What a trace says *)

(** The rows handed to [report], the files opened, the file handles closed. *)
Definition row_of (e : event) : list (H5_alloc_stats_t * hsize_t) :=
  match e with EvRow a acc => [(a, acc)] | _ => [] end.

Definition open_of (e : event) : list (string * hid_t) :=
  match e with EvH5Fopen path _ _ ret => [(path, ret)] | _ => [] end.

Definition close_of (e : event) : list hid_t :=
  match e with EvH5Fclose file _ => [file] | _ => [] end.

Definition rows (t : list event) := flat_map row_of t.
Definition opens (t : list event) := flat_map open_of t.
Definition closes (t : list event) := flat_map close_of t.

(** The sizes written by the size queries of a trace, and the opens that
    returned a valid handle. *)
Definition size_of (e : event) : list hsize_t :=
  match e with EvH5Fget_filesize _ _ (Some sz) => [sz] | _ => [] end.

Definition sizes (t : list event) : list hsize_t := flat_map size_of t.

Definition valid_opens (t : list event) : list (string * hid_t) :=
  filter (fun oh => (0 <=? snd oh)%Z) (opens t).

(** The statuses the visits of a trace returned. *)
Definition visit_statuses (t : list event) : list herr_t :=
  flat_map (fun e => match e with EvH5Ovisit _ st _ => [st] | _ => [] end) t.

(** The calls a visit of one file makes. *)
Definition visit_event (e : event) : bool :=
  match e with
  | EvH5Ovisit _ _ _ | EvH5Dopen _ _ _ _ | EvH5Dget_space _ _
  | EvH5Sget_simple_extent_dims _ _ _ | EvH5Sclose _ _ | EvH5Dclose _ _ => true
  | _ => false
  end.

(** An extent query whose answer fits the two elements of [dset_dims]; a
    list file short enough for the 32-bit index of the scan loop. *)
Definition fits_dset_dims (e : event) : bool :=
  match e with
  | EvH5Sget_simple_extent_dims _ _ dims => (List.length dims <=? 2)%nat
  | _ => true
  end.

Definition index_fits (files : list string) : Prop :=
  (N.of_nat (List.length files) < two32)%N.

(** The calls whose status the program tests, with the name it prints when
    the status is negative. *)
Definition checked_failure (e : event) : option string :=
  match e with
  | EvH5Pset_fapl_core _ _ _ ret =>
      if (ret <? 0)%Z then Some "H5Pset_fapl_core"%string else None
  | EvH5Pget_cache _ ret _ => if (ret <? 0)%Z then Some "H5Pget_cache"%string else None
  | EvH5Pset_cache _ _ _ _ _ ret => if (ret <? 0)%Z then Some "H5Pset_cache"%string else None
  | EvH5Fclose _ ret => if (ret <? 0)%Z then Some "H5Fclose"%string else None
  | _ => None
  end.

Definition unchecked (e : event) : bool :=
  match checked_failure e with Some _ => false | None => true end.

(** A size query that wrote a size. *)
Definition size_written (e : event) : Prop :=
  match e with
  | EvH5Fget_filesize _ _ None => False
  | _ => True
  end.

(** An event of a run made under the in-memory strategy with property list
    [fapl]: never the collective-metadata call of the other branch, and
    every file opened with [fapl]. *)
Definition in_memory_event (fapl : hid_t) (e : event) : Prop :=
  match e with
  | EvH5Pset_all_coll_metadata_ops _ _ _ => False
  | EvH5Fopen _ _ fapl' _ => fapl' = fapl
  | _ => True
  end.


(** The standard streams and the output file are where they were. *)
Definition same_streams {L} (p p' : process L) : Prop :=
  cout p' = cout p /\ cerr p' = cerr p /\ outfile p' = outfile p.

(** ** The text of the output file *)

(** The line [_HANDLE_ERROR] prints. *)
Definition diag (failed : option string) : string :=
  match failed with
  | Some name => ("Error: " ++ name ++ nl)%string
  | None => ""%string
  end.

(** [report] on a row. *)
Definition report_row (file : ofstream) (r : H5_alloc_stats_t * hsize_t) : ofstream :=
  report file (fst r) (snd r).

(** The header line and the line of one row. *)
Definition header_line : string :=
  ("total_alloc_bytes,curr_alloc_bytes,peak_alloc_bytes,acc_file_size" ++ nl)%string.

Definition row_line (r : H5_alloc_stats_t * hsize_t) : string :=
  (dec (total_alloc_bytes (fst r)) ++ "," ++
   dec (curr_alloc_bytes (fst r)) ++ "," ++
   dec (peak_alloc_bytes (fst r)) ++ "," ++
   dec (snd r) ++ nl)%string.

Definition csv_rows (rs : list (H5_alloc_stats_t * hsize_t)) : string :=
  fold_right (fun r s => (row_line r ++ s)%string) ""%string rs.

(** Reading a field back as a decimal number. *)
Definition read_dec (s : string) : option N :=
  option_map N.of_uint (NilZero.uint_of_string s).

(** Strings made of decimal digits only. *)
Definition is_digit (c : ascii) : bool :=
  match c with
  | "0" | "1" | "2" | "3" | "4" | "5" | "6" | "7" | "8" | "9" => true
  | _ => false
  end%char.

Fixpoint all_chars (ok : ascii -> bool) (s : string) : bool :=
  match s with
  | EmptyString => true
  | String c rest => ok c && all_chars ok rest
  end.

(** A list file with one path per line. *)
Definition listed (paths : list string) : string :=
  fold_right (fun path s => (path ++ nl ++ s)%string) ""%string paths.

(** ** The map of retained file handles *)

(** The keys of the map, and the order [std::map] keeps them in. *)
Definition keys (m : file_map) : list string := map fst m.

Definition str_lt (a b : string) : Prop := String.compare a b = Lt.

(** [m[k] = v] for each pair of [kvs], first one first. *)
Definition assign_all (kvs : list (string * hid_t)) (m : file_map) : file_map :=
  fold_left (fun m kv => map_assign (fst kv) (snd kv) m) kvs m.

(** ** The shape of a run

    Each phase of [main] is described by a relation between its inputs, the
    calls it records and its result; the lemmas further down show that every
    run of the phase is in the relation, whatever the library answers. *)

(** The list [main] reads, the locals the scan starts from, and the output
    stream after [header]. *)
Definition input_files (fs : filesystem) (argv : list string) : list string :=
  match open_read fs (nth 1 argv ""%string) with
  | Some s => getlines "" s
  | None => []
  end.

Definition init_locals : locals := mk_locals 0 0 (mk_op_data []) [].

Definition opened_outfile (fs : filesystem) (argv : list string) : ofstream :=
  header (mk_ofstream (open_write fs (nth 2 argv ""%string)) "").

(** The locals after the iteration for [path], given the handle returned
    and what the size query wrote. *)
Definition scan_step (st : locals) (path : string) (fid : hid_t) (size_out : option hsize_t)
  : locals :=
  let curr := match size_out with Some sz => sz | None => curr_file_size st end in
  mk_locals curr (wrap64 (acc_file_size st + curr)) (op_data st)
            (map_assign path fid (file_ids st)).

(** The sums [acc + s1], [acc + s1 + s2], ... *)
Fixpoint running_sums (acc : N) (szs : list N) : list N :=
  match szs with
  | [] => []
  | sz :: rest => (acc + sz)%N :: running_sums (acc + sz) rest
  end.

Section Shapes.

Context {L : Type} `{HDF5 L}.

(** The process after a library call that left the library in [l'] and was
    recorded as [e]. *)
Definition after_call (p : process L) (l' : L) (e : event) : process L :=
  mk_process l' (trace p ++ [e]) (cout p) (cerr p) (outfile p).

(** The runs of [configure true true true _]: which calls are made, how it
    ends and which call, if any, is named on standard output. *)
Inductive configured (fapl : hid_t) : outcome hid_t -> list event -> option string -> Prop :=
| cfg_core_fails e0 :
    (e0 < 0)%Z ->
    configured fapl (Exit 1)
      [EvH5Pcreate H5P_FILE_ACCESS fapl; EvH5Pset_fapl_core fapl 0 false e0]
      (Some "H5Pset_fapl_core"%string)
| cfg_get_fails e0 e1 got :
    (0 <= e0)%Z -> (e1 < 0)%Z ->
    configured fapl (Exit 1)
      [EvH5Pcreate H5P_FILE_ACCESS fapl; EvH5Pset_fapl_core fapl 0 false e0;
       EvH5Pget_cache fapl e1 got]
      (Some "H5Pget_cache"%string)
| cfg_set_fails e0 e1 got e2 :
    (0 <= e0)%Z -> (0 <= e1)%Z -> (e2 < 0)%Z ->
    configured fapl (Exit 1)
      [EvH5Pcreate H5P_FILE_ACCESS fapl; EvH5Pset_fapl_core fapl 0 false e0;
       EvH5Pget_cache fapl e1 got;
       EvH5Pset_cache fapl (out_mdc_nelmts got) (out_rdcc_nslots got) (out_rdcc_nbytes got)
                      (out_w0 got) e2]
      (Some "H5Pset_cache"%string)
| cfg_done e0 e1 got e2 :
    (0 <= e0)%Z -> (0 <= e1)%Z -> (0 <= e2)%Z ->
    configured fapl (Ret fapl)
      [EvH5Pcreate H5P_FILE_ACCESS fapl; EvH5Pset_fapl_core fapl 0 false e0;
       EvH5Pget_cache fapl e1 got;
       EvH5Pset_cache fapl (out_mdc_nelmts got) (out_rdcc_nslots got) (out_rdcc_nbytes got)
                      (out_w0 got) e2]
      None.

(** The iterations of [scan_files] that run to their end: for each path an
    open, a size query, the calls of the visit, the allocator statistics and
    a row. *)
Inductive scanned (fapl : hid_t) : list string -> locals -> list event -> locals -> Prop :=
| scanned_nil st : scanned fapl [] st [] st
| scanned_cons path rest st fid e size_out vis alloc evs st' :
    forallb visit_event vis = true ->
    scanned fapl rest (scan_step st path fid size_out) evs st' ->
    scanned fapl (path :: rest) st
      (EvH5Fopen (c_str path) H5F_ACC_RDONLY fapl fid ::
       EvH5Fget_filesize fid e size_out ::
       vis ++
       EvH5get_alloc_stats alloc ::
       EvRow alloc (acc_file_size (scan_step st path fid size_out)) :: evs)
      st'.

(** A scan that is lost, after the iterations for [done] and with [rest]
    to go: by the index that wraps around when 2^32 iterations are done, or
    in the visit of the next file, at an extent query whose answer does not
    fit [dset_dims].  The list of events is what the cut iteration
    records. *)
Inductive cut_short (fapl : hid_t) (i : N) (done : list string)
  : list string -> list event -> anomaly -> Prop :=
| cut_endless rest :
    (i + N.of_nat (List.length done) = two32)%N ->
    cut_short fapl i done rest [] endless_loop
| cut_overrun path rest fid e size_out vis :
    forallb visit_event vis = true ->
    forallb fits_dset_dims vis = false ->
    cut_short fapl i done (path :: rest)
      (EvH5Fopen (c_str path) H5F_ACC_RDONLY fapl fid ::
       EvH5Fget_filesize fid e size_out :: vis)
      array_overrun.

(** The runs of [close_files]: every close succeeds, or the first one that
    fails is the last call. *)
Inductive closed_all : file_map -> list event -> Prop :=
| closed_nil : closed_all [] []
| closed_cons k fid r rest evs :
    (0 <= r)%Z -> closed_all rest evs ->
    closed_all ((k, fid) :: rest) (EvH5Fclose fid r :: evs).

Inductive closed_until_failure : file_map -> list event -> Prop :=
| failure_here k fid r rest :
    (r < 0)%Z -> closed_until_failure ((k, fid) :: rest) [EvH5Fclose fid r]
| failure_later k fid r rest evs :
    (0 <= r)%Z -> closed_until_failure rest evs ->
    closed_until_failure ((k, fid) :: rest) (EvH5Fclose fid r :: evs).

(** The runs of [main] past the argument check: the outcome, the trace and
    what standard output holds at the end.  A run fails in the
    configuration, or scans every listed path and then closes the retained
    handles, all of them or up to the first that is refused, or is lost in
    the scan. *)
Inductive main_run (files : list string) : outcome int -> list event -> string -> Prop :=
| run_unconfigured fapl cfg name :
    configured fapl (Exit 1) cfg (Some name) ->
    main_run files (Exit 1) cfg (diag (Some name))
| run_complete fapl cfg alloc scan st cl :
    configured fapl (Ret fapl) cfg None ->
    scanned fapl files init_locals scan st ->
    closed_all (file_ids st) cl ->
    main_run files (Ret 0%Z)
      (cfg ++ EvH5get_alloc_stats alloc :: EvRow alloc 0 :: scan ++ cl) ""
| run_close_fails fapl cfg alloc scan st cl :
    configured fapl (Ret fapl) cfg None ->
    scanned fapl files init_locals scan st ->
    closed_until_failure (file_ids st) cl ->
    main_run files (Exit 1)
      (cfg ++ EvH5get_alloc_stats alloc :: EvRow alloc 0 :: scan ++ cl)
      (diag (Some "H5Fclose"%string))
| run_lost fapl cfg alloc done rest scan st tail why :
    configured fapl (Ret fapl) cfg None ->
    files = (done ++ rest)%list ->
    scanned fapl done init_locals scan st ->
    cut_short fapl 0 done rest tail why ->
    main_run files (Lost why)
      (cfg ++ EvH5get_alloc_stats alloc :: EvRow alloc 0 :: scan ++ tail) "".

End Shapes.

(** ** Comparing two runs

    Two runs are compared: one against a library, the other against the same
    library whose [H5Ovisit] returns some other status.  [alike] relates the
    process states of the two runs: they agree on everything but the visit
    statuses recorded in the trace. *)



Section VisitStatus.

Context {L : Type} {H : HDF5 L}.

(** The status [H5Ovisit] returns is replaced by [g] of it. *)
Variable g : herr_t -> herr_t.

Definition with_visit_status : HDF5 L := {|
  H5P_FILE_ACCESS := @H5P_FILE_ACCESS L H;
  lib_H5Pcreate := @lib_H5Pcreate L H;
  lib_H5Pset_fapl_core := @lib_H5Pset_fapl_core L H;
  lib_H5Pget_cache := @lib_H5Pget_cache L H;
  lib_H5Pset_cache := @lib_H5Pset_cache L H;
  lib_H5Pset_all_coll_metadata_ops := @lib_H5Pset_all_coll_metadata_ops L H;
  lib_H5get_alloc_stats := @lib_H5get_alloc_stats L H;
  lib_H5Fopen := @lib_H5Fopen L H;
  lib_H5Fget_filesize := @lib_H5Fget_filesize L H;
  lib_H5Ovisit := fun file idx ord s =>
    let '(st, objs, s') := @lib_H5Ovisit L H file idx ord s in (g st, objs, s');
  lib_H5Dopen := @lib_H5Dopen L H;
  lib_H5Dget_space := @lib_H5Dget_space L H;
  lib_H5Sget_simple_extent_dims := @lib_H5Sget_simple_extent_dims L H;
  lib_H5Sclose := @lib_H5Sclose L H;
  lib_H5Dclose := @lib_H5Dclose L H;
  lib_H5Fclose := @lib_H5Fclose L H;
  indeterminate_hsize := @indeterminate_hsize L H
|}.

End VisitStatus.

(** ** Reading text back *)

(** [s] holds no character [c]. *)
Definition has_no (c : ascii) (s : string) : bool :=
  all_chars (fun x => negb (x =? c)%char) s.

(** The line of a row without its line end. *)
Definition row_text (r : H5_alloc_stats_t * hsize_t) : string :=
  (dec (total_alloc_bytes (fst r)) ++ "," ++
   dec (curr_alloc_bytes (fst r)) ++ "," ++
   dec (peak_alloc_bytes (fst r)) ++ "," ++
   dec (snd r))%string.

(** The fields of a line, split at the commas. *)
Fixpoint fields (field : string) (s : string) : list string :=
  match s with
  | EmptyString => [field]
  | String c rest =>
      if (c =? ",")%char then field :: fields "" rest
      else fields (field ++ String c "") rest
  end.

(** A row read back from its line: four decimal fields. *)
Definition parse_row (line : string) : option (H5_alloc_stats_t * hsize_t) :=
  match map read_dec (fields "" line) with
  | [Some total; Some curr; Some peak; Some acc] =>
      Some (mk_alloc_stats total curr peak, acc)
  | _ => None
  end.

Fixpoint parse_rows (lines : list string) : option (list (H5_alloc_stats_t * hsize_t)) :=
  match lines with
  | [] => Some []
  | line :: rest =>
      match parse_row line, parse_rows rest with
      | Some r, Some rs => Some (r :: rs)
      | _, _ => None
      end
  end.

(** A whole output file read back, line by line as [getline] reads: the
    header, then the rows. *)
Definition parse_csv (text : string) : option (list (H5_alloc_stats_t * hsize_t)) :=
  match getlines "" text with
  | first :: rest =>
      if ((first ++ nl)%string =? header_line)%string then parse_rows rest else None
  | [] => None
  end.

(** ** More of what a trace says *)

(** The allocator statistics read, the out-values of the size queries, the
    datasets opened (where, under which name) and the flags of the opens. *)
Definition snapshots (t : list event) : list H5_alloc_stats_t :=
  flat_map (fun e => match e with EvH5get_alloc_stats a => [a] | _ => [] end) t.

Definition size_outs (t : list event) : list (option hsize_t) :=
  flat_map (fun e => match e with EvH5Fget_filesize _ _ out => [out] | _ => [] end) t.

Definition dopen_targets (t : list event) : list (hid_t * string) :=
  flat_map (fun e => match e with EvH5Dopen loc name _ _ => [(loc, name)] | _ => [] end) t.

Definition dclose_targets (t : list event) : list hid_t :=
  flat_map (fun e => match e with EvH5Dclose dset _ => [dset] | _ => [] end) t.

Definition dopen_returns (t : list event) : list hid_t :=
  flat_map (fun e => match e with EvH5Dopen _ _ _ ret => [ret] | _ => [] end) t.

Definition space_gets (t : list event) : list hid_t :=
  flat_map (fun e => match e with EvH5Dget_space _ ret => [ret] | _ => [] end) t.

Definition space_closes (t : list event) : list hid_t :=
  flat_map (fun e => match e with EvH5Sclose space _ => [space] | _ => [] end) t.

(** The dataspaces got are the dataspaces closed, and every dataset closed
    is one that was opened. *)
Definition handles_in_order (t : list event) : Prop :=
  space_gets t = space_closes t /\ incl (dclose_targets t) (dopen_returns t).

(** The same as long as every extent query has been answered with sizes
    that fit [dset_dims]. *)
Definition handles_in_order_within (t : list event) : Prop :=
  forallb fits_dset_dims t = true -> handles_in_order t.

(** An event that is none of the four calls on dataset and dataspace
    handles. *)
Definition other_handle_event (e : event) : bool :=
  match e with
  | EvH5Dopen _ _ _ _ | EvH5Dget_space _ _ | EvH5Sclose _ _ | EvH5Dclose _ _ => false
  | _ => true
  end.

(** A computation that keeps a property of the trace. *)
Definition maintains {L A} (I : list event -> Prop) (m : M L A) : Prop :=
  forall p, I (trace p) -> I (trace (snd (m p))).

Definition open_flags (t : list event) : list N :=
  flat_map (fun e => match e with EvH5Fopen _ flags _ _ => [flags] | _ => [] end) t.

(** The values [curr_file_size] holds after each size query, from the value
    [curr] it held before: a query that writes nothing leaves it as it is. *)
Fixpoint held (curr : hsize_t) (outs : list (option hsize_t)) : list hsize_t :=
  match outs with
  | [] => []
  | out :: rest =>
      let curr' := match out with Some sz => sz | None => curr end in
      curr' :: held curr' rest
  end.

Definition is_dataset (o : visited) : bool :=
  H5O_type_eqb (type (v_info o)) H5O_TYPE_DATASET.

(** Process states that agree on everything but the output file, and
    computations that keep them so. *)
Definition same_but_outfile {L} (p1 p2 : process L) : Prop :=
  lib p1 = lib p2 /\ trace p1 = trace p2 /\ cout p1 = cout p2 /\ cerr p1 = cerr p2.

Definition related_out {L A} (m1 m2 : M L A) : Prop :=
  forall p1 p2, same_but_outfile p1 p2 ->
    fst (m1 p1) = fst (m2 p2) /\ same_but_outfile (snd (m1 p1)) (snd (m2 p2)).

(** ** A library that refuses everything

    Every call fails and writes nothing; the allocator counters are 0. *)

Module Refusing.

#[global] Instance refusing_hdf5 : HDF5 unit := {
  H5P_FILE_ACCESS := 7;
  lib_H5Pcreate := fun _ s => (-1, s);
  lib_H5Pset_fapl_core := fun _ _ _ s => (-1, s);
  lib_H5Pget_cache := fun _ s => (-1, mk_cache 0 0 0 0%float, s);
  lib_H5Pset_cache := fun _ _ _ _ _ s => (-1, s);
  lib_H5Pset_all_coll_metadata_ops := fun _ _ s => (-1, s);
  lib_H5get_alloc_stats := fun s => (mk_alloc_stats 0 0 0, s);
  lib_H5Fopen := fun _ _ _ s => (-1, s);
  lib_H5Fget_filesize := fun _ s => (-1, None, s);
  lib_H5Ovisit := fun _ _ _ s => (-1, [], s);
  lib_H5Dopen := fun _ _ _ s => (-1, s);
  lib_H5Dget_space := fun _ s => (-1, s);
  lib_H5Sget_simple_extent_dims := fun _ s => (-1, [], s);
  lib_H5Sclose := fun _ s => (-1, s);
  lib_H5Dclose := fun _ s => (-1, s);
  lib_H5Fclose := fun _ s => (-1, s);
  indeterminate_hsize := fun _ => 0%N
}.

End Refusing.

(** * Properties *)

Local Open Scope list_scope.

(** ** Running computations step by step *)

Section Stepping.

Context {L : Type} `{HDF5 L}.

Lemma bind_call {R B} (f : L -> R * L) (ev : R -> event) (k : R -> M L B) p r l' :
  f (lib p) = (r, l') ->
  bind (call f ev) k p = k r (after_call p l' (ev r)).
Proof. intros E. unfold bind, call. rewrite E. reflexivity. Qed.

Lemma run_call {R} (f : L -> R * L) (ev : R -> event) p r l' :
  f (lib p) = (r, l') ->
  call f ev p = (Ret r, after_call p l' (ev r)).
Proof. intros E. unfold call. rewrite E. reflexivity. Qed.

Lemma bind_ret {A B} (a : A) (k : A -> M L B) p : bind (ret a) k p = k a p.
Proof. reflexivity. Qed.

Lemma bind_assoc {A B C} (m : M L A) (k : A -> M L B) (k' : B -> M L C) p :
  bind (bind m k) k' p = bind m (fun a => bind (k a) k') p.
Proof. unfold bind. destruct (m p) as [[a|s|w] p1]; reflexivity. Qed.

Lemma bind_Ret {A B} (m : M L A) (k : A -> M L B) p a p1 :
  m p = (Ret a, p1) -> bind m k p = k a p1.
Proof. intros E. unfold bind. rewrite E. reflexivity. Qed.

Lemma bind_Exit {A B} (m : M L A) (k : A -> M L B) p s p1 :
  m p = (Exit s, p1) -> bind m k p = (Exit s, p1).
Proof. intros E. unfold bind. rewrite E. reflexivity. Qed.

Lemma bind_Lost {A B} (m : M L A) (k : A -> M L B) p w p1 :
  m p = (Lost w, p1) -> bind m k p = (Lost w, p1).
Proof. intros E. unfold bind. rewrite E. reflexivity. Qed.

Lemma bind_lost {A B} (w : anomaly) (k : A -> M L B) p : bind (lost w) k p = (Lost w, p).
Proof. reflexivity. Qed.

Lemma run_HANDLE_ERROR {A} (name : string) (p : process L) :
  @_HANDLE_ERROR L A name p =
  (Exit 1, mk_process (lib p) (trace p) (cout p ++ ("Error: " ++ name ++ nl)%string)
                      (cerr p) (outfile p)).
Proof. reflexivity. Qed.

End Stepping.

Ltac unfold_calls :=
  unfold H5Pcreate, H5Pset_fapl_core, H5Pget_cache, H5Pset_cache,
    H5Pset_all_coll_metadata_ops, H5get_alloc_stats, H5Fopen, H5Fget_filesize,
    H5Dopen, H5Dget_space, H5Sget_simple_extent_dims, H5Sclose, H5Dclose, H5Fclose.

Ltac tidy := cbn [lib trace cout cerr outfile after_call fst snd] in *.

(** Run the library call at the head of the computation in the goal. *)
Ltac step_call :=
  match goal with
  | |- context [bind (call ?f ?ev) ?k ?p] =>
      let r := fresh "r" in
      let l := fresh "l" in
      let E := fresh "E" in
      destruct (f (lib p)) as [r l] eqn:E;
      rewrite (bind_call f ev k p r l E); tidy
  | |- context [call ?f ?ev ?p] =>
      let r := fresh "r" in
      let l := fresh "l" in
      let E := fresh "E" in
      destruct (f (lib p)) as [r l] eqn:E;
      rewrite (run_call f ev p r l E); tidy
  end.

(** The same when the result of the call is known. *)
Ltac step_known Hres :=
  step_call;
  first [ injection Hres as -> ->
        | match goal with
          | E : _ = (_, _) |- _ => rewrite Hres in E; injection E as <- <-
          end ].

Section Configure.

Context {L : Type} `{HDF5 L}.

(** What [set_rawdata_cache] hands to [H5Pset_cache] is what [H5Pget_cache]
    has just written, whatever the caller asked for. *)
Lemma set_rawdata_cache_trace fapl nslots nbytes w0 (p p' : process L) r :
  set_rawdata_cache fapl nslots nbytes w0 p = (Ret r, p') ->
  exists e1 got e2,
    (0 <= e1)%Z /\ (0 <= e2)%Z /\ r = 0%Z /\
    trace p' = trace p ++
      [EvH5Pget_cache fapl e1 got;
       EvH5Pset_cache fapl (out_mdc_nelmts got) (out_rdcc_nslots got)
                      (out_rdcc_nbytes got) (out_w0 got) e2] /\
    cout p' = cout p /\ cerr p' = cerr p /\ outfile p' = outfile p.
Proof.
  unfold set_rawdata_cache. unfold_calls.
  step_call. destruct r0 as [e1 got].
  destruct (e1 <? 0)%Z eqn:He1; [rewrite run_HANDLE_ERROR; discriminate|].
  step_call.
  destruct (r0 <? 0)%Z eqn:He2; [rewrite run_HANDLE_ERROR; discriminate|].
  unfold ret. intros Heq. injection Heq as <- <-. tidy.
  exists e1, got, r0. rewrite <- app_assoc.
  apply Z.ltb_ge in He1, He2. repeat split; auto.
Qed.

End Configure.

(** C1. With in-memory buffering and chunk caching both enabled, a
    configuration that is constructed creates the property list, selects the
    core driver, reads the cache parameters of the library and hands all
    four of them back unchanged: the byte capacity submitted is the one the
    library reported, not the requested one.  The requested capacity has no
    effect at all: with any other request the configuration runs the same. *)
Theorem configure_resubmits_reported_cache
        {L : Type} `{HDF5 L} (requested : size_t) (p p' : process L) (fapl : hid_t) :
  configure true true true requested p = (Ret fapl, p') ->
  (exists e0 e1 got e2,
      trace p' = trace p ++
        [EvH5Pcreate H5P_FILE_ACCESS fapl;
         EvH5Pset_fapl_core fapl 0 false e0;
         EvH5Pget_cache fapl e1 got;
         EvH5Pset_cache fapl (out_mdc_nelmts got) (out_rdcc_nslots got)
                        (out_rdcc_nbytes got) (out_w0 got) e2]) /\
  (forall requested' : size_t,
      configure true true true requested' p = configure true true true requested p).
Proof.
  intros Hrun. split; [|reflexivity]. revert Hrun.
  unfold configure. unfold_calls.
  step_call. step_call.
  destruct (r0 <? 0)%Z; [rewrite run_HANDLE_ERROR; discriminate|].
  rewrite bind_assoc.
  match goal with
  | |- context [bind (set_rawdata_cache ?a ?b ?c ?d) ?k ?q] =>
      destruct (set_rawdata_cache a b c d q) as [[e|s|w] p1] eqn:Hsrc;
      [rewrite (bind_Ret _ _ _ _ _ Hsrc)
      | rewrite (bind_Exit _ _ _ _ _ Hsrc); discriminate
      | rewrite (bind_Lost _ _ _ _ _ Hsrc); discriminate]
  end.
  apply set_rawdata_cache_trace in Hsrc.
  destruct Hsrc as (e1 & got & e2 & _ & _ & -> & Htr & _).
  tidy. cbn [Z.ltb Z.compare]. rewrite ?bind_ret.
  unfold ret. intros Heq. injection Heq as <- <-.
  exists r0, e1, got, e2. rewrite Htr, <- !app_assoc. reflexivity.
Qed.

(** On the library instance above the request is 64 MiB and the byte
    capacity submitted is the 1 MiB the library reports. *)
Lemma configure_resubmits_reported_cache_witness :
  (exists e0 e1 got e2,
      trace (snd (configure true true true raw_chunk_cache_size
                    (start (Toy.boot Toy.two_files true)))) =
        [EvH5Pcreate H5P_FILE_ACCESS 100;
         EvH5Pset_fapl_core 100 0 false e0;
         EvH5Pget_cache 100 e1 got;
         EvH5Pset_cache 100 (out_mdc_nelmts got) (out_rdcc_nslots got)
                        (out_rdcc_nbytes got) (out_w0 got) e2] /\
      out_rdcc_nbytes got = 1048576%N) /\
  raw_chunk_cache_size = 67108864%N /\
  (forall requested' : size_t,
      configure true true true requested' (start (Toy.boot Toy.two_files true)) =
      configure true true true raw_chunk_cache_size (start (Toy.boot Toy.two_files true))).
Proof.
  destruct (@configure_resubmits_reported_cache _ Toy.toy_hdf5 raw_chunk_cache_size
              (start (Toy.boot Toy.two_files true))
              (snd (@configure _ Toy.toy_hdf5 true true true raw_chunk_cache_size
                      (start (Toy.boot Toy.two_files true))))
              100 eq_refl)
    as [(e0 & e1 & got & e2 & Htr) Hsame].
  split; [|split; [reflexivity | exact Hsame]].
  exists e0, e1, got, e2. split; [exact Htr|].
  assert (got = Toy.default_cache) as ->
    by (unfold Toy.default_cache; cbv in Htr; congruence).
  reflexivity.
Defined.

(** ** The visit of one file *)

Lemma same_streams_refl {L} (p : process L) : same_streams p p.
Proof. repeat split. Qed.

Lemma same_streams_trans {L} (p q r : process L) :
  same_streams p q -> same_streams q r -> same_streams p r.
Proof. unfold same_streams. intuition congruence. Qed.

Section Visit.

Context {L : Type} `{HDF5 L}.

(** [op_func] makes calls of the visit only.  It returns 0 and leaves
    [op_data] as it is, whatever the library answers, unless an extent query
    writes more than two sizes: then it is lost there. *)
Lemma op_func_runs obj name info od (p : process L) :
  exists o evs p',
    op_func obj name info od p = (o, p') /\
    trace p' = trace p ++ evs /\ forallb visit_event evs = true /\
    same_streams p p' /\
    ((o = Ret (0%Z, od) /\ forallb fits_dset_dims evs = true) \/
     (o = Lost array_overrun /\ forallb fits_dset_dims evs = false)).
Proof.
  unfold op_func.
  destruct (H5O_type_eqb (type info) H5O_TYPE_DATASET).
  - unfold_calls. rewrite ?bind_assoc. step_call.
    rewrite ?bind_assoc. step_call.
    rewrite ?bind_assoc. unfold read_lib at 1. unfold bind at 1. tidy.
    rewrite ?bind_assoc. step_call. destruct r1 as [ndims dims]. tidy.
    destruct (2 <? List.length dims)%nat eqn:Hrank.
    { exists (Lost array_overrun). eexists _, _. split; [reflexivity|]. tidy.
      rewrite <- !app_assoc. split; [reflexivity|].
      split; [reflexivity|]. split; [repeat split|]. right.
      split; [reflexivity|]. cbn.
      apply Nat.ltb_lt in Hrank. apply Nat.leb_gt in Hrank. now rewrite Hrank. }
    assert (Hfit : (List.length dims <=? 2)%nat = true)
      by (apply Nat.ltb_ge in Hrank; now apply Nat.leb_le).
    rewrite ?bind_assoc. step_call.
    destruct (nth 0 dims (indeterminate_hsize l0) <=? 0)%N.
    + rewrite ?bind_assoc. step_call. rewrite ?bind_ret. unfold ret.
      eexists _, _, _. split; [reflexivity|]. tidy.
      rewrite <- !app_assoc. split; [reflexivity|].
      split; [reflexivity|]. split; [repeat split|]. left.
      split; [reflexivity|]. cbn. now rewrite Hfit.
    + rewrite ?bind_ret. unfold ret.
      eexists _, _, _. split; [reflexivity|]. tidy.
      rewrite <- !app_assoc. split; [reflexivity|].
      split; [reflexivity|]. split; [repeat split|]. left.
      split; [reflexivity|]. cbn. now rewrite Hfit.
  - rewrite ?bind_ret. unfold ret. exists (Ret (0%Z, od)), [], p.
    rewrite app_nil_r. repeat split. left. split; reflexivity.
Qed.

Lemma visit_each_op_func objs od (p : process L) :
  exists o evs p',
    visit_each op_func objs od p = (o, p') /\
    trace p' = trace p ++ evs /\ forallb visit_event evs = true /\
    same_streams p p' /\
    ((o = Ret (0%Z, od) /\ forallb fits_dset_dims evs = true) \/
     (o = Lost array_overrun /\ forallb fits_dset_dims evs = false)).
Proof.
  revert p. induction objs as [|o rest IH]; intros p.
  - exists (Ret (0%Z, od)), [], p. cbn. rewrite app_nil_r. repeat split.
    left. split; reflexivity.
  - cbn [visit_each].
    destruct (op_func_runs (v_obj o) (v_name o) (v_info o) od p)
      as (o1 & evs1 & p1 & Hop & Htr1 & Hev1 & Hs1 & [(-> & Hfit1) | (-> & Hfit1)]).
    + rewrite (bind_Ret _ _ _ _ _ Hop). cbn [Z.eqb].
      destruct (IH p1) as (o2 & evs2 & p2 & Hrest & Htr2 & Hev2 & Hs2 & Hcases).
      exists o2, (evs1 ++ evs2), p2. split; [exact Hrest|].
      rewrite Htr2, Htr1, app_assoc, !forallb_app, Hev1, Hev2, Hfit1.
      split; [reflexivity|]. split; [reflexivity|].
      split; [eapply same_streams_trans; eassumption|].
      exact Hcases.
    + rewrite (bind_Lost _ _ _ _ _ Hop).
      exists (Lost array_overrun), evs1, p1. repeat split; try assumption; try apply Hs1.
      right. split; [reflexivity | exact Hfit1].
Qed.

(** A visit returns the status of the library and the [op_data] it was
    given, unless it is lost at an extent query. *)
Lemma H5Ovisit_op_func file idx ord od (p : process L) :
  exists o evs p',
    H5Ovisit file idx ord op_func od p = (o, p') /\
    trace p' = trace p ++ evs /\ forallb visit_event evs = true /\
    same_streams p p' /\
    ((o = Ret (fst (fst (lib_H5Ovisit file idx ord (lib p))), od) /\
      forallb fits_dset_dims evs = true) \/
     (o = Lost array_overrun /\ forallb fits_dset_dims evs = false)).
Proof.
  unfold H5Ovisit. step_call. destruct r as [st objs].
  destruct (visit_each_op_func objs od
              (after_call p l (EvH5Ovisit file st objs)))
    as (o & evs & p' & Hv & Htr & Hev & Hs & [(-> & Hfit) | (-> & Hfit)]).
  - tidy. rewrite (bind_Ret _ _ _ _ _ Hv). cbn [Z.eqb]. unfold ret.
    eexists _, (EvH5Ovisit file st objs :: evs), p'.
    split; [reflexivity|]. rewrite Htr, <- app_assoc. cbn. rewrite Hev, Hfit.
    repeat split; try apply Hs. left. split; reflexivity.
  - tidy. rewrite (bind_Lost _ _ _ _ _ Hv).
    eexists _, (EvH5Ovisit file st objs :: evs), p'.
    split; [reflexivity|]. rewrite Htr, <- app_assoc. cbn. rewrite Hev, Hfit.
    repeat split; try apply Hs. right. split; reflexivity.
Qed.

End Visit.

(** ** Every run has the shape of its phase *)

Lemma append_nil_r (s : string) : (s ++ "")%string = s.
Proof. induction s as [|c s IH]; cbn; [reflexivity | now rewrite IH]. Qed.

Lemma append_assoc (s1 s2 s3 : string) :
  ((s1 ++ s2) ++ s3)%string = (s1 ++ (s2 ++ s3))%string.
Proof. induction s1 as [|c s1 IH]; cbn; [reflexivity | now rewrite IH]. Qed.

(** The test of the rank in [op_func], when the sizes written are known to
    fit. *)
Ltac within_rank :=
  match goal with
  | |- context [(2 <? ?n)%nat] =>
      replace (2 <? n)%nat with false
        by (symmetry; apply Nat.ltb_ge; unfold hsize_t in *; cbn [List.length] in *; lia)
  end.

(** Arithmetic on the index of the scan loop. *)
Ltac index_arith :=
  unfold index_fits in *; change two32 with 4294967296%N in *;
  cbn [List.length] in *; rewrite ?length_app in *; lia.

Section PhaseRuns.

Context {L : Type} `{HDF5 L}.

Lemma configure_configured requested (p : process L) :
  exists fapl o evs failed p',
    configure true true true requested p = (o, p') /\
    trace p' = trace p ++ evs /\
    configured fapl o evs failed /\
    cout p' = (cout p ++ diag failed)%string /\
    cerr p' = cerr p /\ outfile p' = outfile p.
Proof.
  unfold configure, set_rawdata_cache. unfold_calls.
  step_call. rename r into fapl. step_call. rename r into e0.
  destruct (e0 <? 0)%Z eqn:He0.
  { rewrite run_HANDLE_ERROR. tidy. apply Z.ltb_lt in He0.
    eexists fapl, _, _, _, _. split; [reflexivity|]. tidy.
    rewrite <- !app_assoc. split; [reflexivity|].
    split; [apply cfg_core_fails; exact He0|]. repeat split. }
  apply Z.ltb_ge in He0.
  rewrite ?bind_assoc. step_call. destruct r as [e1 got]. tidy.
  destruct (e1 <? 0)%Z eqn:He1.
  { rewrite ?bind_assoc. rewrite (bind_Exit _ _ _ _ _ (run_HANDLE_ERROR _ _)).
    apply Z.ltb_lt in He1.
    eexists fapl, _, _, _, _. split; [reflexivity|]. tidy.
    rewrite <- !app_assoc. split; [reflexivity|].
    split; [apply cfg_get_fails; assumption|]. repeat split. }
  apply Z.ltb_ge in He1.
  rewrite ?bind_assoc. step_call. rename r into e2.
  destruct (e2 <? 0)%Z eqn:He2.
  { rewrite ?bind_assoc. rewrite (bind_Exit _ _ _ _ _ (run_HANDLE_ERROR _ _)).
    apply Z.ltb_lt in He2.
    eexists fapl, _, _, _, _. split; [reflexivity|]. tidy.
    rewrite <- !app_assoc. split; [reflexivity|].
    split; [apply cfg_set_fails; assumption|]. repeat split. }
  apply Z.ltb_ge in He2.
  rewrite ?bind_assoc, ?bind_ret. cbn [Z.ltb Z.compare]. rewrite ?bind_ret. unfold ret.
  eexists fapl, _, _, _, _. split; [reflexivity|]. tidy.
  rewrite <- !app_assoc. split; [reflexivity|].
  split; [apply cfg_done; assumption|].
  cbn [diag]. rewrite append_nil_r. repeat split.
Qed.

Lemma wrap32_succ i :
  (i < two32)%N ->
  (wrap32 (i + 1) = 0%N /\ (i + 1 = two32)%N) \/
  (wrap32 (i + 1) = (i + 1)%N /\ (i + 1 < two32)%N /\ wrap32 (i + 1) <> 0%N).
Proof.
  intros Hi. unfold wrap32.
  destruct (N.eq_dec (i + 1) two32) as [Heq | Hne].
  - left. split; [|exact Heq]. rewrite Heq. reflexivity.
  - right. assert (Hlt : (i + 1 < two32)%N) by lia.
    rewrite (N.mod_small _ _ Hlt). split; [reflexivity|]. split; [exact Hlt | lia].
Qed.

Lemma visit_events_no_rows vis : forallb visit_event vis = true -> rows vis = [].
Proof.
  induction vis as [|v vis IHv]; [reflexivity|].
  cbn [forallb]. intros Hvis. apply andb_true_iff in Hvis as [Hv Hvis]. unfold rows in *.
  cbn [flat_map]. rewrite (IHv Hvis). destruct v; try discriminate; reflexivity.
Qed.

(** The scan from index [i]: it returns with every path scanned, or it is
    lost after the iterations for the first paths. *)
Lemma scan_files_scanned i files fapl st (p : process L) :
  (i < two32)%N ->
  exists o evs p',
    scan_files i files fapl st p = (o, p') /\
    trace p' = trace p ++ evs /\
    cout p' = cout p /\ cerr p' = cerr p /\
    outfile p' = fold_left report_row (rows evs) (outfile p) /\
    ((exists st', o = Ret st' /\ scanned fapl files st evs st' /\
                  (i + N.of_nat (List.length files) < two32)%N) \/
     (exists why done rest scan st' tail,
         o = Lost why /\ files = done ++ rest /\ evs = scan ++ tail /\
         scanned fapl done st scan st' /\ cut_short fapl i done rest tail why)).
Proof.
  revert i st p. induction files as [|path rest IH]; intros i st p Hi.
  - exists (Ret st), [], p. cbn. rewrite app_nil_r. repeat split.
    left. exists st. split; [reflexivity|]. split; [constructor | index_arith].
  - cbn [scan_files]. unfold_calls.
    step_call. rename r into fid. step_call. destruct r as [e size_out].
    match goal with
    | |- context [bind (H5Ovisit ?f ?i ?o ?op ?d) ?k ?q] =>
        destruct (H5Ovisit_op_func f i o d q)
          as (ov & vis & p1 & Hv & Htr1 & Hvis & Hs1 & [(-> & Hfit) | (-> & Hfit)])
    end.
    2:{ rewrite (bind_Lost _ _ _ _ _ Hv). destruct Hs1 as (Hco1 & Hce1 & Hof1). tidy.
        eexists _, _, p1. split; [reflexivity|].
        split; [rewrite Htr1, <- !app_assoc; reflexivity|].
        split; [exact Hco1|]. split; [exact Hce1|].
        split.
        { cbn [app]. unfold rows. cbn [flat_map row_of app].
          fold (rows vis). rewrite (visit_events_no_rows vis Hvis). exact Hof1. }
        right. exists array_overrun, [], (path :: rest), [], st. eexists.
        split; [reflexivity|]. split; [reflexivity|]. split; [reflexivity|].
        split; [constructor|]. apply cut_overrun with (e := e); assumption. }
    rewrite (bind_Ret _ _ _ _ _ Hv).
    step_call. rename r into alloc.
    unfold emit, log, on_outfile. rewrite ?bind_assoc. unfold bind at 1. tidy.
    unfold bind at 1. tidy. cbn zeta.
    destruct Hs1 as (Hco1 & Hce1 & Hof1). tidy.
    assert (Hrows : forall evs,
               rows (EvH5Fopen (c_str path) H5F_ACC_RDONLY fapl fid
                     :: EvH5Fget_filesize fid e size_out
                     :: vis ++ EvH5get_alloc_stats alloc
                     :: EvRow alloc (acc_file_size (scan_step st path fid size_out)) :: evs) =
               (alloc, acc_file_size (scan_step st path fid size_out)) :: rows evs).
    { intros evs. unfold rows. cbn [flat_map row_of app]. rewrite flat_map_app.
      fold (rows vis). rewrite (visit_events_no_rows vis Hvis). reflexivity. }
    destruct (wrap32_succ i Hi) as [(Hw & Hsucc) | (Hw & Hsucc & Hnz)].
    + rewrite Hw. cbn [N.eqb]. unfold lost.
      eexists _, _, _. split; [reflexivity|]. tidy.
      split; [rewrite Htr1, <- !app_assoc; cbn [app]; reflexivity|].
      split; [exact Hco1|]. split; [exact Hce1|].
      split; [rewrite Hrows, Hof1; reflexivity|].
      right. exists endless_loop, [path], rest. eexists _, _, [].
      split; [reflexivity|]. split; [reflexivity|].
      split; [rewrite app_nil_r; reflexivity|].
      split.
      * eapply scanned_cons with (e := e) (alloc := alloc); [exact Hvis | constructor].
      * constructor. index_arith.
    + apply N.eqb_neq in Hnz. rewrite Hnz. rewrite Hw in *.
      match goal with
      | |- context [scan_files (i + 1) rest fapl ?st1 ?q] =>
          destruct (IH (i + 1)%N st1 q Hsucc)
            as (o & evs & p' & Hrun & Htr & Hco & Hce & Hof & Hcases)
      end.
      tidy.
      exists o. eexists _, p'. split; [exact Hrun|].
      split; [rewrite Htr, Htr1, <- !app_assoc; cbn [app]; reflexivity|].
      split; [congruence|]. split; [congruence|].
      split; [rewrite Hrows, Hof, Hof1; reflexivity|].
      destruct Hcases as [(st' & -> & Hsc & Hlen)
                         | (why & done & rest' & scan & st' & tail & -> & -> & -> & Hsc & Hcut)].
      * left. exists st'. split; [reflexivity|].
        split; [eapply scanned_cons with (e := e) (alloc := alloc); [exact Hvis | exact Hsc]|].
        index_arith.
      * right. exists why, (path :: done), rest'. eexists _, st', tail.
        split; [reflexivity|]. split; [reflexivity|].
        split; [|split].
        2:{ eapply scanned_cons with (e := e) (alloc := alloc); [exact Hvis | exact Hsc]. }
        { cbn [app]. rewrite <- !app_assoc. reflexivity. }
        destruct Hcut as [rest'' Hend | path' rest'' fid' e' so' vis' Hv' Hf'].
        -- constructor. index_arith.
        -- apply cut_overrun with (e := e'); assumption.
Qed.

Lemma close_files_closed ids (p : process L) :
  exists o evs p',
    close_files ids p = (o, p') /\
    trace p' = trace p ++ evs /\ cerr p' = cerr p /\ outfile p' = outfile p /\
    ((o = Ret tt /\ closed_all ids evs /\ cout p' = cout p) \/
     (o = Exit 1 /\ closed_until_failure ids evs /\
      cout p' = (cout p ++ diag (Some "H5Fclose"%string))%string)).
Proof.
  revert p. induction ids as [|[k fid] rest IH]; intros p.
  - exists (Ret tt), [], p. cbn. rewrite app_nil_r.
    repeat split. left. repeat split. constructor.
  - cbn [close_files]. unfold_calls. step_call.
    destruct (r <? 0)%Z eqn:Hr.
    + rewrite run_HANDLE_ERROR. tidy. apply Z.ltb_lt in Hr.
      eexists _, _, _. split; [reflexivity|]. tidy.
      split; [reflexivity|]. repeat split. right. repeat split.
      apply failure_here. exact Hr.
    + apply Z.ltb_ge in Hr.
      destruct (IH (after_call p l (EvH5Fclose fid r)))
        as (o & evs & p' & Hrun & Htr & Hce & Hof & Hcases).
      tidy. exists o, (EvH5Fclose fid r :: evs), p'.
      split; [exact Hrun|]. rewrite Htr, <- app_assoc.
      repeat split; try assumption.
      destruct Hcases as [(-> & Hall & Hco) | (-> & Hfail & Hco)]; [left | right];
        repeat split; try assumption; constructor; assumption.
Qed.

End PhaseRuns.

Section MainShape.

Context {L : Type} `{HDF5 L}.

Lemma rows_app t1 t2 : rows (t1 ++ t2) = rows t1 ++ rows t2.
Proof. apply flat_map_app. Qed.

Lemma configured_no_rows fapl o evs failed :
  configured fapl o evs failed -> rows evs = [].
Proof. destruct 1; reflexivity. Qed.

Lemma closed_all_no_rows ids evs : closed_all ids evs -> rows evs = [].
Proof. induction 1; [reflexivity | assumption]. Qed.

Lemma closed_until_failure_no_rows ids evs : closed_until_failure ids evs -> rows evs = [].
Proof. induction 1; [reflexivity | assumption]. Qed.

Lemma main_usage (l : L) fs argv :
  List.length argv <> 3%nat ->
  run l fs argv =
  (Exit 1, mk_process l [] (usage ++ nl)%string ""%string (mk_ofstream false "")).
Proof.
  intros Hargc. unfold run, main.
  apply Nat.eqb_neq in Hargc. rewrite Hargc. reflexivity.
Qed.

Lemma main_runs (l : L) fs argv o p :
  List.length argv = 3%nat ->
  run l fs argv = (o, p) ->
  main_run (input_files fs argv) o (trace p) (cout p) /\
  cerr p = ""%string /\
  outfile p = fold_left report_row (rows (trace p)) (opened_outfile fs argv).
Proof.
  intros Hargc. unfold run, main.
  apply Nat.eqb_eq in Hargc. rewrite Hargc. cbn [negb].
  unfold on_outfile at 1. unfold bind at 1. unfold on_outfile at 1. unfold bind at 1.
  cbn [start lib trace cout cerr outfile].
  fold (opened_outfile fs argv). fold (input_files fs argv). fold init_locals.
  set (p0 := mk_process l [] ""%string ""%string (opened_outfile fs argv)).
  destruct (configure_configured raw_chunk_cache_size p0)
    as (fapl & oc & cfg & failed & p1 & Hcfg & Htr1 & Hshape & Hco1 & Hce1 & Hof1).
  cbn [p0 trace cout cerr outfile app append] in Htr1, Hco1, Hce1, Hof1.
  destruct oc as [fapl'|s|w]; [| |inversion Hshape].
  2:{ rewrite (bind_Exit _ _ _ _ _ Hcfg). intros Heq. injection Heq as <- <-.
      assert (s = 1%Z /\ exists name, failed = Some name) as (-> & name & ->)
        by (inversion Hshape; subst; eauto).
      rewrite Htr1, Hco1, Hce1, Hof1, (configured_no_rows _ _ _ _ Hshape).
      repeat split. eapply run_unconfigured. exact Hshape. }
  assert (fapl' = fapl /\ failed = None) as (-> & ->) by (inversion Hshape; subst; auto).
  cbn [diag] in Hco1.
  rewrite (bind_Ret _ _ _ _ _ Hcfg). unfold_calls. step_call. rename r into alloc.
  unfold emit, log, on_outfile. rewrite ?bind_assoc. unfold bind at 1. tidy.
  unfold bind at 1. tidy.
  match goal with
  | |- context [bind (scan_files 0 ?fl fapl ?st1) _ ?q] =>
      destruct (scan_files_scanned 0 fl fapl st1 q eq_refl)
        as (osc & scan & p2 & Hscan & Htr2 & Hco2 & Hce2 & Hof2 & Hcases)
  end.
  tidy.
  destruct Hcases as [(st & -> & Hsc & Hlen)
                     | (why & done & rest & scan' & st & tail & -> & Hfiles & -> & Hsc & Hcut)].
  2:{ rewrite (bind_Lost _ _ _ _ _ Hscan). intros Heq. injection Heq as <- <-.
      assert (Hnr : rows tail = []).
      { destruct Hcut as [rest' Hend | path rest' fid e so vis Hv Hf]; [reflexivity|].
        unfold rows. cbn [flat_map row_of app]. apply (visit_events_no_rows vis Hv). }
      split; [|split].
      - rewrite Htr2, Htr1, Hco2, Hco1, <- !app_assoc. cbn [app].
        eapply run_lost; eassumption.
      - congruence.
      - rewrite Hof2, Hof1, Htr2, Htr1, <- !app_assoc. cbn [app].
        change (EvH5get_alloc_stats alloc :: EvRow alloc 0 :: scan' ++ tail)
          with ([EvH5get_alloc_stats alloc; EvRow alloc 0] ++ (scan' ++ tail)).
        rewrite (rows_app cfg), (configured_no_rows _ _ _ _ Hshape).
        rewrite (rows_app [EvH5get_alloc_stats alloc; EvRow alloc 0]).
        reflexivity. }
  rewrite (bind_Ret _ _ _ _ _ Hscan).
  destruct (close_files_closed (file_ids st) p2)
    as (ocl & cl & p3 & Hcl & Htr3 & Hce3 & Hof3 & Hcases).
  assert (Htrace : trace p3 =
            cfg ++ EvH5get_alloc_stats alloc :: EvRow alloc 0 :: scan ++ cl).
  { rewrite Htr3, Htr2, Htr1, <- !app_assoc. reflexivity. }
  assert (Hout : rows cl = [] ->
            outfile p3 = fold_left report_row (rows (trace p3)) (opened_outfile fs argv)).
  { intros Hnr. rewrite Htrace, Hof3, Hof2, Hof1.
    rewrite rows_app, (configured_no_rows _ _ _ _ Hshape). cbn [app].
    change (EvH5get_alloc_stats alloc :: EvRow alloc 0 :: scan ++ cl)
      with ([EvH5get_alloc_stats alloc; EvRow alloc 0] ++ scan ++ cl).
    rewrite !rows_app, Hnr, app_nil_r, fold_left_app. reflexivity. }
  destruct Hcases as [(-> & Hall & Hco3) | (-> & Hfail & Hco3)].
  - rewrite (bind_Ret _ _ _ _ _ Hcl). unfold ret. intros Heq. injection Heq as <- <-.
    split; [|split].
    + rewrite Htrace, Hco3, Hco2, Hco1. eapply run_complete; eassumption.
    + congruence.
    + apply Hout. eapply closed_all_no_rows; eassumption.
  - rewrite (bind_Exit _ _ _ _ _ Hcl). intros Heq. injection Heq as <- <-.
    split; [|split].
    + rewrite Htrace, Hco3, Hco2, Hco1. eapply run_close_fails; eassumption.
    + congruence.
    + apply Hout. eapply closed_until_failure_no_rows; eassumption.
Qed.

End MainShape.

(** ** Facts read off the shapes *)

Lemma opens_app t1 t2 : opens (t1 ++ t2) = opens t1 ++ opens t2.
Proof. apply flat_map_app. Qed.

Lemma closes_app t1 t2 : closes (t1 ++ t2) = closes t1 ++ closes t2.
Proof. apply flat_map_app. Qed.

Lemma visit_events_silent vis :
  forallb visit_event vis = true ->
  rows vis = [] /\ opens vis = [] /\ closes vis = [] /\ forallb unchecked vis = true.
Proof.
  induction vis as [|v vis IH]; [repeat split|].
  cbn [forallb]. intros Hv. apply andb_true_iff in Hv as [Hv Hvis].
  destruct (IH Hvis) as (Hr & Ho & Hc & Hu).
  unfold rows, opens, closes in *. cbn [flat_map forallb].
  rewrite Hr, Ho, Hc, Hu.
  destruct v; try discriminate; repeat split.
Qed.

(** Turn what is known about the statuses into the tests the program makes. *)
Ltac status_tests :=
  repeat match goal with
         | Hle : (0 <= ?e)%Z |- _ => apply Z.ltb_ge in Hle
         | Hlt : (?e < 0)%Z |- _ => apply Z.ltb_lt in Hlt
         end;
  repeat match goal with
         | Hb : (_ <? 0)%Z = _ |- _ => rewrite Hb
         end.

Section ShapeFacts.

Context {L : Type} `{HDF5 L}.

(** A scan hands [report] one row per listed path. *)
Lemma scanned_rows_length fapl files st scan st' :
  scanned fapl files st scan st' -> List.length (rows scan) = List.length files.
Proof.
  induction 1 as [|path rest st fid e size_out vis alloc evs st' Hvis Hsc IH];
    [reflexivity|].
  change (EvH5Fopen (c_str path) H5F_ACC_RDONLY fapl fid
          :: EvH5Fget_filesize fid e size_out
          :: vis ++ EvH5get_alloc_stats alloc
          :: EvRow alloc (acc_file_size (scan_step st path fid size_out)) :: evs)
    with ([EvH5Fopen (c_str path) H5F_ACC_RDONLY fapl fid;
           EvH5Fget_filesize fid e size_out]
          ++ vis ++ [EvH5get_alloc_stats alloc;
                     EvRow alloc (acc_file_size (scan_step st path fid size_out))] ++ evs).
  rewrite !rows_app. destruct (visit_events_silent vis Hvis) as (-> & _).
  cbn. now rewrite IH.
Qed.

(** A scan closes no file and tests no status. *)
Lemma scanned_closes fapl files st scan st' :
  scanned fapl files st scan st' -> closes scan = [].
Proof.
  induction 1 as [|path rest st fid e size_out vis alloc evs st' Hvis Hsc IH];
    [reflexivity|].
  unfold closes in *. cbn [flat_map close_of app].
  rewrite flat_map_app. cbn [flat_map close_of app].
  destruct (visit_events_silent vis Hvis) as (_ & _ & Hc & _).
  unfold closes in Hc. now rewrite Hc, IH.
Qed.

Lemma scanned_unchecked fapl files st scan st' :
  scanned fapl files st scan st' -> forallb unchecked scan = true.
Proof.
  induction 1 as [|path rest st fid e size_out vis alloc evs st' Hvis Hsc IH];
    [reflexivity|].
  cbn [forallb]. rewrite forallb_app. cbn [forallb].
  destruct (visit_events_silent vis Hvis) as (_ & _ & _ & ->).
  now rewrite IH.
Qed.


(** Each listed path is opened once, in the order of the list, and the map
    is assigned the handle returned, whatever it is. *)
Lemma scanned_opens fapl files st scan st' :
  scanned fapl files st scan st' ->
  map fst (opens scan) = map c_str files /\
  file_ids st' =
    fold_left (fun m kv => map_assign (fst kv) (snd kv) m)
              (combine files (map snd (opens scan))) (file_ids st).
Proof.
  induction 1 as [|path rest st fid e size_out vis alloc evs st' Hvis Hsc IH];
    [split; reflexivity|].
  unfold opens in *. cbn [flat_map open_of app].
  rewrite flat_map_app. cbn [flat_map open_of app].
  destruct (visit_events_silent vis Hvis) as (_ & Ho & _).
  unfold opens in Ho. rewrite Ho. cbn [app map fst snd combine fold_left].
  destruct IH as [IH1 IH2]. rewrite IH1, IH2. split; reflexivity.
Qed.

Lemma configured_unchecked fapl cfg :
  configured fapl (Ret fapl) cfg None ->
  forallb unchecked cfg = true /\ opens cfg = [] /\ closes cfg = [].
Proof.
  inversion 1; subst. unfold unchecked. cbn.
  status_tests. repeat split.
Qed.

Lemma closed_all_closes ids cl :
  closed_all ids cl ->
  closes cl = map snd ids /\ opens cl = [] /\ forallb unchecked cl = true.
Proof.
  induction 1 as [|k fid r rest evs Hr Hall IH]; [repeat split|].
  destruct IH as (IH1 & IH2 & IH3).
  unfold closes, opens, unchecked in *. cbn.
  apply Z.ltb_ge in Hr. rewrite Hr, IH1, IH2, IH3. repeat split.
Qed.

(** When a close fails it is the last call made; the calls before it closed
    the first handles of the map, in key order. *)
Lemma closed_until_failure_closes ids cl :
  closed_until_failure ids cl ->
  exists pre fid r,
    cl = pre ++ [EvH5Fclose fid r] /\ (r < 0)%Z /\
    forallb unchecked pre = true /\ opens cl = [] /\
    closes cl = firstn (List.length cl) (map snd ids).
Proof.
  induction 1 as [k fid r rest Hr | k fid r rest evs Hr Hfail IH].
  - exists [], fid, r. repeat split. exact Hr.
  - destruct IH as (pre & fid' & r' & -> & Hr' & Hpre & Hop & Hcl).
    exists (EvH5Fclose fid r :: pre), fid', r'.
    unfold closes, opens, unchecked in *. cbn.
    apply Z.ltb_ge in Hr. rewrite Hr, Hpre, Hop, Hcl. repeat split. exact Hr'.
Qed.

(** The iteration in which a scan is lost writes no row, closes no file
    and tests no status. *)
Lemma cut_short_quiet fapl i done rest tail why :
  cut_short fapl i done rest tail why ->
  rows tail = [] /\ closes tail = [] /\ forallb unchecked tail = true.
Proof.
  destruct 1 as [rest Hend | path rest fid e size_out vis Hvis Hfit]; [repeat split|].
  destruct (visit_events_silent vis Hvis) as (Hr & _ & Hc & Hu).
  unfold rows, closes in *. cbn [flat_map row_of close_of app forallb].
  rewrite Hr, Hc, Hu. repeat split.
Qed.

(** A run is lost only beyond the bounds: at an extent query that writes
    more than two sizes, or with 2^32 listed paths or more. *)
Lemma cut_short_beyond fapl done rest tail why :
  cut_short fapl 0 done rest tail why ->
  forallb fits_dset_dims tail = false \/ ~ index_fits (done ++ rest).
Proof.
  destruct 1 as [rest Hend | path rest fid e size_out vis Hvis Hfit].
  - right. index_arith.
  - left. cbn [forallb fits_dset_dims andb]. exact Hfit.
Qed.

(** A run past the argument check tests no negative status and returns 0,
    or stops with status 1 at the first tested call that failed, with that
    call named on standard output, or is lost beyond the bounds. *)
Lemma main_run_outcome files o t c :
  main_run files o t c ->
  (o = Ret 0%Z /\ forallb unchecked t = true /\ c = ""%string) \/
  (o = Exit 1 /\
   exists pre e name,
     t = pre ++ [e] /\ forallb unchecked pre = true /\
     checked_failure e = Some name /\ c = diag (Some name)) \/
  (exists why,
     o = Lost why /\ forallb unchecked t = true /\ c = ""%string /\
     (forallb fits_dset_dims t = false \/ ~ index_fits files)).
Proof.
  destruct 1 as [fapl cfg name Hcfg
                | fapl cfg alloc scan st cl Hcfg Hsc Hcl
                | fapl cfg alloc scan st cl Hcfg Hsc Hcl
                | fapl cfg alloc done rest scan st tail why Hcfg Hfiles Hsc Hcut].
  - right. left. split; [reflexivity|].
    inversion Hcfg; subst.
    + eexists [_], _, _. split; [reflexivity|]. unfold unchecked. cbn.
      status_tests. repeat split.
    + eexists [_; _], _, _. split; [reflexivity|]. unfold unchecked. cbn.
      status_tests. repeat split.
    + eexists [_; _; _], _, _. split; [reflexivity|]. unfold unchecked. cbn.
      status_tests. repeat split.
  - left. split; [reflexivity|]. split; [|reflexivity].
    destruct (configured_unchecked _ _ Hcfg) as (Hu1 & _).
    destruct (closed_all_closes _ _ Hcl) as (_ & _ & Hu3).
    rewrite forallb_app. cbn [forallb]. rewrite forallb_app.
    rewrite Hu1, (scanned_unchecked _ _ _ _ _ Hsc), Hu3. reflexivity.
  - right. left. split; [reflexivity|].
    destruct (configured_unchecked _ _ Hcfg) as (Hu1 & _).
    destruct (closed_until_failure_closes _ _ Hcl)
      as (pre & fid & r & -> & Hr & Hpre & _).
    exists (cfg ++ EvH5get_alloc_stats alloc :: EvRow alloc 0 :: scan ++ pre),
      (EvH5Fclose fid r), "H5Fclose"%string.
    split; [rewrite <- !app_assoc; cbn; rewrite <- !app_assoc; reflexivity|].
    rewrite forallb_app. cbn [forallb]. rewrite forallb_app.
    rewrite Hu1, (scanned_unchecked _ _ _ _ _ Hsc), Hpre.
    cbn. apply Z.ltb_lt in Hr. rewrite Hr. repeat split.
  - right. right. exists why. split; [reflexivity|].
    destruct (configured_unchecked _ _ Hcfg) as (Hu1 & _).
    destruct (cut_short_quiet _ _ _ _ _ _ Hcut) as (_ & _ & Hu3).
    split; [|split; [reflexivity|]].
    + rewrite forallb_app. cbn [forallb]. rewrite forallb_app.
      rewrite Hu1, (scanned_unchecked _ _ _ _ _ Hsc), Hu3. reflexivity.
    + destruct (cut_short_beyond _ _ _ _ _ Hcut) as [Hfit | Hlong].
      * left. rewrite forallb_app. cbn [forallb]. rewrite forallb_app, Hfit.
        now rewrite !andb_false_r.
      * right. now rewrite Hfiles.
Qed.

(** Within the bounds a run is not lost. *)
Lemma main_run_within_bounds files o t c :
  main_run files o t c ->
  forallb fits_dset_dims t = true -> index_fits files ->
  o = Ret 0%Z \/ o = Exit 1.
Proof.
  intros Hrun Hfit Hlen.
  destruct (main_run_outcome _ _ _ _ Hrun)
    as [(-> & _) | [(-> & _) | (why & _ & _ & _ & [Hno | Hno])]]; auto.
  - rewrite Hno in Hfit. discriminate.
  - contradiction.
Qed.

End ShapeFacts.

(** ** The text of the output file *)

Lemma read_dec_dec (n : N) : read_dec (dec n) = Some n.
Proof.
  unfold read_dec, dec.
  rewrite NilZero.usu.
  - cbn. now rewrite DecimalN.Unsigned.of_to.
  - destruct n as [|q]; cbn; [discriminate | apply DecimalPos.Unsigned.to_uint_nonnil].
Qed.

Lemma string_of_uint_digits (d : Decimal.uint) :
  all_chars is_digit (NilEmpty.string_of_uint d) = true.
Proof. induction d; cbn; auto. Qed.

Lemma dec_digits (n : N) : dec n <> ""%string /\ all_chars is_digit (dec n) = true.
Proof.
  unfold dec, NilZero.string_of_uint.
  destruct (N.to_uint n) eqn:Hd; cbn;
    (split; [discriminate | try reflexivity; apply string_of_uint_digits]).
Qed.

Lemma put_open s f :
  is_open f = true -> put s f = mk_ofstream true (written f ++ s)%string.
Proof. unfold put. now intros ->. Qed.

Lemma put_closed s f : is_open f = false -> put s f = f.
Proof. unfold put. now intros ->. Qed.

Lemma report_row_open f r :
  is_open f = true ->
  report_row f r = mk_ofstream true (written f ++ row_line r)%string.
Proof.
  intros Hopen. destruct f as [b w]. cbn [is_open] in Hopen. subst b.
  unfold report_row, report, row_line, put. cbn [is_open written].
  now rewrite !append_assoc.
Qed.

Lemma report_row_closed f r : is_open f = false -> report_row f r = f.
Proof.
  intros Hclosed. unfold report_row, report.
  now rewrite !(put_closed _ f Hclosed).
Qed.

Lemma fold_report_row_open rs f :
  is_open f = true ->
  fold_left report_row rs f = mk_ofstream true (written f ++ csv_rows rs)%string.
Proof.
  revert f. induction rs as [|r rs IH]; intros f Hopen.
  - cbn. rewrite append_nil_r. destruct f as [b w]. cbn in *. now subst.
  - cbn [fold_left csv_rows fold_right]. rewrite report_row_open by exact Hopen.
    rewrite IH by reflexivity. cbn [written]. now rewrite append_assoc.
Qed.

Lemma fold_report_row_closed rs f :
  is_open f = false -> fold_left report_row rs f = f.
Proof.
  intros Hclosed. induction rs as [|r rs IH]; [reflexivity|].
  cbn [fold_left]. now rewrite report_row_closed.
Qed.

(** C8. When the output file could be opened, what it receives is the fixed
    header line followed by one line per row handed to [report], each made
    of the decimal digits of the three allocator counters and of the
    accumulated size, separated by commas and ended by a line break; a field
    is a non-empty run of digits, and reading it back as a decimal number
    gives the value.  The file is open
    exactly when [main] got its two arguments and the path could be opened
    for writing. *)
Theorem outfile_is_header_then_rows {L : Type} `{HDF5 L} (l : L) fs argv :
  let p := snd (run l fs argv) in
  is_open (outfile p) =
    ((List.length argv =? 3)%nat && open_write fs (nth 2 argv ""%string)) /\
  written (outfile p) =
    (if is_open (outfile p)
     then (header_line ++ csv_rows (rows (trace p)))%string
     else ""%string) /\
  (forall n : N,
     dec n <> ""%string /\ all_chars is_digit (dec n) = true /\
     read_dec (dec n) = Some n).
Proof.
  cbn zeta. split; [|split].
  3:{ intros n. destruct (dec_digits n). auto using read_dec_dec. }
  - destruct (Nat.eq_dec (List.length argv) 3) as [Hargc | Hargc].
    + destruct (run l fs argv) as [o p] eqn:Hrun.
      destruct (main_runs l fs argv o p Hargc Hrun) as (_ & _ & Hout).
      cbn [snd]. rewrite Hout, Hargc. cbn [Nat.eqb andb].
      unfold opened_outfile, header.
      destruct (open_write fs (nth 2 argv ""%string)) eqn:Hw.
      * rewrite fold_report_row_open; [reflexivity|].
        rewrite !put_open; reflexivity.
      * rewrite fold_report_row_closed; rewrite !put_closed; reflexivity.
    + rewrite (main_usage l fs argv Hargc). cbn [snd outfile is_open].
      apply Nat.eqb_neq in Hargc. now rewrite Hargc.
  - destruct (Nat.eq_dec (List.length argv) 3) as [Hargc | Hargc].
    + destruct (run l fs argv) as [o p] eqn:Hrun.
      destruct (main_runs l fs argv o p Hargc Hrun) as (_ & _ & Hout).
      cbn [snd]. rewrite Hout.
      unfold opened_outfile, header.
      destruct (open_write fs (nth 2 argv ""%string)) eqn:Hw.
      * rewrite fold_report_row_open by (rewrite !put_open; reflexivity).
        cbn [is_open written]. rewrite !put_open by reflexivity.
        cbn [written]. unfold header_line. cbn [append]. reflexivity.
      * rewrite fold_report_row_closed by (rewrite !put_closed; reflexivity).
        rewrite !put_closed by reflexivity. reflexivity.
    + rewrite (main_usage l fs argv Hargc). reflexivity.
Qed.

(** ** Failures the program tests *)

Lemma unchecked_not_failure pre e name :
  forallb unchecked pre = true -> In e pre -> checked_failure e = Some name -> False.
Proof.
  intros Hpre Hin Hfail. rewrite forallb_forall in Hpre.
  specialize (Hpre e Hin). unfold unchecked in Hpre. now rewrite Hfail in Hpre.
Qed.

(** C6 (as amended). Whenever one of the calls whose status [main] tests
    ([H5Pset_fapl_core], [H5Pget_cache], [H5Pset_cache], [H5Fclose]) returns
    a negative status, that call is the last one made, the process ends with
    exit status 1, and standard output holds the line naming the call;
    nothing is written to standard error. *)
Theorem checked_failure_is_fatal {L : Type} `{HDF5 L} (l : L) fs argv e name :
  In e (trace (snd (run l fs argv))) ->
  checked_failure e = Some name ->
  fst (run l fs argv) = Exit 1 /\
  cout (snd (run l fs argv)) = ("Error: " ++ name ++ nl)%string /\
  cerr (snd (run l fs argv)) = ""%string /\
  exists pre, trace (snd (run l fs argv)) = pre ++ [e].
Proof.
  destruct (Nat.eq_dec (List.length argv) 3) as [Hargc | Hargc].
  2:{ rewrite (main_usage l fs argv Hargc). cbn. intros []. }
  destruct (run l fs argv) as [o p] eqn:Hrun. cbn [fst snd].
  destruct (main_runs l fs argv o p Hargc Hrun) as (Hshape & Hcerr & _).
  intros Hin Hfail.
  destruct (main_run_outcome _ _ _ _ Hshape)
    as [(_ & Hall & _)
       | [(-> & pre & e' & name' & Htr & Hpre & Hfail' & Hcout)
         | (why & _ & Hall & _)]].
  - exfalso. eapply unchecked_not_failure; eassumption.
  - rewrite Htr in Hin. apply in_app_or in Hin as [Hin | [<- | []]].
    + exfalso. eapply unchecked_not_failure; eassumption.
    + assert (name' = name) as -> by congruence.
      repeat split; try assumption. exists pre. exact Htr.
  - exfalso. eapply unchecked_not_failure; eassumption.
Qed.

(** With the core driver refused, [H5Pset_fapl_core] fails and is named. *)
Lemma checked_failure_is_fatal_witness :
  fst (run (Toy.boot Toy.two_files false) (Toy.list_file "a.h5") Toy.argv) = Exit 1 /\
  cout (snd (run (Toy.boot Toy.two_files false) (Toy.list_file "a.h5") Toy.argv)) =
    ("Error: " ++ "H5Pset_fapl_core" ++ nl)%string /\
  cerr (snd (run (Toy.boot Toy.two_files false) (Toy.list_file "a.h5") Toy.argv)) =
    ""%string /\
  exists pre,
    trace (snd (run (Toy.boot Toy.two_files false) (Toy.list_file "a.h5") Toy.argv)) =
    pre ++ [EvH5Pset_fapl_core 100 0 false (-1)].
Proof.
  apply (checked_failure_is_fatal (Toy.boot Toy.two_files false) (Toy.list_file "a.h5")
           Toy.argv (EvH5Pset_fapl_core 100 0 false (-1)) "H5Pset_fapl_core"%string).
  - cbn. right. left. reflexivity.
  - reflexivity.
Defined.

(** C6, as it is stated, fails twice.  When the library refuses the core
    driver the diagnostic goes to standard output and standard error stays
    empty; when the list file cannot be opened nothing is reported at all
    and the exit status is 0. *)
Lemma failure_not_reported_on_cerr :
  (fst (run (Toy.boot Toy.two_files false) (Toy.list_file "a.h5") Toy.argv) = Exit 1 /\
   cerr (snd (run (Toy.boot Toy.two_files false) (Toy.list_file "a.h5") Toy.argv)) =
     ""%string) /\
  (open_read (mk_fs (fun _ => None) (fun _ => true)) "list.txt"%string = None /\
   run (Toy.boot Toy.two_files true) (mk_fs (fun _ => None) (fun _ => true)) Toy.argv =
   (Ret 0%Z,
    mk_process
      (Toy.submit Toy.default_cache (snd (Toy.alloc Toy.RPlist (Toy.boot Toy.two_files true))))
      [EvH5Pcreate 7 100; EvH5Pset_fapl_core 100 0 false 0;
       EvH5Pget_cache 100 0 Toy.default_cache;
       EvH5Pset_cache 100 0 521 1048576 0.75 0;
       EvH5get_alloc_stats (mk_alloc_stats 0 0 0); EvRow (mk_alloc_stats 0 0 0) 0]
      ""%string ""%string
      (mk_ofstream true (header_line ++ "0,0,0,0" ++ nl)%string))).
Proof. repeat split. Qed.

(** ** The access strategy of a run *)

Lemma visit_events_in_memory fapl vis :
  forallb visit_event vis = true -> Forall (in_memory_event fapl) vis.
Proof.
  rewrite forallb_forall, Forall_forall. intros Hvis e Hin.
  specialize (Hvis e Hin). destruct e; try discriminate; exact I.
Qed.

Section Strategy.

Context {L : Type} `{HDF5 L}.

Lemma scanned_in_memory fapl files st scan st' :
  scanned fapl files st scan st' -> Forall (in_memory_event fapl) scan.
Proof.
  induction 1 as [|path rest st fid e size_out vis alloc evs st' Hvis Hsc IH];
    [constructor|].
  constructor; [reflexivity|]. constructor; [exact I|].
  apply Forall_app. split; [apply visit_events_in_memory; exact Hvis|].
  repeat (constructor; [exact I|]). exact IH.
Qed.

Lemma configured_in_memory fapl o cfg failed :
  configured fapl o cfg failed ->
  Forall (in_memory_event fapl) cfg /\
  exists e0 rest,
    cfg = EvH5Pcreate H5P_FILE_ACCESS fapl :: EvH5Pset_fapl_core fapl 0 false e0 :: rest /\
    ((0 <= e0)%Z -> exists e1 got rest', rest = EvH5Pget_cache fapl e1 got :: rest').
Proof.
  destruct 1; (split; [repeat constructor|]); eexists _, _;
    (split; [reflexivity|]); intros; try lia; eauto.
Qed.

Lemma closed_all_in_memory fapl ids cl :
  closed_all ids cl -> Forall (in_memory_event fapl) cl.
Proof. induction 1; constructor; [exact I | assumption]. Qed.

Lemma closed_until_failure_in_memory fapl ids cl :
  closed_until_failure ids cl -> Forall (in_memory_event fapl) cl.
Proof. induction 1; repeat constructor; assumption. Qed.

Lemma cut_short_in_memory fapl i done rest tail why :
  cut_short fapl i done rest tail why -> Forall (in_memory_event fapl) tail.
Proof.
  destruct 1 as [rest Hend | path rest fid e size_out vis Hvis Hfit]; [constructor|].
  constructor; [reflexivity|]. constructor; [exact I|].
  apply visit_events_in_memory. exact Hvis.
Qed.

Lemma main_run_in_memory files o t c :
  main_run files o t c ->
  exists fapl e0 rest,
    t = EvH5Pcreate H5P_FILE_ACCESS fapl :: EvH5Pset_fapl_core fapl 0 false e0 :: rest /\
    ((0 <= e0)%Z -> exists e1 got rest', rest = EvH5Pget_cache fapl e1 got :: rest') /\
    Forall (in_memory_event fapl) t.
Proof.
  destruct 1 as [fapl cfg name Hcfg
                | fapl cfg alloc scan st cl Hcfg Hsc Hcl
                | fapl cfg alloc scan st cl Hcfg Hsc Hcl
                | fapl cfg alloc done rest0 scan st cl why Hcfg Hfiles Hsc Hcl];
    destruct (configured_in_memory _ _ _ _ Hcfg) as (Hall & e0 & rest & -> & Hget);
    exists fapl, e0.
  - exists rest. auto.
  - exists (rest ++ EvH5get_alloc_stats alloc :: EvRow alloc 0 :: scan ++ cl).
    split; [reflexivity|]. split.
    { intros He0. destruct (Hget He0) as (e1 & got & rest' & ->). cbn. eauto. }
    change (Forall (in_memory_event fapl)
              ((EvH5Pcreate H5P_FILE_ACCESS fapl
                  :: EvH5Pset_fapl_core fapl 0 false e0 :: rest)
               ++ EvH5get_alloc_stats alloc :: EvRow alloc 0 :: scan ++ cl)).
    apply Forall_app. split; [exact Hall|].
    repeat (constructor; [exact I|]). apply Forall_app. split.
    + eapply scanned_in_memory; eassumption.
    + eapply closed_all_in_memory; eassumption.
  - exists (rest ++ EvH5get_alloc_stats alloc :: EvRow alloc 0 :: scan ++ cl).
    split; [reflexivity|]. split.
    { intros He0. destruct (Hget He0) as (e1 & got & rest' & ->). cbn. eauto. }
    change (Forall (in_memory_event fapl)
              ((EvH5Pcreate H5P_FILE_ACCESS fapl
                  :: EvH5Pset_fapl_core fapl 0 false e0 :: rest)
               ++ EvH5get_alloc_stats alloc :: EvRow alloc 0 :: scan ++ cl)).
    apply Forall_app. split; [exact Hall|].
    repeat (constructor; [exact I|]). apply Forall_app. split.
    + eapply scanned_in_memory; eassumption.
    + eapply closed_until_failure_in_memory; eassumption.
  - exists (rest ++ EvH5get_alloc_stats alloc :: EvRow alloc 0 :: scan ++ cl).
    split; [reflexivity|]. split.
    { intros He0. destruct (Hget He0) as (e1 & got & rest' & ->). cbn. eauto. }
    change (Forall (in_memory_event fapl)
              ((EvH5Pcreate H5P_FILE_ACCESS fapl
                  :: EvH5Pset_fapl_core fapl 0 false e0 :: rest)
               ++ EvH5get_alloc_stats alloc :: EvRow alloc 0 :: scan ++ cl)).
    apply Forall_app. split; [exact Hall|].
    repeat (constructor; [exact I|]). apply Forall_app. split.
    + eapply scanned_in_memory; eassumption.
    + eapply cut_short_in_memory; eassumption.
Qed.

End Strategy.

(** C10. Whatever the command line, the file system and the library, a run
    that gets its two arguments starts by creating a file access property
    list and selecting the core (in-memory) driver on it, goes on to the
    cache parameters when the driver is accepted, never makes the
    collective-metadata call of the non-POSIX branch, and opens every file
    with the property list it created, not with the default one of the
    direct-file branch; the cache size it asks for is 64 MiB. *)
Theorem strategy_is_fixed {L : Type} `{HDF5 L} (l : L) fs argv :
  List.length argv = 3%nat ->
  raw_chunk_cache_size = 67108864%N /\
  exists fapl e0 rest,
    trace (snd (run l fs argv)) =
      EvH5Pcreate H5P_FILE_ACCESS fapl :: EvH5Pset_fapl_core fapl 0 false e0 :: rest /\
    ((0 <= e0)%Z -> exists e1 got rest', rest = EvH5Pget_cache fapl e1 got :: rest') /\
    (forall fapl' b r,
        ~ In (EvH5Pset_all_coll_metadata_ops fapl' b r) (trace (snd (run l fs argv)))) /\
    (forall path flags fapl' fid,
        In (EvH5Fopen path flags fapl' fid) (trace (snd (run l fs argv))) -> fapl' = fapl).
Proof.
  intros Hargc. split; [reflexivity|].
  destruct (run l fs argv) as [o p] eqn:Hrun. cbn [snd].
  destruct (main_runs l fs argv o p Hargc Hrun) as (Hshape & _).
  destruct (main_run_in_memory _ _ _ _ Hshape) as (fapl & e0 & rest & Htr & Hget & Hall).
  exists fapl, e0, rest. split; [exact Htr|]. split; [exact Hget|].
  rewrite Forall_forall in Hall. split.
  - intros fapl' b r Hin. exact (Hall _ Hin).
  - intros path flags fapl' fid Hin. exact (Hall _ Hin).
Qed.

Lemma strategy_is_fixed_witness :
  raw_chunk_cache_size = 67108864%N /\
  exists fapl e0 rest,
    trace (snd (run (Toy.boot Toy.two_files true) (Toy.list_file "a.h5") Toy.argv)) =
      EvH5Pcreate H5P_FILE_ACCESS fapl :: EvH5Pset_fapl_core fapl 0 false e0 :: rest /\
    ((0 <= e0)%Z -> exists e1 got rest', rest = EvH5Pget_cache fapl e1 got :: rest') /\
    (forall fapl' b r,
        ~ In (EvH5Pset_all_coll_metadata_ops fapl' b r)
          (trace (snd (run (Toy.boot Toy.two_files true) (Toy.list_file "a.h5") Toy.argv)))) /\
    (forall path flags fapl' fid,
        In (EvH5Fopen path flags fapl' fid)
          (trace (snd (run (Toy.boot Toy.two_files true) (Toy.list_file "a.h5") Toy.argv))) ->
        fapl' = fapl).
Proof.
  exact (strategy_is_fixed (Toy.boot Toy.two_files true) (Toy.list_file "a.h5") Toy.argv
           eq_refl).
Defined.

(** ** Empty datasets *)



(** ** The map of retained file handles *)

Lemma str_lt_trans a b c : str_lt a b -> str_lt b c -> str_lt a c.
Proof.
  unfold str_lt. intros Hab Hbc.
  apply String_as_OT.cmp_lt. apply String_as_OT.cmp_lt in Hab, Hbc.
  eapply String_as_OT.lt_trans; eassumption.
Qed.

Lemma str_lt_irrefl a : ~ str_lt a a.
Proof.
  unfold str_lt. intros Haa.
  pose proof (proj2 (String_as_OT.cmp_eq a a) eq_refl) as Heq.
  unfold String_as_OT.cmp in Heq. congruence.
Qed.

Lemma compare_Gt_lt a b : String.compare a b = Gt -> str_lt b a.
Proof.
  unfold str_lt. intros Hgt. rewrite String.compare_antisym, Hgt. reflexivity.
Qed.

Lemma map_assign_keys k v m k0 :
  In k0 (keys (map_assign k v m)) <-> k0 = k \/ In k0 (keys m).
Proof.
  induction m as [|[k' v'] m IH]; cbn.
  - intuition.
  - destruct (String.compare k k') eqn:Hc; cbn.
    + apply String.compare_eq_iff in Hc. subst k'. intuition.
    + intuition.
    + unfold keys in IH. rewrite IH. intuition.
Qed.

Lemma map_assign_pairs k v m k0 h :
  In (k0, h) (map_assign k v m) -> (k0 = k /\ h = v) \/ In (k0, h) m.
Proof.
  induction m as [|[k' v'] m IH]; cbn.
  - intros [Heq | []]. injection Heq as <- <-. auto.
  - destruct (String.compare k k') eqn:Hc; cbn.
    + apply String.compare_eq_iff in Hc. subst k'.
      intros [Heq | Hin]; [injection Heq as <- <-|]; auto.
    + intros [Heq | Hin]; [injection Heq as <- <-|]; auto.
    + intros [Heq | Hin]; [auto|]. destruct (IH Hin); auto.
Qed.

Lemma map_assign_sorted k v m :
  StronglySorted str_lt (keys m) -> StronglySorted str_lt (keys (map_assign k v m)).
Proof.
  induction m as [|[k' v'] m IH]; cbn; intros Hs.
  - repeat constructor.
  - apply StronglySorted_inv in Hs as [Hs Hall].
    destruct (String.compare k k') eqn:Hc; cbn.
    + constructor; assumption.
    + constructor; [constructor; assumption|].
      constructor; [exact Hc|].
      eapply Forall_impl; [|exact Hall]. intros a Ha. eapply str_lt_trans; eassumption.
    + constructor; [apply IH; exact Hs|].
      apply Forall_forall. intros a Ha.
      apply map_assign_keys in Ha as [-> | Ha].
      * apply compare_Gt_lt. exact Hc.
      * rewrite Forall_forall in Hall. apply Hall. exact Ha.
Qed.

Lemma sorted_keys_NoDup ks : StronglySorted str_lt ks -> NoDup ks.
Proof.
  induction 1 as [|k ks Hs IH Hall]; constructor; [|exact IH].
  intros Hin. rewrite Forall_forall in Hall.
  exact (str_lt_irrefl k (Hall k Hin)).
Qed.

Lemma map_find_assign_same k v m : map_find k (map_assign k v m) = Some v.
Proof.
  induction m as [|[k' v'] m IH]; cbn.
  - now rewrite String.eqb_refl.
  - destruct (String.compare k k') eqn:Hc; cbn.
    + apply String.compare_eq_iff in Hc. subst k'. now rewrite String.eqb_refl.
    + now rewrite String.eqb_refl.
    + destruct (String.eqb_spec k k') as [-> | Hne]; [|exact IH].
      exfalso. eapply str_lt_irrefl. apply compare_Gt_lt. exact Hc.
Qed.

Lemma map_find_assign_other k v m k0 :
  k0 <> k -> map_find k0 (map_assign k v m) = map_find k0 m.
Proof.
  intros Hne. induction m as [|[k' v'] m IH]; cbn.
  - apply String.eqb_neq in Hne. now rewrite Hne.
  - destruct (String.compare k k') eqn:Hc; cbn.
    + apply String.compare_eq_iff in Hc. subst k'.
      apply String.eqb_neq in Hne. now rewrite Hne.
    + apply String.eqb_neq in Hne. now rewrite Hne.
    + now rewrite IH.
Qed.

Lemma assign_all_keys kvs m k0 :
  In k0 (keys (assign_all kvs m)) <-> In k0 (map fst kvs) \/ In k0 (keys m).
Proof.
  revert m. induction kvs as [|[k v] kvs IH]; intros m; cbn.
  - intuition.
  - unfold assign_all in IH. rewrite IH, map_assign_keys. intuition.
Qed.

Lemma assign_all_pairs kvs m k0 h :
  In (k0, h) (assign_all kvs m) -> In (k0, h) kvs \/ In (k0, h) m.
Proof.
  revert m. induction kvs as [|[k v] kvs IH]; intros m; cbn.
  - auto.
  - intros Hin. destruct (IH _ Hin) as [Hl | Hr]; [auto|].
    apply map_assign_pairs in Hr as [[-> ->] | Hr]; auto.
Qed.

Lemma assign_all_sorted kvs m :
  StronglySorted str_lt (keys m) -> StronglySorted str_lt (keys (assign_all kvs m)).
Proof.
  revert m. induction kvs as [|[k v] kvs IH]; intros m Hs; cbn.
  - exact Hs.
  - apply IH, map_assign_sorted, Hs.
Qed.

Lemma assign_all_find_other post m k :
  ~ In k (map fst post) -> map_find k (assign_all post m) = map_find k m.
Proof.
  revert m. induction post as [|[k' v'] post IH]; intros m Hnot; cbn.
  - reflexivity.
  - cbn in Hnot. unfold assign_all in IH. rewrite IH by tauto.
    apply map_find_assign_other. intros ->. tauto.
Qed.

(** The handle kept for a path is the one of the last time it was opened. *)
Lemma assign_all_last pre k h post m :
  ~ In k (map fst post) ->
  map_find k (assign_all (pre ++ (k, h) :: post) m) = Some h.
Proof.
  intros Hlast. unfold assign_all. rewrite fold_left_app. cbn [fold_left fst snd].
  fold (assign_all post
          (map_assign k h (fold_left (fun m kv => map_assign (fst kv) (snd kv) m) pre m))).
  rewrite assign_all_find_other by exact Hlast.
  apply map_find_assign_same.
Qed.

Lemma combine_fst_snd {A B} (l : list (A * B)) : combine (map fst l) (map snd l) = l.
Proof. induction l as [|[a b] l IH]; cbn; [reflexivity | now rewrite IH]. Qed.

Lemma map_fst_combine {A B} (l : list A) (l' : list B) :
  List.length l' = List.length l -> map fst (combine l l') = l.
Proof.
  revert l'. induction l as [|a l IH]; intros [|b l'] Hlen; cbn in *;
    try discriminate; [reflexivity|].
  now rewrite IH by lia.
Qed.

Lemma configured_opens_closes {L : Type} `{HDF5 L} fapl o cfg failed :
  configured fapl o cfg failed -> opens cfg = [] /\ closes cfg = [].
Proof. destruct 1; split; reflexivity. Qed.

(** X21. The trace of every run splits in two: a first part in which no file
    is closed, and a second part in which no file is opened.  When the run
    completes (exit status 0), the first part opens each listed path once,
    in the order of the list; the map of retained handles then holds exactly
    one handle for each listed path, namely the one returned the last time
    the path was opened; and the second part closes every handle of the
    map, in the order of the keys. *)
Theorem handles_retained_then_closed {L : Type} `{HDF5 L} (l : L) fs argv :
  exists t_scan t_close hs,
    trace (snd (run l fs argv)) = t_scan ++ t_close /\
    closes t_scan = [] /\ opens t_close = [] /\
    (exit_status (fst (run l fs argv)) = Some 0%Z ->
     let files := input_files fs argv in
     let kept := assign_all (combine files hs) [] in
     opens t_scan = combine (map c_str files) hs /\
     List.length hs = List.length files /\
     NoDup (keys kept) /\
     (forall path, In path files <-> In path (keys kept)) /\
     (forall path h, In (path, h) kept -> In (path, h) (combine files hs)) /\
     (forall pre path h post,
         combine files hs = pre ++ (path, h) :: post ->
         ~ In path (map fst post) -> map_find path kept = Some h) /\
     closes t_close = map snd kept).
Proof.
  destruct (Nat.eq_dec (List.length argv) 3) as [Hargc | Hargc].
  2:{ rewrite (main_usage l fs argv Hargc). exists [], [], []. cbn.
      do 3 (split; [reflexivity|]). discriminate. }
  destruct (run l fs argv) as [o p] eqn:Hrun. cbn [fst snd].
  destruct (main_runs l fs argv o p Hargc Hrun) as (Hshape & _).
  destruct Hshape as [fapl cfg name Hcfg
                     | fapl cfg alloc scan st cl Hcfg Hsc Hcl
                     | fapl cfg alloc scan st cl Hcfg Hsc Hcl
                     | fapl cfg alloc done rest scan st tail why Hcfg Hfiles Hsc Hcut].
  - exists cfg, [], []. rewrite app_nil_r.
    destruct (configured_opens_closes _ _ _ _ Hcfg) as [_ Hc].
    split; [reflexivity|]. split; [exact Hc|]. split; [reflexivity|].
    cbn. discriminate.
  - destruct (configured_opens_closes _ _ _ _ Hcfg) as [Ho1 Hc1].
    destruct (closed_all_closes _ _ Hcl) as (Hc3 & Ho3 & _).
    destruct (scanned_opens _ _ _ _ _ Hsc) as [Hpaths Hids].
    pose proof (scanned_closes _ _ _ _ _ Hsc) as Hc2.
    exists (cfg ++ EvH5get_alloc_stats alloc :: EvRow alloc 0 :: scan), cl,
      (map snd (opens scan)).
    assert (Hlen : List.length (map snd (opens scan)) = List.length (input_files fs argv)).
    { rewrite length_map, <- (length_map fst), Hpaths, length_map. reflexivity. }
    split; [rewrite <- app_assoc; reflexivity|].
    split; [rewrite closes_app, Hc1; exact Hc2|].
    split; [exact Ho3|].
    intros _. cbn zeta. cbn [init_locals file_ids] in Hids.
    fold (assign_all (combine (input_files fs argv) (map snd (opens scan))) []) in Hids.
    rewrite <- Hids.
    split; [rewrite opens_app, Ho1; cbn [app]; change (opens (?a :: ?b :: scan))
              with (opens scan) |].
    { rewrite <- Hpaths. symmetry. apply combine_fst_snd. }
    split; [exact Hlen|].
    split.
    { apply sorted_keys_NoDup. rewrite Hids. apply assign_all_sorted. constructor. }
    split.
    { intros path. rewrite Hids, assign_all_keys, map_fst_combine by exact Hlen.
      cbn. tauto. }
    split.
    { intros path h Hin. rewrite Hids in Hin.
      apply assign_all_pairs in Hin as [Hin | []]. exact Hin. }
    split; [|exact Hc3].
    intros pre path h post Heq Hlast. rewrite Hids, Heq.
    apply assign_all_last. exact Hlast.
  - destruct (configured_opens_closes _ _ _ _ Hcfg) as [_ Hc1].
    destruct (closed_until_failure_closes _ _ Hcl) as (_ & _ & _ & _ & _ & _ & Ho3 & _).
    pose proof (scanned_closes _ _ _ _ _ Hsc) as Hc2.
    exists (cfg ++ EvH5get_alloc_stats alloc :: EvRow alloc 0 :: scan), cl, [].
    split; [rewrite <- app_assoc; reflexivity|].
    split; [rewrite closes_app, Hc1; exact Hc2|].
    split; [exact Ho3 | cbn; discriminate].
  - destruct (configured_opens_closes _ _ _ _ Hcfg) as [_ Hc1].
    destruct (cut_short_quiet _ _ _ _ _ _ Hcut) as (_ & Hc3 & _).
    pose proof (scanned_closes _ _ _ _ _ Hsc) as Hc2.
    exists (cfg ++ EvH5get_alloc_stats alloc :: EvRow alloc 0 :: scan ++ tail), [], [].
    split; [rewrite app_nil_r; reflexivity|].
    split; [|split; [reflexivity | cbn; discriminate]].
    rewrite closes_app, Hc1. cbn [app].
    change (closes (EvH5get_alloc_stats alloc :: EvRow alloc 0 :: scan ++ tail))
      with (closes (scan ++ tail)).
    now rewrite closes_app, Hc2, Hc3.
Qed.

(** With [a.h5] listed first, [b.h5] second and [a.h5] again third, three
    handles are opened and two are retained: the second handle of [a.h5] and
    the handle of [b.h5]. *)
Lemma handles_retained_then_closed_witness :
  exists t_scan t_close hs,
    trace (snd (run (Toy.boot Toy.two_files true)
                  (Toy.list_file ("a.h5" ++ nl ++ "b.h5" ++ nl ++ "a.h5" ++ nl)%string)
                  Toy.argv)) = t_scan ++ t_close /\
    closes t_scan = [] /\ opens t_close = [] /\
    opens t_scan = combine ["a.h5"; "b.h5"; "a.h5"]%string hs /\
    closes t_close = map snd (assign_all (combine ["a.h5"; "b.h5"; "a.h5"]%string hs) []).
Proof.
  destruct (handles_retained_then_closed (Toy.boot Toy.two_files true)
              (Toy.list_file ("a.h5" ++ nl ++ "b.h5" ++ nl ++ "a.h5" ++ nl)%string)
              Toy.argv)
    as (t_scan & t_close & hs & Htr & Hc & Ho & Hdone).
  exists t_scan, t_close, hs.
  destruct (Hdone eq_refl) as (Hopens & _ & _ & _ & _ & _ & Hcloses).
  repeat split; assumption.
Defined.

(** C7 (the code on a failing input).  [b.h5] and [a.h5] are on disk,
    [Zmissing] is not.  The three paths are opened in the order of the list
    and the batch is processed in full (a row for each); the map retains the
    three handles returned, -1 for [Zmissing].  The closing loop goes by the
    keys, [Zmissing] first: [H5Fclose] refuses -1 and the process ends at
    once with status 1.  The handles 104 of [a.h5] and 101 of [b.h5], which
    the map retains, are never closed: the library still holds both files
    when the process ends. *)
Theorem retained_handles_left_open :
  let files := ["b.h5"; "Zmissing"; "a.h5"]%string in
  let r := run (Toy.boot Toy.two_files true) (Toy.list_file (listed files)) Toy.argv in
  input_files (Toy.list_file (listed files)) Toy.argv = files /\
  opens (trace (snd r)) =
    [("b.h5"%string, 101%Z); ("Zmissing"%string, (-1)%Z); ("a.h5"%string, 104%Z)] /\
  List.length (rows (trace (snd r))) = 4%nat /\
  assign_all (combine files (map snd (opens (trace (snd r))))) [] =
    [("Zmissing"%string, (-1)%Z); ("a.h5"%string, 104%Z); ("b.h5"%string, 101%Z)] /\
  closes (trace (snd r)) = [(-1)%Z] /\
  fst r = Exit 1 /\
  cout (snd r) = ("Error: H5Fclose" ++ nl)%string /\
  Toy.lookup 104 (Toy.handles (lib (snd r))) = Some (Toy.RFile Toy.a_h5) /\
  Toy.lookup 101 (Toy.handles (lib (snd r))) = Some (Toy.RFile Toy.b_h5).
Proof. cbv zeta. repeat split. Qed.

(** ** Runs with a path that cannot be opened

    [H5Fopen] returns a negative handle for a path that is not on disk.
    The loop does not test it: the size query fails and leaves
    [curr_file_size] at the size of the previous file, which is added once
    more; the row is written; and the negative handle is put in the map.
    The failure is noticed only when [H5Fclose] refuses that handle. *)

(** X8. Within the bounds of the program (no extent query answered with
    more than two sizes, fewer than 2^32 listed paths) and whatever the
    handles returned, a run that gets past the configuration opens every
    listed path and hands [report] one row for each, after the baseline
    row. *)
Lemma one_row_per_listed_path {L : Type} `{HDF5 L} (l : L) fs argv :
  forallb fits_dset_dims (trace (snd (run l fs argv))) = true ->
  index_fits (input_files fs argv) ->
  (rows (trace (snd (run l fs argv))) = [] /\ opens (trace (snd (run l fs argv))) = []) \/
  (List.length (rows (trace (snd (run l fs argv)))) =
     S (List.length (input_files fs argv)) /\
   map fst (opens (trace (snd (run l fs argv)))) = map c_str (input_files fs argv)).
Proof.
  destruct (Nat.eq_dec (List.length argv) 3) as [Hargc | Hargc].
  2:{ rewrite (main_usage l fs argv Hargc). left. split; reflexivity. }
  destruct (run l fs argv) as [o p] eqn:Hrun. cbn [fst snd].
  destruct (main_runs l fs argv o p Hargc Hrun) as (Hshape & _).
  intros Hfit Hlen.
  pose proof (main_run_within_bounds _ _ _ _ Hshape Hfit Hlen) as Hends.
  clear Hfit Hlen.
  destruct Hshape as [fapl cfg name Hcfg
                     | fapl cfg alloc scan st cl Hcfg Hsc Hcl
                     | fapl cfg alloc scan st cl Hcfg Hsc Hcl
                     | fapl cfg alloc done rest scan st tail why Hcfg Hfiles Hsc Hcut];
    [| | |destruct Hends; discriminate].
  - left. destruct (configured_opens_closes _ _ _ _ Hcfg) as [Ho _].
    split; [eapply configured_no_rows; eassumption | exact Ho].
  - right.
    change (EvH5get_alloc_stats alloc :: EvRow alloc 0 :: scan ++ cl)
      with ([EvH5get_alloc_stats alloc; EvRow alloc 0] ++ scan ++ cl).
    rewrite !rows_app, !opens_app, (configured_no_rows _ _ _ _ Hcfg).
    destruct (configured_opens_closes _ _ _ _ Hcfg) as [-> _].
    destruct (closed_all_closes _ _ Hcl) as (_ & -> & _).
    rewrite (closed_all_no_rows _ _ Hcl), !app_nil_r. cbn [app rows opens flat_map row_of open_of].
    destruct (scanned_opens _ _ _ _ _ Hsc) as [-> _].
    cbn [List.length]. fold (rows scan).
    now rewrite (scanned_rows_length _ _ _ _ _ Hsc).
  - right.
    change (EvH5get_alloc_stats alloc :: EvRow alloc 0 :: scan ++ cl)
      with ([EvH5get_alloc_stats alloc; EvRow alloc 0] ++ scan ++ cl).
    rewrite !rows_app, !opens_app, (configured_no_rows _ _ _ _ Hcfg).
    destruct (configured_opens_closes _ _ _ _ Hcfg) as [-> _].
    destruct (closed_until_failure_closes _ _ Hcl) as (_ & _ & _ & _ & _ & _ & -> & _).
    rewrite (closed_until_failure_no_rows _ _ Hcl), !app_nil_r.
    cbn [app rows opens flat_map row_of open_of].
    destruct (scanned_opens _ _ _ _ _ Hsc) as [-> _].
    cbn [List.length]. fold (rows scan).
    now rewrite (scanned_rows_length _ _ _ _ _ Hsc).
Qed.

(** The run over [a.h5] and [missing.h5]: three rows, two opens. *)
Lemma one_row_per_listed_path_witness :
  List.length (rows (trace (snd (run (Toy.boot Toy.two_files true)
                  (Toy.list_file (listed ["a.h5"; "missing.h5"]%string)) Toy.argv)))) = 3%nat /\
  map fst (opens (trace (snd (run (Toy.boot Toy.two_files true)
                  (Toy.list_file (listed ["a.h5"; "missing.h5"]%string)) Toy.argv)))) =
    ["a.h5"; "missing.h5"]%string.
Proof.
  destruct (one_row_per_listed_path (Toy.boot Toy.two_files true)
              (Toy.list_file (listed ["a.h5"; "missing.h5"]%string)) Toy.argv)
    as [[Hrows _] | Hboth].
  - vm_compute. reflexivity.
  - vm_compute. reflexivity.
  - vm_compute in Hrows. discriminate Hrows.
  - exact Hboth.
Defined.

(** C2 (the code on a failing input).  [a.h5] is on disk, [missing.h5] is
    not.  The open of [missing.h5] returns -1, yet a third row is written
    for it; the process ends with status 1 because closing -1 fails, and the
    diagnostic names [H5Fclose], not the open. *)
Theorem unopened_path_gets_a_row :
  let r := run (Toy.boot Toy.two_files true)
               (Toy.list_file (listed ["a.h5"; "missing.h5"]%string)) Toy.argv in
  input_files (Toy.list_file (listed ["a.h5"; "missing.h5"]%string)) Toy.argv =
    ["a.h5"; "missing.h5"]%string /\
  opens (trace (snd r)) = [("a.h5"%string, 101%Z); ("missing.h5"%string, (-1)%Z)] /\
  fst r = Exit 1 /\
  cout (snd r) = ("Error: H5Fclose" ++ nl)%string /\
  cerr (snd r) = ""%string /\
  written (outfile (snd r)) =
    (header_line ++ "0,0,0,0" ++ nl ++ "1000,1000,1000,1000" ++ nl
                 ++ "1000,1000,1000,2000" ++ nl)%string.
Proof. cbv zeta. repeat split. Qed.

(** C3 (the code on a failing input).  With [missing.h5] between [a.h5]
    (1000 bytes) and [b.h5] (2500 bytes), the accumulated sizes of the four
    rows are 0, 1000, 2000 and 4500, while the files opened have 1000 and
    2500 bytes: after the failed open the size of [a.h5] is counted twice. *)
Theorem stale_size_is_added_again :
  let r := run (Toy.boot Toy.two_files true)
               (Toy.list_file (listed ["a.h5"; "missing.h5"; "b.h5"]%string)) Toy.argv in
  map snd (rows (trace (snd r))) = [0; 1000; 2000; 4500]%N /\
  valid_opens (trace (snd r)) = [("a.h5"%string, 101%Z); ("b.h5"%string, 106%Z)] /\
  sizes (trace (snd r)) = [1000; 2500]%N /\
  fold_right N.add 0%N (sizes (trace (snd r))) = 3500%N.
Proof. cbv zeta. repeat split. Qed.

(** C4 (the code on a failing input).  With [missing.h5] alone in the list
    no file is opened, and two rows are written: the baseline and one for
    the path that could not be opened.  With an empty list there is one row,
    no open and no close. *)
Theorem row_written_for_each_listed_path :
  (let r := run (Toy.boot Toy.two_files true)
                (Toy.list_file (listed ["missing.h5"]%string)) Toy.argv in
   valid_opens (trace (snd r)) = [] /\
   List.length (rows (trace (snd r))) = 2%nat) /\
  (let r := run (Toy.boot Toy.two_files true) (Toy.list_file ""%string) Toy.argv in
   fst r = Ret 0%Z /\
   List.length (rows (trace (snd r))) = 1%nat /\
   opens (trace (snd r)) = [] /\ closes (trace (snd r)) = []).
Proof. cbv zeta. repeat split. Qed.

(** ** The status of a visit is not acted on *)

Section Related.

Context {L : Type}.













End Related.


Section VisitStatusRuns.

Context {L : Type} {H : HDF5 L}.

Variable g : herr_t -> herr_t.








End VisitStatusRuns.



(** Against a library whose every visit reports failure, the run over the
    two files still returns 0 and writes its three rows. *)
Example run_with_failing_visits :
  let r := @run _ (with_visit_status (fun _ => (-1)%Z)) (Toy.boot Toy.two_files true)
                (Toy.list_file (listed ["a.h5"; "b.h5"]%string)) Toy.argv in
  fst r = Ret 0%Z /\
  map snd (rows (trace (snd r))) = [0; 1000; 3500]%N /\
  visit_statuses (trace (snd r)) = [-1; -1]%Z.
Proof. cbv zeta. repeat split; vm_compute; reflexivity. Qed.

(** ** The accumulated size when every size query answers

    The other side of the runs above: when every size query writes a size
    and the total stays below 2^64, the accumulated size of each row is the
    sum of the sizes read so far, starting from 0 at the baseline. *)

Lemma sizes_app t1 t2 : sizes (t1 ++ t2) = sizes t1 ++ sizes t2.
Proof. apply flat_map_app. Qed.

Lemma visit_events_no_sizes vis : forallb visit_event vis = true -> sizes vis = [].
Proof.
  induction vis as [|v vis IH]; [reflexivity|].
  cbn [forallb]. intros Hv. apply andb_true_iff in Hv as [Hv Hvis].
  unfold sizes in *. cbn [flat_map]. rewrite (IH Hvis).
  destruct v; try discriminate; reflexivity.
Qed.

Lemma wrap64_small n : (n < two64)%N -> wrap64 n = n.
Proof. intros Hn. unfold wrap64. now apply N.mod_small. Qed.

Lemma scanned_running_sums {L : Type} `{HDF5 L} fapl files st scan st' :
  scanned fapl files st scan st' ->
  Forall size_written scan ->
  (acc_file_size st + fold_right N.add 0 (sizes scan) < two64)%N ->
  map snd (rows scan) = running_sums (acc_file_size st) (sizes scan).
Proof.
  induction 1 as [|path rest st fid e size_out vis alloc evs st' Hvis Hsc IH];
    [reflexivity|].
  intros Hall Hsum.
  change (EvH5Fopen (c_str path) H5F_ACC_RDONLY fapl fid
          :: EvH5Fget_filesize fid e size_out
          :: vis ++ EvH5get_alloc_stats alloc
          :: EvRow alloc (acc_file_size (scan_step st path fid size_out)) :: evs)
    with ([EvH5Fopen (c_str path) H5F_ACC_RDONLY fapl fid;
           EvH5Fget_filesize fid e size_out]
          ++ vis ++ [EvH5get_alloc_stats alloc;
                     EvRow alloc (acc_file_size (scan_step st path fid size_out))] ++ evs)
    in *.
  apply Forall_app in Hall as [Hq Hall].
  apply Forall_app in Hall as [_ Hall].
  apply Forall_app in Hall as [_ Hall].
  apply Forall_inv_tail, Forall_inv in Hq.
  destruct size_out as [sz|]; [clear Hq | contradiction].
  rewrite !sizes_app, !rows_app, (visit_events_no_sizes vis Hvis) in *.
  destruct (visit_events_silent vis Hvis) as (-> & _).
  cbn [sizes rows flat_map size_of row_of app map snd fold_right running_sums] in *.
  cbn [scan_step acc_file_size] in *.
  rewrite wrap64_small in * by lia.
  f_equal. apply IH; [exact Hall|]. cbn [acc_file_size]. lia.
Qed.

Lemma running_sums_increase acc szs :
  StronglySorted N.le (acc :: running_sums acc szs).
Proof.
  revert acc. induction szs as [|sz rest IH]; intros acc; cbn.
  - repeat constructor.
  - specialize (IH (acc + sz)%N). constructor; [exact IH|].
    apply StronglySorted_inv in IH as [_ Hall].
    constructor; [lia|]. eapply Forall_impl; [|exact Hall]. cbn. intros a Ha. lia.
Qed.

Lemma closed_all_no_sizes ids cl : closed_all ids cl -> sizes cl = [].
Proof. induction 1; [reflexivity | assumption]. Qed.

(** X9. In a run that completes, with every size query answered and a total
    below 2^64, the accumulated sizes are 0 followed by the running sums of
    the sizes read, and they never decrease. *)
Lemma accumulated_size_is_running_sum {L : Type} `{HDF5 L} (l : L) fs argv :
  fst (run l fs argv) = Ret 0%Z ->
  Forall size_written (trace (snd (run l fs argv))) ->
  (fold_right N.add 0 (sizes (trace (snd (run l fs argv)))) < two64)%N ->
  map snd (rows (trace (snd (run l fs argv)))) =
    0%N :: running_sums 0 (sizes (trace (snd (run l fs argv)))) /\
  StronglySorted N.le (map snd (rows (trace (snd (run l fs argv))))).
Proof.
  destruct (Nat.eq_dec (List.length argv) 3) as [Hargc | Hargc].
  2:{ rewrite (main_usage l fs argv Hargc). discriminate. }
  destruct (run l fs argv) as [o p] eqn:Hrun. cbn [fst snd].
  destruct (main_runs l fs argv o p Hargc Hrun) as (Hshape & _).
  intros ->.
  inversion Hshape as [| fapl cfg alloc scan st cl Hcfg Hsc Hcl Heq | |]; subst.
  intros Hall Hsum.
  assert (Hsz : sizes cfg = []) by (inversion Hcfg; reflexivity).
  change (EvH5get_alloc_stats alloc :: EvRow alloc 0 :: scan ++ cl)
    with ([EvH5get_alloc_stats alloc; EvRow alloc 0] ++ scan ++ cl) in *.
  apply Forall_app in Hall as [_ Hall].
  apply Forall_app in Hall as [_ Hall].
  apply Forall_app in Hall as [Hall _].
  rewrite !sizes_app, !rows_app, Hsz, (closed_all_no_sizes _ _ Hcl) in *.
  rewrite (configured_no_rows _ _ _ _ Hcfg), (closed_all_no_rows _ _ Hcl) in *.
  cbn [sizes rows flat_map size_of row_of app map snd] in *.
  rewrite !app_nil_r in *.
  rewrite (scanned_running_sums _ _ _ _ _ Hsc Hall) by exact Hsum.
  split; [reflexivity|]. apply running_sums_increase.
Qed.

(** * Further properties of the code *)

(** ** Reading the list file (lines 101-104) *)

Lemma all_chars_app ok s1 s2 :
  all_chars ok (s1 ++ s2)%string = all_chars ok s1 && all_chars ok s2.
Proof.
  induction s1 as [|c s1 IH]; cbn; [reflexivity|]. now rewrite IH, andb_assoc.
Qed.

Lemma getlines_line line : forall cur rest,
  has_no "010" line = true ->
  getlines cur (line ++ nl ++ rest)%string = (cur ++ line)%string :: getlines "" rest.
Proof.
  induction line as [|c line IH]; intros cur rest Hno.
  - cbn. now rewrite append_nil_r.
  - cbn in Hno. apply andb_true_iff in Hno as [Hc Hline].
    apply negb_true_iff in Hc. cbn [append getlines]. rewrite Hc.
    rewrite IH by exact Hline. now rewrite append_assoc.
Qed.

Lemma getlines_last last : forall cur,
  has_no "010" last = true ->
  getlines cur last =
  if ((cur ++ last)%string =? "")%string then [] else [(cur ++ last)%string].
Proof.
  induction last as [|c last IH]; intros cur Hno.
  - cbn. now rewrite append_nil_r.
  - cbn in Hno. apply andb_true_iff in Hno as [Hc Hlast].
    apply negb_true_iff in Hc. cbn [getlines]. rewrite Hc.
    rewrite IH by exact Hlast. now rewrite append_assoc.
Qed.

(** X1. A list file written with one path per line reads back as the list
    of its paths, in order, empty lines included, as long as no path holds a
    line feed; text after the last line end is one more path when it is not
    empty, so the line end of the last line may be missing. *)
Theorem getlines_listed (paths : list string) (last : string) :
  Forall (fun path => has_no "010" path = true) paths ->
  has_no "010" last = true ->
  getlines "" (listed paths ++ last) =
  paths ++ (if (last =? "")%string then [] else [last]).
Proof.
  intros Hpaths Hlast. induction Hpaths as [|path paths Hpath _ IH].
  - cbn [listed fold_right append app]. now rewrite getlines_last.
  - cbn [listed fold_right]. fold (listed paths).
    rewrite !append_assoc, getlines_line by exact Hpath.
    cbn [append app]. now rewrite IH.
Qed.

Lemma getlines_listed_witness :
  getlines "" (listed ["a.h5"; ""; "dir/b.h5"]%string ++ "c.h5") =
  ["a.h5"; ""; "dir/b.h5"; "c.h5"]%string.
Proof.
  apply (getlines_listed ["a.h5"; ""; "dir/b.h5"]%string "c.h5"%string).
  - repeat constructor.
  - reflexivity.
Defined.

Lemma getlines_no_line_feed s : forall cur,
  has_no "010" cur = true ->
  Forall (fun line => has_no "010" line = true) (getlines cur s).
Proof.
  induction s as [|c s IH]; intros cur Hcur; cbn [getlines].
  - destruct (cur =? "")%string; repeat constructor. exact Hcur.
  - destruct (Ascii.eqb_spec c "010") as [-> | Hne].
    + constructor; [exact Hcur | apply IH; reflexivity].
    + apply IH. unfold has_no. rewrite all_chars_app. fold (has_no "010" cur).
      rewrite Hcur. cbn. apply Ascii.eqb_neq in Hne. now rewrite Hne.
Qed.

Lemma input_files_no_line_feed (fs : filesystem) (argv : list string) :
  Forall (fun path => has_no "010" path = true) (input_files fs argv).
Proof.
  unfold input_files. destruct (open_read fs (nth 1 argv ""%string)) as [s|].
  - apply getlines_no_line_feed. reflexivity.
  - constructor.
Qed.

(** ** The path handed to H5Fopen (line 148) *)

Lemma c_str_stops_at_NUL_free (s : string) : has_no "000" (c_str s) = true.
Proof.
  induction s as [|c s IH]; cbn [c_str]; [reflexivity|].
  destruct (c =? "000")%char eqn:Hc; [reflexivity|]. cbn. now rewrite Hc.
Qed.

(** X2. The C string of a path holds no NUL and is the path up to its first
    NUL: the path itself when it holds none, otherwise what precedes the
    first NUL, the rest being dropped. *)
Theorem c_str_stops_at_NUL (s : string) :
  has_no "000" (c_str s) = true /\
  (s = c_str s \/ exists rest, s = (c_str s ++ String "000" rest)%string) /\
  (has_no "000" s = true -> c_str s = s).
Proof.
  induction s as [|c s (IHno & IHsplit & IHid)]; cbn [c_str].
  - repeat split. now left.
  - destruct (Ascii.eqb_spec c "000") as [-> | Hne].
    + split; [reflexivity|]. split; [right; exists s; reflexivity|].
      cbn. discriminate.
    + apply Ascii.eqb_neq in Hne. split; [cbn; now rewrite Hne|]. split.
      * destruct IHsplit as [Heq | [rest Heq]].
        -- left. now rewrite <- Heq.
        -- right. exists rest. cbn. now rewrite <- Heq.
      * cbn. rewrite Hne. cbn. intros Hno. now rewrite IHid.
Qed.

Lemma c_str_stops_at_NUL_witness :
  has_no "000" (c_str "a.h5") = true /\
  ("a.h5"%string = c_str "a.h5" \/
   exists rest, "a.h5"%string = (c_str "a.h5" ++ String "000" rest)%string) /\
  c_str "a.h5" = "a.h5"%string.
Proof.
  destruct (c_str_stops_at_NUL "a.h5") as (Hno & Hsplit & Hid).
  split; [exact Hno|]. split; [exact Hsplit | exact (Hid eq_refl)].
Defined.

Lemma c_str_keeps_has_no c s : has_no c s = true -> has_no c (c_str s) = true.
Proof.
  induction s as [|x s IH]; cbn; [reflexivity|].
  intros Hno. apply andb_true_iff in Hno as [Hx Hs].
  destruct (x =? "000")%char; [reflexivity|]. cbn. rewrite Hx. exact (IH Hs).
Qed.

(** The iteration in which a scan is lost has opened its file, when it is
    lost in the visit. *)
Lemma cut_short_opens {L : Type} `{HDF5 L} fapl i done rest tail why :
  cut_short fapl i done rest tail why ->
  exists more rest', rest = more ++ rest' /\ map fst (opens tail) = map c_str more.
Proof.
  destruct 1 as [rest Hend | path rest fid e size_out vis Hvis Hfit].
  - exists [], rest. split; reflexivity.
  - exists [path], rest. split; [reflexivity|].
    destruct (visit_events_silent vis Hvis) as (_ & Ho & _).
    unfold opens in *. cbn [flat_map open_of app]. now rewrite Ho.
Qed.

(** The opens of a run: one per listed path, in order, for the first paths
    of the list: none of them before the configuration succeeds, all of them
    once the scan is through. *)
Lemma run_opens {L : Type} `{HDF5 L} (l : L) fs argv :
  exists opened rest,
    input_files fs argv = opened ++ rest /\
    map fst (opens (trace (snd (run l fs argv)))) = map c_str opened.
Proof.
  destruct (Nat.eq_dec (List.length argv) 3) as [Hargc | Hargc].
  2:{ rewrite (main_usage l fs argv Hargc). exists [], (input_files fs argv).
      split; reflexivity. }
  destruct (run l fs argv) as [o p] eqn:Hrun. cbn [fst snd].
  destruct (main_runs l fs argv o p Hargc Hrun) as (Hshape & _).
  destruct Hshape as [fapl cfg name Hcfg
                     | fapl cfg alloc scan st cl Hcfg Hsc Hcl
                     | fapl cfg alloc scan st cl Hcfg Hsc Hcl
                     | fapl cfg alloc done rest scan st tail why Hcfg Hfiles Hsc Hcut].
  - exists [], (input_files fs argv). split; [reflexivity|].
    now rewrite (proj1 (configured_opens_closes _ _ _ _ Hcfg)).
  - exists (input_files fs argv), []. split; [now rewrite app_nil_r|].
    change (EvH5get_alloc_stats alloc :: EvRow alloc 0 :: scan ++ cl)
      with ([EvH5get_alloc_stats alloc; EvRow alloc 0] ++ scan ++ cl).
    rewrite !opens_app.
    destruct (configured_opens_closes _ _ _ _ Hcfg) as [-> _].
    destruct (closed_all_closes _ _ Hcl) as (_ & -> & _).
    rewrite app_nil_r. cbn [app opens flat_map open_of].
    apply (scanned_opens _ _ _ _ _ Hsc).
  - exists (input_files fs argv), []. split; [now rewrite app_nil_r|].
    change (EvH5get_alloc_stats alloc :: EvRow alloc 0 :: scan ++ cl)
      with ([EvH5get_alloc_stats alloc; EvRow alloc 0] ++ scan ++ cl).
    rewrite !opens_app.
    destruct (configured_opens_closes _ _ _ _ Hcfg) as [-> _].
    destruct (closed_until_failure_closes _ _ Hcl) as (_ & _ & _ & _ & _ & _ & -> & _).
    rewrite app_nil_r. cbn [app opens flat_map open_of].
    apply (scanned_opens _ _ _ _ _ Hsc).
  - destruct (cut_short_opens _ _ _ _ _ _ Hcut) as (more & rest' & -> & Hmore).
    exists (done ++ more), rest'. split; [rewrite Hfiles; now rewrite app_assoc|].
    change (EvH5get_alloc_stats alloc :: EvRow alloc 0 :: scan ++ tail)
      with ([EvH5get_alloc_stats alloc; EvRow alloc 0] ++ scan ++ tail).
    rewrite !opens_app.
    destruct (configured_opens_closes _ _ _ _ Hcfg) as [-> _].
    cbn [app opens flat_map open_of].
    rewrite !map_app, Hmore. f_equal.
    apply (scanned_opens _ _ _ _ _ Hsc).
Qed.

(** X3. In every run, no file name handed to [H5Fopen] holds a line feed or
    a NUL: each is a line of the list file, cut at its first NUL. *)
Theorem opened_names_are_clean {L : Type} `{HDF5 L} (l : L) fs argv :
  Forall (fun name => has_no "010" name = true /\ has_no "000" name = true)
         (map fst (opens (trace (snd (run l fs argv))))).
Proof.
  destruct (run_opens l fs argv) as (opened & rest & Hfiles & ->).
  pose proof (input_files_no_line_feed fs argv) as Hlines.
  rewrite Hfiles in Hlines. apply Forall_app in Hlines as [Hlines _].
  apply Forall_map. eapply Forall_impl; [|exact Hlines].
  cbn. intros path Hpath. split.
  - apply c_str_keeps_has_no. exact Hpath.
  - apply c_str_stops_at_NUL_free.
Qed.

(** ** How a run ends (lines 11-15, 92-95, 117-140, 160-163) *)

Lemma checked_failure_names e name :
  checked_failure e = Some name ->
  In name ["H5Pset_fapl_core"; "H5Pget_cache"; "H5Pset_cache"; "H5Fclose"]%string.
Proof.
  destruct e; cbn; try discriminate;
    match goal with |- context [(?r <? 0)%Z] => destruct (r <? 0)%Z end;
    intros Heq; inversion Heq; cbn; tauto.
Qed.

(** X4. Within the bounds of the program (no extent query answered with
    more than two sizes, fewer than 2^32 listed paths) a run ends in one of
    six ways: status 0 with nothing on standard output, or status 1 with the
    usage line, or status 1 with the line naming [H5Pset_fapl_core],
    [H5Pget_cache], [H5Pset_cache] or [H5Fclose].  No other status and no
    other diagnostic occurs (none naming [set_rawdata_cache], [H5Pcreate] or
    an open), and standard error stays empty. *)
Theorem run_ends_in_six_ways {L : Type} `{HDF5 L} (l : L) fs argv :
  forallb fits_dset_dims (trace (snd (run l fs argv))) = true ->
  index_fits (input_files fs argv) ->
  In (exit_status (fst (run l fs argv)), cout (snd (run l fs argv)))
     [(Some 0%Z, ""%string);
      (Some 1%Z, (usage ++ nl)%string);
      (Some 1%Z, diag (Some "H5Pset_fapl_core"%string));
      (Some 1%Z, diag (Some "H5Pget_cache"%string));
      (Some 1%Z, diag (Some "H5Pset_cache"%string));
      (Some 1%Z, diag (Some "H5Fclose"%string))] /\
  cerr (snd (run l fs argv)) = ""%string.
Proof.
  destruct (Nat.eq_dec (List.length argv) 3) as [Hargc | Hargc].
  2:{ rewrite (main_usage l fs argv Hargc). cbn. auto. }
  destruct (run l fs argv) as [o p] eqn:Hrun. cbn [fst snd].
  destruct (main_runs l fs argv o p Hargc Hrun) as (Hshape & Hcerr & _).
  intros Hfits Hindex. split; [|exact Hcerr].
  destruct (main_run_outcome _ _ _ _ Hshape)
    as [(-> & _ & ->)
       | [(-> & pre & e & name & _ & _ & Hfail & ->)
         | (why & _ & _ & _ & [Hno | Hno])]].
  - cbn. auto.
  - apply checked_failure_names in Hfail.
    cbn [exit_status]. cbn in Hfail.
    destruct Hfail as [<- | [<- | [<- | [<- | []]]]]; cbn; auto 10.
  - rewrite Hno in Hfits. discriminate.
  - contradiction.
Qed.

(** The run over [a.h5] and [missing.h5] ends with status 1 and names
    [H5Fclose]. *)
Lemma run_ends_in_six_ways_witness :
  In (exit_status (fst (run (Toy.boot Toy.two_files true)
                           (Toy.list_file (listed ["a.h5"; "missing.h5"]%string)) Toy.argv)),
      cout (snd (run (Toy.boot Toy.two_files true)
                     (Toy.list_file (listed ["a.h5"; "missing.h5"]%string)) Toy.argv)))
     [(Some 0%Z, ""%string);
      (Some 1%Z, (usage ++ nl)%string);
      (Some 1%Z, diag (Some "H5Pset_fapl_core"%string));
      (Some 1%Z, diag (Some "H5Pget_cache"%string));
      (Some 1%Z, diag (Some "H5Pset_cache"%string));
      (Some 1%Z, diag (Some "H5Fclose"%string))] /\
  cerr (snd (run (Toy.boot Toy.two_files true)
                 (Toy.list_file (listed ["a.h5"; "missing.h5"]%string)) Toy.argv)) = ""%string.
Proof.
  apply (run_ends_in_six_ways (Toy.boot Toy.two_files true)
           (Toy.list_file (listed ["a.h5"; "missing.h5"]%string)) Toy.argv).
  - vm_compute. reflexivity.
  - vm_compute. reflexivity.
Defined.

(** X5. With exactly two arguments a run starts by creating a property
    list; with any other number it only prints the usage line and ends with
    status 1: the library is not called and the output file is not opened,
    so it is not truncated. *)
Theorem library_untouched_without_two_arguments {L : Type} `{HDF5 L} (l : L) fs argv :
  if (List.length argv =? 3)%nat
  then exists fapl rest,
         trace (snd (run l fs argv)) = EvH5Pcreate H5P_FILE_ACCESS fapl :: rest
  else run l fs argv =
       (Exit 1, mk_process l [] (usage ++ nl)%string ""%string (mk_ofstream false "")).
Proof.
  destruct (List.length argv =? 3)%nat eqn:Hargc.
  - apply Nat.eqb_eq in Hargc.
    destruct (run l fs argv) as [o p] eqn:Hrun. cbn [snd].
    destruct (main_runs l fs argv o p Hargc Hrun) as (Hshape & _).
    destruct (main_run_in_memory _ _ _ _ Hshape) as (fapl & e0 & rest & -> & _).
    eauto.
  - apply Nat.eqb_neq in Hargc. exact (main_usage l fs argv Hargc).
Qed.

(** ** What a run asks of the library (lines 142-158) *)

Lemma visit_events_quiet {A} (f : event -> list A) vis :
  (forall e, visit_event e = true -> f e = []) ->
  forallb visit_event vis = true -> flat_map f vis = [].
Proof.
  intros Hf. induction vis as [|v vis IH]; [reflexivity|].
  cbn [forallb flat_map]. intros Hv. apply andb_true_iff in Hv as [Hv Hvis].
  now rewrite (Hf v Hv), (IH Hvis).
Qed.

Section Asked.

Context {L : Type} `{HDF5 L}.

Lemma scanned_snapshots fapl files st scan st' :
  scanned fapl files st scan st' ->
  map fst (rows scan) = snapshots scan /\
  Forall (fun flags => flags = H5F_ACC_RDONLY) (open_flags scan).
Proof.
  induction 1 as [|path rest st fid e size_out vis alloc evs st' Hvis Hsc [IH1 IH2]];
    [split; [reflexivity | constructor]|].
  unfold rows, snapshots, open_flags in *. cbn [flat_map app].
  rewrite !flat_map_app. cbn [flat_map app row_of].
  rewrite (visit_events_quiet row_of vis) by
    (try exact Hvis; intros x; destruct x; cbn; congruence).
  rewrite (visit_events_quiet
             (fun e => match e with EvH5get_alloc_stats a => [a] | _ => [] end) vis) by
    (try exact Hvis; intros x; destruct x; cbn; congruence).
  rewrite (visit_events_quiet
             (fun e => match e with EvH5Fopen _ flags _ _ => [flags] | _ => [] end) vis) by
    (try exact Hvis; intros x; destruct x; cbn; congruence).
  cbn [app map fst]. rewrite IH1. split; [reflexivity|].
  constructor; [reflexivity | exact IH2].
Qed.

Lemma main_run_snapshots files o t c :
  main_run files o t c ->
  map fst (rows t) = snapshots t /\
  Forall (fun flags => flags = H5F_ACC_RDONLY) (open_flags t).
Proof.
  assert (Hclosed : forall ids cl, closed_all ids cl ->
            rows cl = [] /\ snapshots cl = [] /\ open_flags cl = []).
  { induction 1; [repeat split | assumption]. }
  assert (Hfailed : forall ids cl, closed_until_failure ids cl ->
            rows cl = [] /\ snapshots cl = [] /\ open_flags cl = []).
  { induction 1; [repeat split | assumption]. }
  assert (Hconf : forall fapl o cfg failed, configured fapl o cfg failed ->
            rows cfg = [] /\ snapshots cfg = [] /\ open_flags cfg = []).
  { destruct 1; repeat split. }
  assert (Hlost : forall fapl i done rest tail why, cut_short fapl i done rest tail why ->
            rows tail = [] /\ snapshots tail = [] /\
            Forall (fun flags => flags = H5F_ACC_RDONLY) (open_flags tail)).
  { destruct 1 as [rest Hend | path rest fid e size_out vis Hvis Hfit];
      [repeat split; constructor|].
    unfold rows, snapshots, open_flags. cbn [flat_map app row_of].
    rewrite (visit_events_quiet row_of vis) by
      (try exact Hvis; intros x; destruct x; cbn; congruence).
    rewrite (visit_events_quiet
               (fun e => match e with EvH5get_alloc_stats a => [a] | _ => [] end) vis) by
      (try exact Hvis; intros x; destruct x; cbn; congruence).
    rewrite (visit_events_quiet
               (fun e => match e with EvH5Fopen _ flags _ _ => [flags] | _ => [] end) vis) by
      (try exact Hvis; intros x; destruct x; cbn; congruence).
    repeat split. repeat constructor. }
  destruct 1 as [fapl cfg name Hcfg
                | fapl cfg alloc scan st cl Hcfg Hsc Hcl
                | fapl cfg alloc scan st cl Hcfg Hsc Hcl
                | fapl cfg alloc done rest scan st tail why Hcfg Hfiles Hsc Hcut].
  - destruct (Hconf _ _ _ _ Hcfg) as (-> & -> & ->). split; constructor.
  - destruct (Hconf _ _ _ _ Hcfg) as (Hr & Hs & Hf).
    destruct (Hclosed _ _ Hcl) as (Hr' & Hs' & Hf').
    destruct (scanned_snapshots _ _ _ _ _ Hsc) as [Hrows Hflags].
    unfold rows, snapshots, open_flags in *.
    rewrite !flat_map_app. cbn [flat_map app row_of]. rewrite !flat_map_app.
    rewrite Hr, Hs, Hf, Hr', Hs', Hf', !app_nil_r. cbn [app map fst].
    rewrite Hrows. split; [reflexivity | exact Hflags].
  - destruct (Hconf _ _ _ _ Hcfg) as (Hr & Hs & Hf).
    destruct (Hfailed _ _ Hcl) as (Hr' & Hs' & Hf').
    destruct (scanned_snapshots _ _ _ _ _ Hsc) as [Hrows Hflags].
    unfold rows, snapshots, open_flags in *.
    rewrite !flat_map_app. cbn [flat_map app row_of]. rewrite !flat_map_app.
    rewrite Hr, Hs, Hf, Hr', Hs', Hf', !app_nil_r. cbn [app map fst].
    rewrite Hrows. split; [reflexivity | exact Hflags].
  - destruct (Hconf _ _ _ _ Hcfg) as (Hr & Hs & Hf).
    destruct (Hlost _ _ _ _ _ _ Hcut) as (Hr' & Hs' & Hf').
    destruct (scanned_snapshots _ _ _ _ _ Hsc) as [Hrows Hflags].
    unfold rows, snapshots, open_flags in *.
    rewrite !flat_map_app. cbn [flat_map app row_of]. rewrite !flat_map_app.
    rewrite Hr, Hs, Hf, Hr', Hs', !app_nil_r. cbn [app map fst].
    rewrite Hrows. split; [reflexivity|]. apply Forall_app. split; assumption.
Qed.

End Asked.

(** X6. In every run each row carries the allocator statistics read by the
    call of [H5get_alloc_stats] just before it: the statistics of the rows
    are, in order, all the statistics the run read, none skipped and none
    used twice. *)
Theorem rows_carry_the_snapshots {L : Type} `{HDF5 L} (l : L) fs argv :
  map fst (rows (trace (snd (run l fs argv)))) = snapshots (trace (snd (run l fs argv))).
Proof.
  destruct (Nat.eq_dec (List.length argv) 3) as [Hargc | Hargc].
  2:{ now rewrite (main_usage l fs argv Hargc). }
  destruct (run l fs argv) as [o p] eqn:Hrun. cbn [snd].
  destruct (main_runs l fs argv o p Hargc Hrun) as (Hshape & _).
  apply (main_run_snapshots _ _ _ _ Hshape).
Qed.

(** X7. Every file a run opens is opened read-only. *)
Theorem files_are_opened_read_only {L : Type} `{HDF5 L} (l : L) fs argv :
  Forall (fun flags => flags = H5F_ACC_RDONLY) (open_flags (trace (snd (run l fs argv)))).
Proof.
  destruct (Nat.eq_dec (List.length argv) 3) as [Hargc | Hargc].
  2:{ rewrite (main_usage l fs argv Hargc). constructor. }
  destruct (run l fs argv) as [o p] eqn:Hrun. cbn [snd].
  destruct (main_runs l fs argv o p Hargc Hrun) as (Hshape & _).
  apply (main_run_snapshots _ _ _ _ Hshape).
Qed.

(** ** The accumulated size in general (lines 107-108, 149-150) *)

Lemma wrap64_add_l a b : wrap64 (wrap64 a + b) = wrap64 (a + b).
Proof. unfold wrap64. apply N.Div0.add_mod_idemp_l. Qed.

Lemma wrap64_idem a : wrap64 (wrap64 a) = wrap64 a.
Proof. unfold wrap64. apply N.Div0.mod_mod. Qed.

Lemma scanned_accumulates {L : Type} `{HDF5 L} fapl files st scan st' :
  scanned fapl files st scan st' ->
  forall a, wrap64 a = wrap64 (acc_file_size st) ->
  map snd (rows scan) =
  map wrap64 (running_sums a (held (curr_file_size st) (size_outs scan))).
Proof.
  induction 1 as [|path rest st fid e size_out vis alloc evs st' Hvis Hsc IH];
    [reflexivity|].
  intros a Ha.
  unfold rows, size_outs in *. cbn [flat_map app].
  rewrite !flat_map_app. cbn [flat_map app row_of].
  rewrite (visit_events_quiet row_of vis) by
    (try exact Hvis; intros x; destruct x; cbn; congruence).
  rewrite (visit_events_quiet
             (fun e => match e with EvH5Fget_filesize _ _ out => [out] | _ => [] end) vis) by
    (try exact Hvis; intros x; destruct x; cbn; congruence).
  cbn [app map snd held running_sums].
  set (curr' := match size_out with Some sz => sz | None => curr_file_size st end).
  f_equal.
  - cbn [scan_step acc_file_size]. fold curr'.
    now rewrite <- (wrap64_add_l (acc_file_size st)), <- Ha, wrap64_add_l.
  - apply IH. cbn [scan_step acc_file_size]. fold curr'.
    now rewrite wrap64_idem, <- (wrap64_add_l (acc_file_size st)), <- Ha, wrap64_add_l.
Qed.

Lemma held_prefix c a b : exists more, held c (a ++ b) = held c a ++ more.
Proof.
  revert c. induction a as [|x a IH]; intros c; cbn [app held].
  - eexists. reflexivity.
  - destruct (IH (match x with Some sz => sz | None => c end)) as [more ->].
    exists more. reflexivity.
Qed.

Lemma running_sums_prefix acc a b :
  exists more, running_sums acc (a ++ b) = running_sums acc a ++ more.
Proof.
  revert acc. induction a as [|x a IH]; intros acc; cbn [app running_sums].
  - eexists. reflexivity.
  - destruct (IH (acc + x)%N) as [more ->]. exists more. reflexivity.
Qed.

Lemma firstn_length_prefix {A} (l more : list A) :
  firstn (List.length l) (l ++ more) = l.
Proof. induction l as [|x l IH]; cbn; [reflexivity | now rewrite IH]. Qed.

(** X10. In every run the accumulated size of the baseline row is 0 and
    that of the k-th row after it is, modulo 2^64, the sum of the values
    [curr_file_size] held after each of the first k size queries; a query
    that writes nothing leaves the value of the query before it (0 at the
    start), which is then added again. *)
Theorem accumulated_size_modulo {L : Type} `{HDF5 L} (l : L) fs argv :
  map snd (rows (trace (snd (run l fs argv)))) =
  firstn (List.length (rows (trace (snd (run l fs argv)))))
         (0%N :: map wrap64
                   (running_sums 0 (held 0 (size_outs (trace (snd (run l fs argv))))))).
Proof.
  destruct (Nat.eq_dec (List.length argv) 3) as [Hargc | Hargc].
  2:{ rewrite (main_usage l fs argv Hargc). reflexivity. }
  destruct (run l fs argv) as [o p] eqn:Hrun. cbn [snd].
  destruct (main_runs l fs argv o p Hargc Hrun) as (Hshape & _).
  assert (Hconf : forall fapl o cfg failed, configured fapl o cfg failed ->
            rows cfg = [] /\ size_outs cfg = []) by (destruct 1; split; reflexivity).
  assert (Hclosed : forall ids cl, closed_all ids cl -> rows cl = [] /\ size_outs cl = []).
  { induction 1; [split; reflexivity | assumption]. }
  assert (Hfailed : forall ids cl, closed_until_failure ids cl ->
            rows cl = [] /\ size_outs cl = []).
  { induction 1; [split; reflexivity | assumption]. }
  assert (Hgen : forall fapl cfg alloc files scan st tail,
            configured fapl (Ret fapl) cfg None ->
            scanned fapl files init_locals scan st ->
            rows tail = [] ->
            let t := cfg ++ EvH5get_alloc_stats alloc :: EvRow alloc 0 :: scan ++ tail in
            map snd (rows t) =
            firstn (List.length (rows t))
                   (0%N :: map wrap64 (running_sums 0 (held 0 (size_outs t))))).
  { intros fapl cfg alloc files scan st tail Hcfg Hsc Hr'. cbn zeta.
    destruct (Hconf _ _ _ _ Hcfg) as [Hr Hs].
    pose proof (scanned_accumulates _ _ _ _ _ Hsc 0%N eq_refl) as Hacc.
    cbn [init_locals curr_file_size] in Hacc.
    unfold rows, size_outs in *.
    rewrite !flat_map_app. cbn [flat_map app row_of]. rewrite !flat_map_app.
    rewrite Hr, Hs, Hr', !app_nil_r. cbn [app map snd List.length firstn]. f_equal.
    match goal with
    | |- context [held 0 (?a ++ ?b)] => destruct (held_prefix 0%N a b) as [more1 ->]
    end.
    unfold hsize_t in *.
    match goal with
    | |- context [running_sums 0 (?a ++ ?b)] =>
        destruct (running_sums_prefix 0%N a b) as [more2 ->]
    end.
    rewrite map_app, <- Hacc, <- (length_map snd). symmetry. apply firstn_length_prefix. }
  destruct Hshape as [fapl cfg name Hcfg
                     | fapl cfg alloc scan st cl Hcfg Hsc Hcl
                     | fapl cfg alloc scan st cl Hcfg Hsc Hcl
                     | fapl cfg alloc done rest scan st tail why Hcfg Hfiles Hsc Hcut].
  - now rewrite (proj1 (Hconf _ _ _ _ Hcfg)).
  - eapply Hgen; [eassumption | eassumption | apply (Hclosed _ _ Hcl)].
  - eapply Hgen; [eassumption | eassumption | apply (Hfailed _ _ Hcl)].
  - eapply Hgen; [eassumption | eassumption | apply (cut_short_quiet _ _ _ _ _ _ Hcut)].
Qed.

(** The run over [a.h5] and [b.h5]: both size queries answer, the total is
    3500. *)
Lemma accumulated_size_is_running_sum_witness :
  map snd (rows (trace (snd (run (Toy.boot Toy.two_files true)
                                 (Toy.list_file (listed ["a.h5"; "b.h5"]%string))
                                 Toy.argv)))) =
    0%N :: running_sums 0 (sizes (trace (snd (run (Toy.boot Toy.two_files true)
                                 (Toy.list_file (listed ["a.h5"; "b.h5"]%string))
                                 Toy.argv)))) /\
  StronglySorted N.le
    (map snd (rows (trace (snd (run (Toy.boot Toy.two_files true)
                                 (Toy.list_file (listed ["a.h5"; "b.h5"]%string))
                                 Toy.argv))))).
Proof.
  apply (accumulated_size_is_running_sum (Toy.boot Toy.two_files true)
           (Toy.list_file (listed ["a.h5"; "b.h5"]%string)) Toy.argv).
  - vm_compute. reflexivity.
  - vm_compute. repeat constructor.
  - vm_compute. reflexivity.
Defined.

(** ** The handles closed at the end (lines 146, 157, 160-163) *)

Lemma In_firstn {A} (x : A) n l : In x (firstn n l) -> In x l.
Proof.
  revert l. induction n as [|n IH]; intros [|y l]; cbn; try tauto.
  intros [-> | Hin]; auto.
Qed.

Lemma map_snd_combine {A B} (l : list A) (l' : list B) :
  List.length l' = List.length l -> map snd (combine l l') = l'.
Proof.
  revert l'. induction l as [|a l IH]; intros [|b l'] Hlen; cbn in *;
    try discriminate; [reflexivity|].
  now rewrite IH by lia.
Qed.

(** The opens and the closes of a run past the argument check: no file is
    closed unless the scan is through, and then the closes go by the map of
    handles built from the opens. *)
Lemma main_run_handles {L : Type} `{HDF5 L} files o t c :
  main_run files o t c ->
  (closes t = [] /\ o <> Ret 0%Z) \/
  exists hs,
    List.length hs = List.length files /\
    opens t = combine (map c_str files) hs /\
    (exists n, closes t = firstn n (map snd (assign_all (combine files hs) []))) /\
    (o = Ret 0%Z -> closes t = map snd (assign_all (combine files hs) [])).
Proof.
  destruct 1 as [fapl cfg name Hcfg
                | fapl cfg alloc scan st cl Hcfg Hsc Hcl
                | fapl cfg alloc scan st cl Hcfg Hsc Hcl
                | fapl cfg alloc done rest scan st tail why Hcfg Hfiles Hsc Hcut].
  - left. destruct (configured_opens_closes _ _ _ _ Hcfg) as [Ho Hc].
    split; [exact Hc | discriminate].
  - right. exists (map snd (opens scan)).
    destruct (configured_opens_closes _ _ _ _ Hcfg) as [Ho1 Hc1].
    destruct (closed_all_closes _ _ Hcl) as (Hc3 & Ho3 & _).
    destruct (scanned_opens _ _ _ _ _ Hsc) as [Hpaths Hids].
    pose proof (scanned_closes _ _ _ _ _ Hsc) as Hc2.
    cbn [init_locals file_ids] in Hids.
    fold (assign_all (combine files (map snd (opens scan))) []) in Hids.
    change (EvH5get_alloc_stats alloc :: EvRow alloc 0 :: scan ++ cl)
      with ([EvH5get_alloc_stats alloc; EvRow alloc 0] ++ scan ++ cl).
    rewrite !opens_app, !closes_app, Ho1, Hc1, Ho3, Hc2, Hc3, app_nil_r.
    cbn [app opens closes flat_map open_of close_of]. rewrite <- Hids.
    split; [rewrite length_map, <- (length_map fst), Hpaths, length_map; reflexivity|].
    split; [rewrite <- Hpaths; symmetry; apply combine_fst_snd|].
    split; [|reflexivity].
    exists (List.length (map snd (file_ids st))). symmetry. apply firstn_all.
  - right. exists (map snd (opens scan)).
    destruct (configured_opens_closes _ _ _ _ Hcfg) as [Ho1 Hc1].
    destruct (closed_until_failure_closes _ _ Hcl)
      as (pre & fid & r & _ & _ & _ & Ho3 & Hc3).
    destruct (scanned_opens _ _ _ _ _ Hsc) as [Hpaths Hids].
    pose proof (scanned_closes _ _ _ _ _ Hsc) as Hc2.
    cbn [init_locals file_ids] in Hids.
    fold (assign_all (combine files (map snd (opens scan))) []) in Hids.
    change (EvH5get_alloc_stats alloc :: EvRow alloc 0 :: scan ++ cl)
      with ([EvH5get_alloc_stats alloc; EvRow alloc 0] ++ scan ++ cl).
    rewrite !opens_app, !closes_app, Ho1, Hc1, Ho3, Hc2, Hc3, app_nil_r.
    cbn [app opens closes flat_map open_of close_of]. rewrite <- Hids.
    split; [rewrite length_map, <- (length_map fst), Hpaths, length_map; reflexivity|].
    split; [rewrite <- Hpaths; symmetry; apply combine_fst_snd|].
    split; [eauto | discriminate].
  - left. split; [|discriminate].
    destruct (configured_opens_closes _ _ _ _ Hcfg) as [_ Hc1].
    destruct (cut_short_quiet _ _ _ _ _ _ Hcut) as (_ & Hc3 & _).
    change (EvH5get_alloc_stats alloc :: EvRow alloc 0 :: scan ++ tail)
      with ([EvH5get_alloc_stats alloc; EvRow alloc 0] ++ scan ++ tail).
    now rewrite !closes_app, Hc1, (scanned_closes _ _ _ _ _ Hsc), Hc3.
Qed.

(** X11. A run never closes a file handle it did not get from [H5Fopen]:
    every handle passed to [H5Fclose] was returned by an open of the same
    run. *)
Theorem closed_handles_were_opened {L : Type} `{HDF5 L} (l : L) fs argv :
  incl (closes (trace (snd (run l fs argv))))
       (map snd (opens (trace (snd (run l fs argv))))).
Proof.
  destruct (Nat.eq_dec (List.length argv) 3) as [Hargc | Hargc].
  2:{ rewrite (main_usage l fs argv Hargc). intros fid []. }
  destruct (run l fs argv) as [o p] eqn:Hrun. cbn [snd].
  destruct (main_runs l fs argv o p Hargc Hrun) as (Hshape & _).
  destruct (main_run_handles _ _ _ _ Hshape)
    as [(-> & _) | (hs & Hlen & -> & [n ->] & _)]; [intros fid []|].
  intros fid Hin. apply In_firstn in Hin.
  apply in_map_iff in Hin as ([path h] & <- & Hin). cbn [snd].
  apply assign_all_pairs in Hin as [Hin | []].
  apply in_combine_r in Hin.
  rewrite map_snd_combine by (rewrite length_map; exact Hlen). exact Hin.
Qed.

(** X12. When a close is refused, it is the last call of the run and the
    process ends with status 1; the handles closed up to and including that
    one are the first handles of the map, in key order, and the handles that
    follow in the map are left open. *)
Theorem refused_close_ends_the_run {L : Type} `{HDF5 L} (l : L) fs argv fid r :
  In (EvH5Fclose fid r) (trace (snd (run l fs argv))) ->
  (r < 0)%Z ->
  fst (run l fs argv) = Exit 1 /\
  exists hs before n,
    opens (trace (snd (run l fs argv))) = combine (map c_str (input_files fs argv)) hs /\
    closes (trace (snd (run l fs argv))) = before ++ [fid] /\
    closes (trace (snd (run l fs argv))) =
      firstn n (map snd (assign_all (combine (input_files fs argv) hs) [])).
Proof.
  destruct (Nat.eq_dec (List.length argv) 3) as [Hargc | Hargc].
  2:{ rewrite (main_usage l fs argv Hargc). intros []. }
  destruct (run l fs argv) as [o p] eqn:Hrun. cbn [fst snd].
  destruct (main_runs l fs argv o p Hargc Hrun) as (Hshape & _).
  intros Hin Hr.
  assert (Hfail : checked_failure (EvH5Fclose fid r) = Some "H5Fclose"%string).
  { cbn. apply Z.ltb_lt in Hr. now rewrite Hr. }
  destruct (main_run_outcome _ _ _ _ Hshape)
    as [(_ & Hall & _)
       | [(-> & pre & e & name & Htr & Hpre & Hfail' & _) | (why & _ & Hall & _)]].
  1, 3: exfalso; eapply unchecked_not_failure; eassumption.
  split; [reflexivity|].
  assert (e = EvH5Fclose fid r) as ->.
  { rewrite Htr in Hin. apply in_app_or in Hin as [Hin | [Heq | []]]; [|now symmetry].
    exfalso. eapply unchecked_not_failure; eassumption. }
  destruct (main_run_handles _ _ _ _ Hshape)
    as [(Hnone & _) | (hs & _ & Hopens & [n Hcloses] & _)].
  { exfalso. rewrite Htr, closes_app in Hnone. cbn in Hnone.
    destruct (closes pre); discriminate. }
  exists hs, (closes pre), n. split; [exact Hopens|]. split; [|exact Hcloses].
  rewrite Htr, closes_app. reflexivity.
Qed.

(** The list names [missing.h5] only: the single close, of handle -1, is
    refused. *)
Lemma refused_close_ends_the_run_witness :
  fst (run (Toy.boot Toy.two_files true)
           (Toy.list_file (listed ["missing.h5"]%string)) Toy.argv) = Exit 1 /\
  exists hs before n,
    opens (trace (snd (run (Toy.boot Toy.two_files true)
                           (Toy.list_file (listed ["missing.h5"]%string)) Toy.argv))) =
      combine (map c_str
                 (input_files (Toy.list_file (listed ["missing.h5"]%string)) Toy.argv)) hs /\
    closes (trace (snd (run (Toy.boot Toy.two_files true)
                            (Toy.list_file (listed ["missing.h5"]%string)) Toy.argv))) =
      before ++ [(-1)%Z] /\
    closes (trace (snd (run (Toy.boot Toy.two_files true)
                            (Toy.list_file (listed ["missing.h5"]%string)) Toy.argv))) =
      firstn n (map snd (assign_all
                           (combine
                              (input_files (Toy.list_file (listed ["missing.h5"]%string))
                                           Toy.argv) hs) [])).
Proof.
  apply (refused_close_ends_the_run (Toy.boot Toy.two_files true)
           (Toy.list_file (listed ["missing.h5"]%string)) Toy.argv (-1)%Z (-1)%Z).
  - vm_compute. tauto.
  - reflexivity.
Defined.

(** X13. In a run that completes, as many handles are closed as there are
    distinct listed paths: never more than were opened, and as many exactly
    when no path is listed twice.  A path listed twice is opened twice and
    one of its two handles is left open. *)
Theorem closes_count_distinct_paths {L : Type} `{HDF5 L} (l : L) fs argv :
  fst (run l fs argv) = Ret 0%Z ->
  List.length (opens (trace (snd (run l fs argv)))) = List.length (input_files fs argv) /\
  List.length (closes (trace (snd (run l fs argv)))) =
    List.length (nodup string_dec (input_files fs argv)) /\
  (List.length (closes (trace (snd (run l fs argv)))) =
   List.length (opens (trace (snd (run l fs argv)))) <-> NoDup (input_files fs argv)).
Proof.
  destruct (Nat.eq_dec (List.length argv) 3) as [Hargc | Hargc].
  2:{ rewrite (main_usage l fs argv Hargc). discriminate. }
  destruct (run l fs argv) as [o p] eqn:Hrun. cbn [fst snd].
  destruct (main_runs l fs argv o p Hargc Hrun) as (Hshape & _).
  intros ->.
  destruct (main_run_handles _ _ _ _ Hshape)
    as [(_ & Hno) | (hs & Hlen & -> & _ & Hcl)]; [now elim Hno|].
  rewrite (Hcl eq_refl). set (files := input_files fs argv) in *.
  set (kept := assign_all (combine files hs) []).
  assert (Hnd : NoDup (keys kept)).
  { apply sorted_keys_NoDup, assign_all_sorted. constructor. }
  assert (Hkeys : forall path, In path (keys kept) <-> In path files).
  { intros path. unfold kept. rewrite assign_all_keys, map_fst_combine by exact Hlen.
    cbn. tauto. }
  assert (Hcount : List.length (keys kept) = List.length (nodup string_dec files)).
  { apply Nat.le_antisymm; apply NoDup_incl_length;
      try exact Hnd; try apply NoDup_nodup;
      intros path Hin; [apply nodup_In, Hkeys | apply Hkeys, (nodup_In string_dec)];
      exact Hin. }
  rewrite length_combine, !length_map, Hlen, Nat.min_id.
  unfold keys in Hcount. rewrite length_map in Hcount.
  split; [reflexivity|]. split; [exact Hcount|].
  rewrite Hcount. split.
  - intros Heq. eapply NoDup_incl_NoDup; [apply (NoDup_nodup string_dec files) | |].
    + rewrite Heq. apply Nat.le_refl.
    + intros path Hin. apply nodup_In in Hin. exact Hin.
  - intros Hfiles. now rewrite nodup_fixed_point.
Qed.

(** [a.h5] listed twice: two opens, one close. *)
Lemma closes_count_distinct_paths_witness :
  List.length (opens (trace (snd (run (Toy.boot Toy.two_files true)
                (Toy.list_file (listed ["a.h5"; "a.h5"]%string)) Toy.argv)))) = 2%nat /\
  List.length (closes (trace (snd (run (Toy.boot Toy.two_files true)
                (Toy.list_file (listed ["a.h5"; "a.h5"]%string)) Toy.argv)))) = 1%nat.
Proof.
  destruct (@closes_count_distinct_paths _ Toy.toy_hdf5 (Toy.boot Toy.two_files true)
              (Toy.list_file (listed ["a.h5"; "a.h5"]%string)) Toy.argv eq_refl)
    as (Hopens & Hcloses & _).
  split; [exact Hopens | exact Hcloses].
Defined.

(** ** The visit of the objects of a file (lines 68-87, 152) *)

Lemma dopen_targets_app t1 t2 :
  dopen_targets (t1 ++ t2) = dopen_targets t1 ++ dopen_targets t2.
Proof. apply flat_map_app. Qed.

Section Datasets.

Context {L : Type} `{HDF5 L}.

Lemma op_func_opens obj name info od (p : process L) :
  exists o p',
    op_func obj name info od p = (o, p') /\
    ((o = Ret (0%Z, od) /\
      dopen_targets (trace p') =
        dopen_targets (trace p) ++
        (if H5O_type_eqb (type info) H5O_TYPE_DATASET then [(obj, name)] else [])) \/
     (o = Lost array_overrun /\ forallb fits_dset_dims (trace p') = false)).
Proof.
  unfold op_func.
  destruct (H5O_type_eqb (type info) H5O_TYPE_DATASET).
  - unfold_calls. rewrite ?bind_assoc. step_call.
    rewrite ?bind_assoc. step_call.
    rewrite ?bind_assoc. unfold read_lib at 1. unfold bind at 1. tidy.
    rewrite ?bind_assoc. step_call. destruct r1 as [ndims dims]. tidy.
    destruct (2 <? List.length dims)%nat eqn:Hrank.
    { eexists _, _. split; [reflexivity|]. right. split; [reflexivity|]. tidy.
      rewrite !forallb_app. cbn [forallb fits_dset_dims].
      apply Nat.ltb_lt in Hrank. apply Nat.leb_gt in Hrank.
      now rewrite Hrank, !andb_false_r. }
    rewrite ?bind_assoc. step_call.
    destruct (nth 0 dims (indeterminate_hsize l0) <=? 0)%N.
    + rewrite ?bind_assoc. step_call. rewrite ?bind_ret. unfold ret.
      eexists _, _. split; [reflexivity|]. left. split; [reflexivity|]. tidy.
      rewrite !dopen_targets_app. cbn. now rewrite !app_nil_r.
    + rewrite ?bind_ret. unfold ret.
      eexists _, _. split; [reflexivity|]. left. split; [reflexivity|]. tidy.
      rewrite !dopen_targets_app. cbn. now rewrite !app_nil_r.
  - rewrite ?bind_ret. unfold ret. exists (Ret (0%Z, od)), p.
    split; [reflexivity|]. left. split; [reflexivity|]. now rewrite app_nil_r.
Qed.

Lemma visit_each_opens objs od (p : process L) :
  exists o p',
    visit_each op_func objs od p = (o, p') /\
    ((o = Ret (0%Z, od) /\
      dopen_targets (trace p') =
        dopen_targets (trace p) ++
        map (fun o => (v_obj o, v_name o)) (filter is_dataset objs)) \/
     (o = Lost array_overrun /\ forallb fits_dset_dims (trace p') = false)).
Proof.
  revert p. induction objs as [|o rest IH]; intros p.
  - exists (Ret (0%Z, od)), p. split; [reflexivity|]. left.
    split; [reflexivity|]. cbn. now rewrite app_nil_r.
  - cbn [visit_each].
    destruct (op_func_opens (v_obj o) (v_name o) (v_info o) od p)
      as (o1 & p1 & Hop & [(-> & Ht1) | (-> & Hno)]).
    + rewrite (bind_Ret _ _ _ _ _ Hop). cbn [Z.eqb].
      destruct (IH p1) as (o2 & p2 & Hrest & [(-> & Ht2) | (-> & Hno)]).
      * eexists _, p2. split; [exact Hrest|]. left. split; [reflexivity|].
        rewrite Ht2, Ht1, <- app_assoc.
        cbn [filter]. unfold is_dataset at 2.
        destruct (H5O_type_eqb (type (v_info o)) H5O_TYPE_DATASET); reflexivity.
      * eexists _, p2. split; [exact Hrest|]. right. split; [reflexivity | exact Hno].
    + rewrite (bind_Lost _ _ _ _ _ Hop).
      eexists _, p1. split; [reflexivity|]. right. split; [reflexivity | exact Hno].
Qed.

End Datasets.

(** X14. As long as no extent query is answered with more than two sizes
    (what the array [dset_dims] of the callback holds), a visit with
    [op_func] never stops early: it returns the status the library gives the
    traversal, and it opens every object the library hands over that is a
    dataset, by its location and name and in the order of the traversal;
    objects of another type cause no open. *)
Theorem visit_opens_every_dataset
        {L : Type} `{HDF5 L} file idx ord od (p : process L) :
  forallb fits_dset_dims (trace (snd (H5Ovisit file idx ord op_func od p))) = true ->
  fst (H5Ovisit file idx ord op_func od p) =
    Ret (fst (fst (lib_H5Ovisit file idx ord (lib p))), od) /\
  dopen_targets (trace (snd (H5Ovisit file idx ord op_func od p))) =
    dopen_targets (trace p) ++
    map (fun o => (v_obj o, v_name o))
        (filter is_dataset (snd (fst (lib_H5Ovisit file idx ord (lib p))))).
Proof.
  unfold H5Ovisit. step_call. destruct r as [st objs]. cbn [fst snd].
  destruct (visit_each_opens objs od (after_call p l (EvH5Ovisit file st objs)))
    as (o & p' & Hv & [(-> & Ht) | (-> & Hno)]).
  - rewrite (bind_Ret _ _ _ _ _ Hv). cbn [Z.eqb]. unfold ret. cbn [fst snd].
    intros _. split; [reflexivity|]. rewrite Ht. tidy.
    rewrite dopen_targets_app. cbn. now rewrite app_nil_r.
  - rewrite (bind_Lost _ _ _ _ _ Hv). cbn [fst snd]. rewrite Hno. discriminate.
Qed.

(** The visit of [a.h5], whose two datasets have two dimensions. *)
Lemma visit_opens_every_dataset_witness :
  fst (H5Ovisit 100 H5_INDEX_NAME H5_ITER_NATIVE op_func (mk_op_data [])
         (start (snd (lib_H5Fopen "a.h5" 0 0 (Toy.boot Toy.two_files true))))) =
    Ret (0%Z, mk_op_data []) /\
  dopen_targets
    (trace (snd (H5Ovisit 100 H5_INDEX_NAME H5_ITER_NATIVE op_func (mk_op_data [])
                   (start (snd (lib_H5Fopen "a.h5" 0 0 (Toy.boot Toy.two_files true))))))) =
    [(100%Z, "empty"%string); (100%Z, "rows"%string)].
Proof.
  destruct (@visit_opens_every_dataset _ Toy.toy_hdf5 100 H5_INDEX_NAME H5_ITER_NATIVE
              (mk_op_data [])
              (start (snd (@lib_H5Fopen _ Toy.toy_hdf5 "a.h5" 0 0
                             (Toy.boot Toy.two_files true)))))
    as [Hret Hopens].
  - vm_compute. reflexivity.
  - split; [exact Hret | exact Hopens].
Defined.

(** X15. When the visited object is a dataset of at most two dimensions
    (what the array [dset_dims] of the callback holds) and the library
    reports a first dimension that is not zero, the visit opens the dataset,
    asks for its dataspace and its extent and closes the dataspace, and that
    is all: the dataset handle is not closed. *)
Theorem nonempty_dataset_is_left_open
        {L : Type} `{HDF5 L} obj name info od (p : process L)
        dset l1 space l2 ndims d rest l3 :
  type info = H5O_TYPE_DATASET ->
  lib_H5Dopen obj name H5P_DEFAULT (lib p) = (dset, l1) ->
  lib_H5Dget_space dset l1 = (space, l2) ->
  lib_H5Sget_simple_extent_dims space l2 = ((ndims, d :: rest), l3) ->
  (List.length rest <= 1)%nat ->
  d <> 0%N ->
  exists e1 p',
    op_func obj name info od p = (Ret (0%Z, od), p') /\
    trace p' = trace p ++
      [EvH5Dopen obj name H5P_DEFAULT dset;
       EvH5Dget_space dset space;
       EvH5Sget_simple_extent_dims space ndims (d :: rest);
       EvH5Sclose space e1] /\
    dclose_targets (trace p') = dclose_targets (trace p).
Proof.
  intros Hty Hopen Hspace Hdims Hrank Hd.
  unfold op_func. rewrite Hty. cbn [H5O_type_eqb]. unfold_calls.
  rewrite ?bind_assoc. step_known Hopen.
  rewrite ?bind_assoc. step_known Hspace.
  rewrite ?bind_assoc. unfold read_lib at 1. unfold bind at 1. tidy.
  rewrite ?bind_assoc. step_known Hdims. within_rank.
  rewrite ?bind_assoc. step_call. cbn [nth].
  destruct (d <=? 0)%N eqn:Hle; [apply N.leb_le in Hle; lia|].
  rewrite ?bind_ret. unfold ret.
  eexists _, _. split; [reflexivity|]. tidy.
  rewrite <- !app_assoc. split; [reflexivity|].
  unfold dclose_targets. rewrite flat_map_app. cbn. now rewrite app_nil_r.
Qed.

(** The dataset [rows] of [a.h5], of dimensions 5 x 3. *)
Lemma nonempty_dataset_is_left_open_witness :
  exists e1 p',
    op_func 100 "rows" (mk_info H5O_TYPE_DATASET) (mk_op_data [])
            (start (snd (lib_H5Fopen "a.h5" 0 0 (Toy.boot Toy.two_files true)))) =
      (Ret (0%Z, mk_op_data []), p') /\
    trace p' =
      [EvH5Dopen 100 "rows" H5P_DEFAULT 101;
       EvH5Dget_space 101 102;
       EvH5Sget_simple_extent_dims 102 2 [5%N; 3%N];
       EvH5Sclose 102 e1] /\
    dclose_targets (trace p') = [].
Proof.
  refine (@nonempty_dataset_is_left_open _ Toy.toy_hdf5
            100 "rows" (mk_info H5O_TYPE_DATASET) (mk_op_data [])
            (start (snd (lib_H5Fopen "a.h5" 0 0 (Toy.boot Toy.two_files true))))
            101 _ 102 _ 2 5%N [3%N] _ eq_refl eq_refl eq_refl eq_refl (le_n 1) _).
  discriminate.
Defined.

(** ** Creating the property list (lines 117-140) *)

(** X16. When [H5Pcreate] fails, only the collective-metadata branch
    notices: there the process ends at once with status 1 and the line
    naming [H5Pcreate].  The in-memory branch, the one [main] takes, does
    not test the handle and hands the negative handle on to
    [H5Pset_fapl_core]. *)
Theorem failed_create_is_tested_in_one_branch
        {L : Type} `{HDF5 L} (p : process L) fapl l1 :
  lib_H5Pcreate H5P_FILE_ACCESS (lib p) = (fapl, l1) ->
  (fapl < 0)%Z ->
  (forall in_memory_io chunk_caching requested,
      configure false in_memory_io chunk_caching requested p =
      (Exit 1,
       mk_process l1 (trace p ++ [EvH5Pcreate H5P_FILE_ACCESS fapl])
                  (cout p ++ diag (Some "H5Pcreate"%string))%string
                  (cerr p) (outfile p))) /\
  (forall chunk_caching requested,
      exists e rest,
        trace (snd (configure true true chunk_caching requested p)) =
        trace p ++
        EvH5Pcreate H5P_FILE_ACCESS fapl :: EvH5Pset_fapl_core fapl 0 false e :: rest).
Proof.
  intros Hcreate Hneg. split.
  - intros in_memory_io chunk_caching requested. unfold configure. unfold_calls.
    step_known Hcreate. apply Z.ltb_lt in Hneg. rewrite Hneg.
    now rewrite run_HANDLE_ERROR.
  - intros chunk_caching requested. unfold configure. unfold_calls.
    step_known Hcreate. step_call. rename r into e.
    exists e.
    match goal with
    | |- context [snd (?m ?q)] =>
        assert (Hext : exists rest, trace (snd (m q)) = trace q ++ rest)
    end.
    { destruct (e <? 0)%Z; [rewrite run_HANDLE_ERROR; exists []; cbn; now rewrite app_nil_r|].
      destruct chunk_caching.
      - unfold set_rawdata_cache. unfold_calls. rewrite ?bind_assoc. step_call.
        destruct r as [e1 got]. tidy.
        destruct (e1 <? 0)%Z.
        + rewrite ?bind_assoc, (bind_Exit _ _ _ _ _ (run_HANDLE_ERROR _ _)).
          cbn. eauto.
        + rewrite ?bind_assoc. step_call.
          destruct (r <? 0)%Z.
          * rewrite ?bind_assoc, (bind_Exit _ _ _ _ _ (run_HANDLE_ERROR _ _)).
            cbn. rewrite <- app_assoc. eauto.
          * rewrite ?bind_assoc, ?bind_ret. cbn [Z.ltb Z.compare].
            rewrite ?bind_ret. unfold ret. cbn. rewrite <- app_assoc. eauto.
      - rewrite ?bind_ret. unfold ret. exists []. cbn. now rewrite app_nil_r. }
    destruct Hext as [rest Hext]. exists rest. rewrite Hext. tidy.
    rewrite <- !app_assoc. reflexivity.
Qed.

Lemma failed_create_is_tested_in_one_branch_witness :
  (forall in_memory_io chunk_caching requested,
      configure false in_memory_io chunk_caching requested (start tt) =
      (Exit 1,
       mk_process tt [EvH5Pcreate 7 (-1)] (diag (Some "H5Pcreate"%string))
                  ""%string (mk_ofstream false ""))) /\
  (forall chunk_caching requested,
      exists e rest,
        trace (snd (configure true true chunk_caching requested (start tt))) =
        EvH5Pcreate 7 (-1) :: EvH5Pset_fapl_core (-1) 0 false e :: rest).
Proof.
  exact (@failed_create_is_tested_in_one_branch _ Refusing.refusing_hdf5
           (start tt) (-1)%Z tt eq_refl eq_refl).
Defined.

(** ** Reading the output file back (lines 18-29) *)

Lemma digits_have_no c s :
  is_digit c = false -> all_chars is_digit s = true -> has_no c s = true.
Proof.
  intros Hc. induction s as [|x s IH]; cbn; [reflexivity|].
  intros Hs. apply andb_true_iff in Hs as [Hx Hs]. apply andb_true_iff. split.
  - apply negb_true_iff.
    destruct (Ascii.eqb_spec x c) as [-> | Hne]; [congruence | reflexivity].
  - exact (IH Hs).
Qed.

Lemma has_no_app c s1 s2 :
  has_no c (s1 ++ s2)%string = has_no c s1 && has_no c s2.
Proof. apply all_chars_app. Qed.

Lemma dec_has_no c n : is_digit c = false -> has_no c (dec n) = true.
Proof. intros Hc. apply digits_have_no; [exact Hc | apply dec_digits]. Qed.

Lemma fields_field f : forall field rest,
  has_no "," f = true ->
  fields field (f ++ String "," rest)%string = (field ++ f)%string :: fields "" rest.
Proof.
  induction f as [|c f IH]; intros field rest Hno.
  - cbn. now rewrite append_nil_r.
  - cbn in Hno. apply andb_true_iff in Hno as [Hc Hf].
    apply negb_true_iff in Hc. cbn [append fields]. rewrite Hc.
    rewrite IH by exact Hf. now rewrite append_assoc.
Qed.

Lemma fields_last f : forall field,
  has_no "," f = true -> fields field f = [(field ++ f)%string].
Proof.
  induction f as [|c f IH]; intros field Hno.
  - cbn. now rewrite append_nil_r.
  - cbn in Hno. apply andb_true_iff in Hno as [Hc Hf].
    apply negb_true_iff in Hc. cbn [fields]. rewrite Hc.
    rewrite IH by exact Hf. now rewrite append_assoc.
Qed.

Lemma parse_row_row_text r : parse_row (row_text r) = Some r.
Proof.
  destruct r as [[total curr peak] acc]. unfold parse_row, row_text. cbn [fst snd
    total_alloc_bytes curr_alloc_bytes peak_alloc_bytes].
  cbn [append].
  rewrite !fields_field, fields_last by (apply dec_has_no; reflexivity).
  cbn [map append]. now rewrite !read_dec_dec.
Qed.

Lemma row_line_row_text r : row_line r = (row_text r ++ nl)%string.
Proof. unfold row_line, row_text. now rewrite !append_assoc. Qed.

Lemma row_text_no_line_feed r : has_no "010" (row_text r) = true.
Proof.
  unfold row_text. rewrite !has_no_app.
  rewrite !dec_has_no by reflexivity. reflexivity.
Qed.

Lemma getlines_csv_rows rs : getlines "" (csv_rows rs) = map row_text rs.
Proof.
  induction rs as [|r rs IH]; [reflexivity|].
  cbn [csv_rows fold_right map]. fold (csv_rows rs).
  rewrite row_line_row_text, append_assoc.
  rewrite getlines_line by apply row_text_no_line_feed.
  cbn [append]. now rewrite IH.
Qed.

Lemma parse_rows_row_texts rs : parse_rows (map row_text rs) = Some rs.
Proof.
  induction rs as [|r rs IH]; [reflexivity|].
  cbn [map parse_rows]. now rewrite parse_row_row_text, IH.
Qed.

Lemma parse_csv_written rs : parse_csv (header_line ++ csv_rows rs) = Some rs.
Proof.
  unfold parse_csv, header_line. rewrite append_assoc.
  rewrite getlines_line by reflexivity.
  rewrite getlines_csv_rows. cbn [append]. rewrite String.eqb_refl.
  apply parse_rows_row_texts.
Qed.

(** X17. What a run inserts in the output file reads back: read line by
    line, the first line is the header and every further line splits at its
    commas into four decimal numbers, which are, row by row, the allocator
    statistics and the accumulated size handed to [report].  When the file
    could not be opened nothing is inserted. *)
Theorem outfile_reads_back {L : Type} `{HDF5 L} (l : L) fs argv :
  if is_open (outfile (snd (run l fs argv)))
  then parse_csv (written (outfile (snd (run l fs argv)))) =
       Some (rows (trace (snd (run l fs argv))))
  else written (outfile (snd (run l fs argv))) = ""%string.
Proof.
  destruct (Nat.eq_dec (List.length argv) 3) as [Hargc | Hargc].
  2:{ now rewrite (main_usage l fs argv Hargc). }
  destruct (run l fs argv) as [o p] eqn:Hrun. cbn [snd].
  destruct (main_runs l fs argv o p Hargc Hrun) as (_ & _ & ->).
  unfold opened_outfile, header.
  destruct (open_write fs (nth 2 argv ""%string)) eqn:Hw.
  - rewrite fold_report_row_open by (rewrite !put_open; reflexivity).
    cbn [is_open written]. rewrite !put_open by reflexivity. cbn [written append].
    apply parse_csv_written.
  - rewrite fold_report_row_closed by (rewrite !put_closed; reflexivity).
    rewrite !put_closed by reflexivity. reflexivity.
Qed.

(** ** The output file is only written to (lines 18-29, 97-99) *)

Section WriteOnly.

Context {L : Type} `{HDF5 L}.

Lemma related_out_ret {A} (a : A) : related_out (@ret L A a) (ret a).
Proof. intros p1 p2 Hp. cbn. auto. Qed.

Lemma related_out_bind {A B} (m1 m2 : M L A) (k1 k2 : A -> M L B) :
  related_out m1 m2 ->
  (forall a, related_out (k1 a) (k2 a)) ->
  related_out (bind m1 k1) (bind m2 k2).
Proof.
  intros Hm Hk p1 p2 Hp. destruct (Hm p1 p2 Hp) as [Ho Hq]. unfold bind.
  destruct (m1 p1) as [[a1|s1|w1] q1], (m2 p2) as [[a2|s2|w2] q2]; cbn in Ho, Hq;
    try discriminate.
  - injection Ho as <-. exact (Hk a1 q1 q2 Hq).
  - injection Ho as <-. cbn. auto.
  - injection Ho as <-. cbn. auto.
Qed.

Lemma related_out_call {R} (f : L -> R * L) ev : related_out (call f ev) (call f ev).
Proof.
  intros p1 p2 (Hl & Ht & Hco & Hce). unfold call. rewrite Hl.
  destruct (f (lib p2)) as [r l']. cbn. repeat split; cbn; congruence.
Qed.

Lemma related_out_read_lib {R} (f : L -> R) : related_out (read_lib f) (read_lib f).
Proof.
  intros p1 p2 Hp. unfold read_lib. cbn. split; [|exact Hp].
  destruct Hp as (Hl & _). now rewrite Hl.
Qed.

Lemma related_out_print_cout s : related_out (@print_cout L s) (print_cout s).
Proof.
  intros p1 p2 (Hl & Ht & Hco & Hce). unfold print_cout. cbn. repeat split; cbn; congruence.
Qed.

Lemma related_out_log e : related_out (@log L e) (log e).
Proof.
  intros p1 p2 (Hl & Ht & Hco & Hce). unfold log. cbn. repeat split; cbn; congruence.
Qed.

(** Whatever is done to the output file on either side. *)
Lemma related_out_on_outfile f1 f2 : related_out (@on_outfile L f1) (on_outfile f2).
Proof.
  intros p1 p2 (Hl & Ht & Hco & Hce). unfold on_outfile. cbn. repeat split; cbn; congruence.
Qed.

Lemma related_out_exit {A} s : related_out (@exit L A s) (exit s).
Proof. intros p1 p2 Hp. unfold exit. cbn. auto. Qed.

Lemma related_out_lost {A} w : related_out (@lost L A w) (lost w).
Proof. intros p1 p2 Hp. unfold lost. cbn. auto. Qed.

End WriteOnly.

Ltac relate_out :=
  repeat first
    [ apply related_out_call
    | apply related_out_read_lib
    | apply related_out_print_cout
    | apply related_out_log
    | apply related_out_on_outfile
    | apply related_out_exit
    | apply related_out_lost
    | apply related_out_ret
    | apply related_out_bind; [ | intros ? ]
    | match goal with
      | |- related_out (if ?b then _ else _) (if ?b then _ else _) => destruct b
      | |- related_out (match ?x with (_, _) => _ end) (match ?x with (_, _) => _ end) =>
          destruct x
      end ].

Section WriteOnlyRuns.

Context {L : Type} `{HDF5 L}.

Lemma related_out_visit_each objs (od : op_data_t) :
  related_out (visit_each op_func objs od) (visit_each op_func objs od).
Proof.
  revert od. induction objs as [|o rest IH]; intros od; cbn [visit_each].
  - relate_out.
  - apply related_out_bind.
    + unfold op_func. unfold_calls. relate_out.
    + intros [r od']. destruct (r =? 0)%Z; [apply IH | relate_out].
Qed.

Lemma related_out_scan_files i files fapl st :
  related_out (scan_files i files fapl st) (scan_files i files fapl st).
Proof.
  revert i st. induction files as [|path rest IH]; intros i st; cbn [scan_files].
  - relate_out.
  - unfold_calls. unfold emit, H5Ovisit.
    apply related_out_bind; [relate_out|]. intros file_id.
    apply related_out_bind; [relate_out|]. intros [e size_out].
    apply related_out_bind.
    { apply related_out_bind; [relate_out|]. intros [st0 objs].
      apply related_out_bind; [apply related_out_visit_each|]. intros [r od'].
      relate_out. }
    intros [e1 od1].
    apply related_out_bind; [relate_out|]. intros curr_alloc.
    apply related_out_bind; [relate_out|]. intros _. cbn zeta.
    destruct (wrap32 (i + 1) =? 0)%N; [relate_out | apply IH].
Qed.

Lemma related_out_close_files ids :
  related_out (close_files ids) (close_files ids).
Proof.
  induction ids as [|[k fid] rest IH]; cbn [close_files].
  - relate_out.
  - unfold_calls. unfold _HANDLE_ERROR.
    apply related_out_bind; [relate_out|]. intros err.
    destruct (err <? 0)%Z; [relate_out | apply IH].
Qed.

Lemma related_out_main fs fs' argv :
  input_files fs argv = input_files fs' argv ->
  related_out (main fs argv) (main fs' argv).
Proof.
  intros Hfiles. unfold main. destruct (negb (List.length argv =? 3)%nat); [relate_out|].
  cbn zeta. fold (input_files fs argv). fold (input_files fs' argv). rewrite Hfiles.
  unfold_calls. unfold emit.
  apply related_out_bind; [relate_out|]. intros _.
  apply related_out_bind; [relate_out|]. intros _.
  apply related_out_bind.
  { unfold configure, set_rawdata_cache. unfold_calls. unfold _HANDLE_ERROR. relate_out. }
  intros fapl_id.
  apply related_out_bind; [relate_out|]. intros curr_alloc.
  apply related_out_bind; [relate_out|]. intros _.
  apply related_out_bind; [apply related_out_scan_files|]. intros st.
  apply related_out_bind; [apply related_out_close_files|]. intros _.
  relate_out.
Qed.

End WriteOnlyRuns.

(** X18. A run reads the file system only for the lines of the list file
    and never reads the output file back: two runs that read the same lines
    make the same calls, leave the library in the same state, print the same
    and end with the same status, whether or not the output file could be
    opened.  A list file that cannot be opened counts as an empty one. *)
Theorem run_ignores_the_output_file {L : Type} `{HDF5 L} (l : L) fs fs' argv :
  input_files fs argv = input_files fs' argv ->
  fst (run l fs argv) = fst (run l fs' argv) /\
  lib (snd (run l fs argv)) = lib (snd (run l fs' argv)) /\
  trace (snd (run l fs argv)) = trace (snd (run l fs' argv)) /\
  cout (snd (run l fs argv)) = cout (snd (run l fs' argv)) /\
  cerr (snd (run l fs argv)) = cerr (snd (run l fs' argv)).
Proof.
  intros Hfiles. unfold run.
  apply (related_out_main fs fs' argv Hfiles (start l) (start l)).
  repeat split.
Qed.

(** An empty list file with an output file that opens, against a list file
    that cannot be opened with an output file that cannot be opened
    either. *)
Lemma run_ignores_the_output_file_witness :
  fst (run (Toy.boot Toy.two_files true) (Toy.list_file ""%string) Toy.argv) =
  fst (run (Toy.boot Toy.two_files true) (mk_fs (fun _ => None) (fun _ => false)) Toy.argv) /\
  trace (snd (run (Toy.boot Toy.two_files true) (Toy.list_file ""%string) Toy.argv)) =
  trace (snd (run (Toy.boot Toy.two_files true) (mk_fs (fun _ => None) (fun _ => false))
                  Toy.argv)).
Proof.
  destruct (@run_ignores_the_output_file _ Toy.toy_hdf5 (Toy.boot Toy.two_files true)
              (Toy.list_file ""%string) (mk_fs (fun _ => None) (fun _ => false))
              Toy.argv eq_refl)
    as (Hstatus & _ & Htrace & _).
  split; [exact Hstatus | exact Htrace].
Defined.

(** ** Dataspace and dataset handles (lines 74-85) *)

Lemma handles_in_order_other t e :
  other_handle_event e = true -> handles_in_order t -> handles_in_order (t ++ [e]).
Proof.
  unfold handles_in_order, space_gets, space_closes, dclose_targets, dopen_returns.
  intros He [Hs Hd]. rewrite !flat_map_app.
  destruct e; try discriminate; cbn; rewrite !app_nil_r; auto.
Qed.

(** The calls [op_func] makes for a dataset, whether it closes it or not. *)
Lemma handles_in_order_dataset t obj name dapl d s n dims e1 tail :
  tail = [] \/ (exists e2, tail = [EvH5Dclose d e2]) ->
  handles_in_order t ->
  handles_in_order
    (t ++ EvH5Dopen obj name dapl d :: EvH5Dget_space d s ::
          EvH5Sget_simple_extent_dims s n dims :: EvH5Sclose s e1 :: tail).
Proof.
  unfold handles_in_order, space_gets, space_closes, dclose_targets, dopen_returns.
  intros Htail [Hs Hd]. rewrite !flat_map_app. cbn [flat_map app].
  destruct Htail as [-> | [e2 ->]]; cbn [flat_map app].
  - rewrite Hs. split; [reflexivity|]. rewrite app_nil_r.
    apply incl_appl. exact Hd.
  - rewrite Hs. split; [reflexivity|].
    apply incl_app; [apply incl_appl; exact Hd | apply incl_appr; apply incl_refl].
Qed.

Lemma handles_in_order_within_other t e :
  other_handle_event e = true ->
  handles_in_order_within t -> handles_in_order_within (t ++ [e]).
Proof.
  intros He Ht Hfit. rewrite forallb_app in Hfit. apply andb_true_iff in Hfit as [Hfit _].
  apply handles_in_order_other; auto.
Qed.

Section Maintained.

Context {L : Type} `{HDF5 L}.

Variable I : list event -> Prop.

Lemma maintains_ret {A} (a : A) : maintains I (@ret L A a).
Proof. intros p Hp. exact Hp. Qed.

Lemma maintains_exit {A} s : maintains I (@exit L A s).
Proof. intros p Hp. exact Hp. Qed.

Lemma maintains_lost {A} w : maintains I (@lost L A w).
Proof. intros p Hp. exact Hp. Qed.

Lemma maintains_print_cout s : maintains I (@print_cout L s).
Proof. intros p Hp. exact Hp. Qed.

Lemma maintains_on_outfile f : maintains I (@on_outfile L f).
Proof. intros p Hp. exact Hp. Qed.

Lemma maintains_read_lib {R} (f : L -> R) : maintains I (read_lib f).
Proof. intros p Hp. exact Hp. Qed.

Lemma maintains_bind {A B} (m : M L A) (k : A -> M L B) :
  maintains I m -> (forall a, maintains I (k a)) -> maintains I (bind m k).
Proof.
  intros Hm Hk p Hp. specialize (Hm p Hp). unfold bind.
  destruct (m p) as [[a|s|w] p1]; cbn [snd] in *; [apply Hk; exact Hm | exact Hm | exact Hm].
Qed.

Lemma maintains_call {R} (f : L -> R * L) ev :
  (forall t r, I t -> I (t ++ [ev r])) -> maintains I (call f ev).
Proof.
  intros Hev p Hp. unfold call. destruct (f (lib p)) as [r l']. cbn. auto.
Qed.

Lemma maintains_log e : (forall t, I t -> I (t ++ [e])) -> maintains I (@log L e).
Proof. intros He p Hp. cbn. auto. Qed.

End Maintained.

Ltac keep_other :=
  intros; apply handles_in_order_within_other; [reflexivity | assumption].

Ltac maintain :=
  repeat first
    [ apply maintains_ret
    | apply maintains_exit
    | apply maintains_lost
    | apply maintains_print_cout
    | apply maintains_on_outfile
    | apply maintains_read_lib
    | apply maintains_call; keep_other
    | apply maintains_log; keep_other
    | apply maintains_bind; [ | intros ? ]
    | match goal with
      | |- maintains _ (if ?b then _ else _) => destruct b
      | |- maintains _ (match ?x with (_, _) => _ end) => destruct x
      end ].

Section HandlesInOrder.

Context {L : Type} `{HDF5 L}.

Lemma op_func_handles obj name info od :
  maintains handles_in_order_within (op_func obj name info od).
Proof.
  intros p Hp. unfold op_func.
  destruct (H5O_type_eqb (type info) H5O_TYPE_DATASET).
  - unfold_calls. rewrite ?bind_assoc. step_call.
    rewrite ?bind_assoc. step_call.
    rewrite ?bind_assoc. unfold read_lib at 1. unfold bind at 1. tidy.
    rewrite ?bind_assoc. step_call. destruct r1 as [ndims dims]. tidy.
    destruct (2 <? List.length dims)%nat eqn:Hrank.
    { rewrite ?bind_assoc, bind_lost. tidy. intros Hfit. exfalso.
      rewrite !forallb_app in Hfit. cbn [forallb fits_dset_dims] in Hfit.
      apply Nat.ltb_lt in Hrank. apply Nat.leb_gt in Hrank.
      rewrite Hrank, !andb_false_r in Hfit. discriminate. }
    rewrite ?bind_assoc. step_call.
    destruct (nth 0 dims (indeterminate_hsize l0) <=? 0)%N.
    + rewrite ?bind_assoc. step_call. rewrite ?bind_ret. unfold ret. tidy.
      rewrite <- !app_assoc. cbn [app]. intros Hfit.
      rewrite forallb_app in Hfit. apply andb_true_iff in Hfit as [Hfit _].
      apply handles_in_order_dataset; [right; eauto | exact (Hp Hfit)].
    + rewrite ?bind_ret. unfold ret. tidy.
      rewrite <- !app_assoc. cbn [app]. intros Hfit.
      rewrite forallb_app in Hfit. apply andb_true_iff in Hfit as [Hfit _].
      apply handles_in_order_dataset; [now left | exact (Hp Hfit)].
  - rewrite ?bind_ret. exact Hp.
Qed.

Lemma visit_each_handles objs (od : op_data_t) :
  maintains handles_in_order_within (visit_each op_func objs od).
Proof.
  revert od. induction objs as [|o rest IH]; intros od; cbn [visit_each].
  - maintain.
  - apply maintains_bind; [apply op_func_handles|].
    intros [r od']. destruct (r =? 0)%Z; [apply IH | maintain].
Qed.

Lemma scan_files_handles i files fapl st :
  maintains handles_in_order_within (scan_files i files fapl st).
Proof.
  revert i st. induction files as [|path rest IH]; intros i st; cbn [scan_files].
  - maintain.
  - unfold_calls. unfold emit, H5Ovisit.
    apply maintains_bind; [maintain|]. intros file_id.
    apply maintains_bind; [maintain|]. intros [e size_out].
    apply maintains_bind.
    { apply maintains_bind; [maintain|]. intros [st0 objs].
      apply maintains_bind; [apply visit_each_handles|]. intros [r od']. maintain. }
    intros [e1 od1].
    apply maintains_bind; [maintain|]. intros curr_alloc.
    apply maintains_bind; [maintain|]. intros _. cbn zeta.
    destruct (wrap32 (i + 1) =? 0)%N; [maintain | apply IH].
Qed.

Lemma close_files_handles ids : maintains handles_in_order_within (close_files ids).
Proof.
  induction ids as [|[k fid] rest IH]; cbn [close_files].
  - maintain.
  - unfold_calls. unfold _HANDLE_ERROR.
    apply maintains_bind; [maintain|]. intros err.
    destruct (err <? 0)%Z; [maintain | apply IH].
Qed.

Lemma main_handles fs argv : maintains handles_in_order_within (main fs argv).
Proof.
  unfold main. destruct (negb (List.length argv =? 3)%nat); [maintain|].
  cbn zeta. unfold_calls. unfold emit.
  apply maintains_bind; [maintain|]. intros _.
  apply maintains_bind; [maintain|]. intros _.
  apply maintains_bind.
  { unfold configure, set_rawdata_cache. unfold_calls. unfold _HANDLE_ERROR. maintain. }
  intros fapl_id.
  apply maintains_bind; [maintain|]. intros curr_alloc.
  apply maintains_bind; [maintain|]. intros _.
  apply maintains_bind; [apply scan_files_handles|]. intros st.
  apply maintains_bind; [apply close_files_handles|]. intros _.
  maintain.
Qed.

Lemma run_handles (l : L) fs argv :
  forallb fits_dset_dims (trace (snd (run l fs argv))) = true ->
  handles_in_order (trace (snd (run l fs argv))).
Proof.
  apply (main_handles fs argv (start l)). intros _. split; [reflexivity | intros h []].
Qed.

End HandlesInOrder.

(** X19. As long as no extent query is answered with more than two sizes
    (what the array [dset_dims] of the callback holds), no dataspace handle
    is left behind: however the run ends, the handles [H5Dget_space]
    returned are exactly the handles passed to [H5Sclose], in the same
    order. *)
Theorem dataspaces_are_closed {L : Type} `{HDF5 L} (l : L) fs argv :
  forallb fits_dset_dims (trace (snd (run l fs argv))) = true ->
  space_closes (trace (snd (run l fs argv))) = space_gets (trace (snd (run l fs argv))).
Proof. intros Hfit. symmetry. apply (run_handles l fs argv Hfit). Qed.

(** The run over [a.h5] and [b.h5]: three dataspaces got, three closed. *)
Lemma dataspaces_are_closed_witness :
  space_closes (trace (snd (run (Toy.boot Toy.two_files true)
                      (Toy.list_file (listed ["a.h5"; "b.h5"]%string)) Toy.argv))) =
  space_gets (trace (snd (run (Toy.boot Toy.two_files true)
                      (Toy.list_file (listed ["a.h5"; "b.h5"]%string)) Toy.argv))) /\
  List.length (space_gets (trace (snd (run (Toy.boot Toy.two_files true)
                      (Toy.list_file (listed ["a.h5"; "b.h5"]%string)) Toy.argv)))) = 3%nat.
Proof.
  split; [|reflexivity].
  apply (dataspaces_are_closed (Toy.boot Toy.two_files true)
           (Toy.list_file (listed ["a.h5"; "b.h5"]%string)) Toy.argv).
  vm_compute. reflexivity.
Defined.

(** X20. As long as no extent query is answered with more than two sizes,
    a run closes no dataset handle it did not open: every handle passed to
    [H5Dclose] was returned by an [H5Dopen] of the same run. *)
Theorem closed_datasets_were_opened {L : Type} `{HDF5 L} (l : L) fs argv :
  forallb fits_dset_dims (trace (snd (run l fs argv))) = true ->
  incl (dclose_targets (trace (snd (run l fs argv))))
       (dopen_returns (trace (snd (run l fs argv)))).
Proof. intros Hfit. apply (run_handles l fs argv Hfit). Qed.

(** The run over [a.h5] and [b.h5]: the one dataset closed, the empty one of
    [a.h5], is among the three opened. *)
Lemma closed_datasets_were_opened_witness :
  incl (dclose_targets (trace (snd (run (Toy.boot Toy.two_files true)
                         (Toy.list_file (listed ["a.h5"; "b.h5"]%string)) Toy.argv))))
       (dopen_returns (trace (snd (run (Toy.boot Toy.two_files true)
                         (Toy.list_file (listed ["a.h5"; "b.h5"]%string)) Toy.argv)))) /\
  List.length (dclose_targets (trace (snd (run (Toy.boot Toy.two_files true)
                         (Toy.list_file (listed ["a.h5"; "b.h5"]%string)) Toy.argv)))) = 1%nat.
Proof.
  split; [|reflexivity].
  apply (closed_datasets_were_opened (Toy.boot Toy.two_files true)
           (Toy.list_file (listed ["a.h5"; "b.h5"]%string)) Toy.argv).
  vm_compute. reflexivity.
Defined.

(** ** Beyond two dimensions (lines 77-78) *)

(** X22. When the visited object is a dataset and the library answers the
    extent query with more than two sizes, the callback has let the library
    write past the end of [dset_dims]: the visit is lost at that query,
    after the dataset and its dataspace have been obtained and before either
    is closed. *)
Theorem extent_beyond_two_sizes_overruns
        {L : Type} `{HDF5 L} obj name info od (p : process L)
        dset l1 space l2 ndims dims l3 :
  type info = H5O_TYPE_DATASET ->
  lib_H5Dopen obj name H5P_DEFAULT (lib p) = (dset, l1) ->
  lib_H5Dget_space dset l1 = (space, l2) ->
  lib_H5Sget_simple_extent_dims space l2 = ((ndims, dims), l3) ->
  (2 < List.length dims)%nat ->
  op_func obj name info od p =
  (Lost array_overrun,
   mk_process l3
     (trace p ++
      [EvH5Dopen obj name H5P_DEFAULT dset;
       EvH5Dget_space dset space;
       EvH5Sget_simple_extent_dims space ndims dims])
     (cout p) (cerr p) (outfile p)).
Proof.
  intros Hty Hopen Hspace Hdims Hrank.
  unfold op_func. rewrite Hty. cbn [H5O_type_eqb]. unfold_calls.
  rewrite ?bind_assoc. step_known Hopen.
  rewrite ?bind_assoc. step_known Hspace.
  rewrite ?bind_assoc. unfold read_lib at 1. unfold bind at 1. tidy.
  rewrite ?bind_assoc. step_known Hdims.
  apply Nat.ltb_lt in Hrank. unfold hsize_t in *. rewrite Hrank.
  rewrite ?bind_assoc, bind_lost. unfold after_call. tidy.
  rewrite <- !app_assoc. reflexivity.
Qed.

(** The dataset [cube] of [c.h5], of dimensions 0 x 2 x 2. *)
Lemma extent_beyond_two_sizes_overruns_witness :
  exists p',
    op_func 100 "cube" (mk_info H5O_TYPE_DATASET) (mk_op_data [])
            (start (snd (lib_H5Fopen "c.h5" 0 0 (Toy.boot Toy.three_files true)))) =
      (Lost array_overrun, p') /\
    trace p' =
      [EvH5Dopen 100 "cube" H5P_DEFAULT 101;
       EvH5Dget_space 101 102;
       EvH5Sget_simple_extent_dims 102 3 [0%N; 2%N; 2%N]].
Proof.
  eexists. split.
  - refine (@extent_beyond_two_sizes_overruns _ Toy.toy_hdf5
              100 "cube" (mk_info H5O_TYPE_DATASET) (mk_op_data [])
              (start (snd (@lib_H5Fopen _ Toy.toy_hdf5 "c.h5" 0 0
                             (Toy.boot Toy.three_files true))))
              101 _ 102 _ 3 [0%N; 2%N; 2%N] _ eq_refl eq_refl eq_refl eq_refl _).
    cbn. lia.
  - reflexivity.
Defined.

(** With [c.h5] listed between [a.h5] and [b.h5] the run is lost in the
    visit of [c.h5]: two rows are written, [b.h5] is never opened and no
    file is closed. *)
Example run_lost_at_a_cube :
  let r := run (Toy.boot Toy.three_files true)
               (Toy.list_file (listed ["a.h5"; "c.h5"; "b.h5"]%string)) Toy.argv in
  fst r = Lost array_overrun /\
  map fst (opens (trace (snd r))) = ["a.h5"; "c.h5"]%string /\
  map snd (rows (trace (snd r))) = [0; 1000]%N /\
  closes (trace (snd r)) = [] /\
  forallb fits_dset_dims (trace (snd r)) = false.
Proof. cbv zeta. repeat split; vm_compute; reflexivity. Qed.
